(** * TradingSuite: signal engines, aggregator and walk-forward backtester

    A shallow embedding of the decision logic of the repository:

    - [services/supertrend/utils.py]  (shared scorer, gate, market analyzer),
    - [services/*/service.py]         (the seven signal engines),
    - [orchestrator/app.py]           (the signal aggregator),
    - [orchestrator/run_backtests.py] (position sizing, backtest loop, metrics).

    Numbers.  A Python/numpy float is modelled by [pyfloat]: an exact rational,
    one of the two infinities, or NaN.  Comparisons with NaN are false, the
    builtins [min]/[max] keep their first argument unless the second one is
    strictly smaller/larger, and division follows numpy (a zero divisor gives
    an infinity or NaN).  Rounding error of binary64 arithmetic is outside the
    model: finite values are exact. *)

From Stdlib Require Import ZArith QArith Qround Qabs Qminmax List Sorted String
  DecimalString Bool Lia Lqa.
Import ListNotations.

Open Scope Q_scope.

(** ** Floats *)

Inductive pyfloat : Type :=
| Fin (q : Q)
| PInf
| NInf
| NaN.

Coercion Fin : Q >-> pyfloat.

Definition Qlt_bool (x y : Q) : bool := negb (Qle_bool y x).

Module PyFloat.

Definition lt (a b : pyfloat) : bool :=
  match a, b with
  | Fin x, Fin y => Qlt_bool x y
  | Fin _, PInf | NInf, Fin _ | NInf, PInf => true
  | _, _ => false
  end.

Definition le (a b : pyfloat) : bool :=
  match a, b with
  | Fin x, Fin y => Qle_bool x y
  | Fin _, PInf | NInf, Fin _ | NInf, PInf | PInf, PInf | NInf, NInf => true
  | _, _ => false
  end.

Definition gt (a b : pyfloat) : bool := lt b a.
Definition ge (a b : pyfloat) : bool := le b a.

Definition eqb (a b : pyfloat) : bool :=
  match a, b with
  | Fin x, Fin y => Qeq_bool x y
  | PInf, PInf | NInf, NInf => true
  | _, _ => false
  end.

Definition neg (a : pyfloat) : pyfloat :=
  match a with
  | Fin x => Fin (- x)
  | PInf => NInf
  | NInf => PInf
  | NaN => NaN
  end.

Definition add (a b : pyfloat) : pyfloat :=
  match a, b with
  | NaN, _ | _, NaN => NaN
  | Fin x, Fin y => Fin (x + y)
  | PInf, NInf | NInf, PInf => NaN
  | PInf, _ | _, PInf => PInf
  | NInf, _ | _, NInf => NInf
  end.

Definition sub (a b : pyfloat) : pyfloat := add a (neg b).

(** [inf * y]: the sign of the finite factor decides, [inf * 0] is NaN. *)
Definition scale_inf (positive : bool) (y : Q) : pyfloat :=
  match y ?= 0 with
  | Eq => NaN
  | Gt => if positive then PInf else NInf
  | Lt => if positive then NInf else PInf
  end.

Definition mul (a b : pyfloat) : pyfloat :=
  match a, b with
  | NaN, _ | _, NaN => NaN
  | Fin x, Fin y => Fin (x * y)
  | PInf, Fin y | Fin y, PInf => scale_inf true y
  | NInf, Fin y | Fin y, NInf => scale_inf false y
  | PInf, PInf | NInf, NInf => PInf
  | PInf, NInf | NInf, PInf => NInf
  end.

(** numpy division: [x / 0] is [inf], [-inf] or NaN by the sign of [x]. *)
Definition div (a b : pyfloat) : pyfloat :=
  match a, b with
  | NaN, _ | _, NaN => NaN
  | Fin x, Fin y =>
      if Qeq_bool y 0 then
        match x ?= 0 with Eq => NaN | Gt => PInf | Lt => NInf end
      else Fin (x / y)
  | Fin _, _ => Fin 0
  | PInf, Fin y => if Qlt_bool y 0 then NInf else PInf
  | NInf, Fin y => if Qlt_bool y 0 then PInf else NInf
  | _, _ => NaN
  end.

Definition abs (a : pyfloat) : pyfloat :=
  match a with
  | Fin x => Fin (Qabs x)
  | PInf | NInf => PInf
  | NaN => NaN
  end.

Definition isnan (a : pyfloat) : bool :=
  match a with NaN => true | _ => false end.

(** [pd.notna] *)
Definition notna (a : pyfloat) : bool := negb (isnan a).

(** Python's builtin [min(a, b)]: [b] replaces [a] only when [b < a]. *)
Definition min (a b : pyfloat) : pyfloat := if lt b a then b else a.

(** Python's builtin [max(a, b)]: [b] replaces [a] only when [b > a]. *)
Definition max (a b : pyfloat) : pyfloat := if gt b a then b else a.

(** Round half to even, the tie rule of [round]. *)
Definition round_half_even (q : Q) : Z :=
  let f := Qfloor q in
  match ((q - inject_Z f) ?= (1 # 2))%Q with
  | Lt => f
  | Gt => (f + 1)%Z
  | Eq => if Z.even f then f else (f + 1)%Z
  end.

Definition pow10 (ndigits : nat) : Q := inject_Z (10 ^ Z.of_nat ndigits).

(** [round(x, ndigits)]; infinities and NaN are returned unchanged. *)
Definition round (x : pyfloat) (ndigits : nat) : pyfloat :=
  match x with
  | Fin q => Fin (inject_Z (round_half_even (q * pow10 ndigits)) / pow10 ndigits)
  | _ => x
  end.

(** Truthiness of a float: everything but zero (NaN included) is true. *)
Definition truthy (a : pyfloat) : bool :=
  match a with Fin x => negb (Qeq_bool x 0) | _ => true end.

End PyFloat.

Declare Scope pyfloat_scope.
Delimit Scope pyfloat_scope with F.
Bind Scope pyfloat_scope with pyfloat.
Infix "+" := PyFloat.add : pyfloat_scope.
Infix "-" := PyFloat.sub : pyfloat_scope.
Infix "*" := PyFloat.mul : pyfloat_scope.
Infix "/" := PyFloat.div : pyfloat_scope.
Notation "- x" := (PyFloat.neg x) : pyfloat_scope.
Infix "<?" := PyFloat.lt : pyfloat_scope.
Infix "<=?" := PyFloat.le : pyfloat_scope.
Infix ">?" := PyFloat.gt : pyfloat_scope.
Infix ">=?" := PyFloat.ge : pyfloat_scope.

(** Equality of floats up to the representation of a rational. *)
Definition feq (a b : pyfloat) : Prop :=
  match a, b with
  | Fin x, Fin y => x == y
  | PInf, PInf | NInf, NInf | NaN, NaN => True
  | _, _ => False
  end.

Infix "=f" := feq (at level 70, no associativity).

(** [lo <= x <= hi] for a finite float. *)
Definition in_range (lo hi : Q) (x : pyfloat) : Prop :=
  match x with Fin q => lo <= q <= hi | _ => False end.

Open Scope string_scope.
Open Scope list_scope.

(** ** Shared data: [services/supertrend/utils.py]

    The seven services import the same [utils] module. *)

(** An f-string that has not been rendered: the literal template and the
    values substituted into it.  Rendering a float to text is not modelled. *)
Inductive farg : Type :=
| AFloat (x : pyfloat)
| AInt (n : Z)
| AStr (s : string).

Record fstring : Type := FString { template : string; args : list farg }.

Definition lit (s : string) : fstring := FString s [].

(** The response contract of an engine.  The early-return dictionaries carry
    no ["timestamp"] key. *)
Record signal_response : Type := {
  signal : string;
  confidence : pyfloat;
  sl_pct : pyfloat;
  tp_multiple : pyfloat;
  rationale : list fstring;
  timestamp : option string
}.

(** [market_conditions] is a dict read with [.get(key, default)]. *)
Record market_conditions : Type := {
  volatility_factor : option pyfloat;
  trend_strength : option pyfloat
}.

Definition dict_get {A : Type} (entry : option A) (default : A) : A :=
  match entry with Some v => v | None => default end.

(** Result of [MarketAnalyzer.analyze_trend]. *)
Record trend : Type := {
  direction : string;
  strength : pyfloat;
  sma_short : option pyfloat;
  sma_long : option pyfloat
}.

(** Result of [MarketAnalyzer.analyze_volatility]. *)
Record volatility : Type := {
  level : string;
  factor : pyfloat
}.

(** [series.iloc[-1]] and [series.iloc[-2]]; [None] is an IndexError. *)
Definition iloc_last {A : Type} (l : list A) : option A :=
  match rev l with x :: _ => Some x | [] => None end.

Definition iloc_last2 {A : Type} (l : list A) : option A :=
  match rev l with _ :: x :: _ => Some x | _ => None end.

Module TechnicalIndicators.

(** Left-to-right sum starting from [0.0]. *)
Definition total (l : list pyfloat) : pyfloat :=
  fold_left PyFloat.add l (Fin 0).

Definition mean (l : list pyfloat) : pyfloat :=
  (total l / Fin (inject_Z (Z.of_nat (List.length l))))%F.

(** The [window] values ending at index [i], when there are that many. *)
Definition window_at (data : list pyfloat) (window i : nat) : option (list pyfloat) :=
  if (0 <? window)%nat && (window <=? i + 1)%nat
  then Some (firstn window (skipn (i + 1 - window) data))
  else None.

(** [data.rolling(window=period).mean()]: NaN until the window is full
    (and for an empty window), then the mean of the window.  pandas slides
    a running sum, which loses track of an infinity once seen; the model is
    meant for columns without infinities. *)
Definition rolling_mean (data : list pyfloat) (window : nat) : list pyfloat :=
  map (fun i => match window_at data window i with
                | Some w => mean w
                | None => NaN
                end)
      (seq 0 (List.length data)).

Definition sma (data : list pyfloat) (period : nat) : list pyfloat :=
  rolling_mean data period.

End TechnicalIndicators.

Module SignalProcessor.

Definition calculate_confidence (signal_strength : pyfloat)
    (conditions : market_conditions) : pyfloat :=
  let base_confidence := signal_strength in
  let volatility_factor := dict_get (volatility_factor conditions) (Fin 1.0) in
  let trend_strength := dict_get (trend_strength conditions) (Fin 0.5) in
  let trend_adjustment := (trend_strength * Fin 0.2)%F in
  let volatility_adjustment := (- (volatility_factor - Fin 1.0) * Fin 0.1)%F in
  let confidence := (base_confidence + trend_adjustment + volatility_adjustment)%F in
  PyFloat.max (Fin 0.0) (PyFloat.min (Fin 1.0) confidence).

Definition validate_signal (signal : string) (confidence min_confidence : pyfloat) : bool :=
  if negb (existsb (String.eqb signal) ["LONG"; "SHORT"; "FLAT"]) then false
  else if (signal =? "FLAT")%string then true
  else (confidence >=? min_confidence)%F.

(** [now] is the reading of [datetime.now().isoformat()]. *)
Definition format_signal_response (signal : string) (confidence sl_pct tp_multiple : pyfloat)
    (rationale : list fstring) (now : string) : signal_response :=
  {| signal := signal;
     confidence := PyFloat.round confidence 3;
     sl_pct := sl_pct;
     tp_multiple := tp_multiple;
     rationale := rationale;
     timestamp := Some now |}.

End SignalProcessor.

Module MarketAnalyzer.

(** [analyze_trend(df, period)] on the ["close"] column.  [None] is the
    IndexError of [iloc[-1]] on an empty frame. *)
Definition analyze_trend (close : list pyfloat) (period : nat) : option trend :=
  if (List.length close <? period)%nat then
    Some {| direction := "FLAT"; strength := Fin 0.0;
            sma_short := None; sma_long := None |}
  else
    let sma_short := TechnicalIndicators.sma close (period / 2) in
    let sma_long := TechnicalIndicators.sma close period in
    match iloc_last close, iloc_last sma_short, iloc_last sma_long with
    | Some current_price, Some sma_short_val, Some sma_long_val =>
        let direction :=
          if (current_price >? sma_short_val)%F && (sma_short_val >? sma_long_val)%F
          then "UP"
          else if (current_price <? sma_short_val)%F && (sma_short_val <? sma_long_val)%F
          then "DOWN"
          else "SIDEWAYS" in
        let price_deviation :=
          (PyFloat.abs (current_price - sma_long_val) / sma_long_val)%F in
        let strength := PyFloat.min (Fin 1.0) (price_deviation * Fin 10)%F in
        Some {| direction := direction; strength := strength;
                sma_short := Some sma_short_val; sma_long := Some sma_long_val |}
    | _, _, _ => None
    end.

End MarketAnalyzer.

(** ** The engines: [services/*/service.py]

    An engine reads the last rows of its indicator columns; the [input] record
    of each engine holds exactly the values its [generate_signal] reads,
    together with the two market analyses it asks for.  Every engine either
    returns early with a literal dictionary or reaches the shared tail
    [confidence = calculate_confidence(...); return format_signal_response(...)],
    which is [respond] below. *)

Record scored : Type := {
  s_signal : string;
  s_strength : pyfloat;
  s_conditions : market_conditions;
  s_sl_pct : pyfloat;
  s_tp_multiple : pyfloat;
  s_rationale : list fstring
}.

Definition early_flat (why : list fstring) : signal_response :=
  {| signal := "FLAT"; confidence := Fin 0.0; sl_pct := Fin 0.0;
     tp_multiple := Fin 0.0; rationale := why; timestamp := None |}.

Definition respond (now : string) (r : signal_response + scored) : signal_response :=
  match r with
  | inl early => early
  | inr s =>
      let confidence :=
        SignalProcessor.calculate_confidence (s_strength s) (s_conditions s) in
      SignalProcessor.format_signal_response
        (s_signal s) confidence (s_sl_pct s) (s_tp_multiple s) (s_rationale s) now
  end.

Definition conditions_of (volatility_analysis : volatility) (trend_analysis : trend)
  : market_conditions :=
  {| volatility_factor := Some (factor volatility_analysis);
     trend_strength := Some (strength trend_analysis) |}.

(** The gate every [get_signal] endpoint applies to the engine's result. *)
Definition apply_gate (result : signal_response) (min_conf : pyfloat) : signal_response :=
  if negb (SignalProcessor.validate_signal (signal result) (confidence result) min_conf)
  then
    {| signal := "FLAT";
       confidence := confidence result;
       sl_pct := sl_pct result;
       tp_multiple := tp_multiple result;
       rationale := rationale result ++
         [FString "Signal confidence {} below minimum {}"
                  [AFloat (confidence result); AFloat min_conf]];
       timestamp := timestamp result |}
  else result.

(** A [/signal] request body, read with [request.get]. *)
Record request : Type := {
  symbol : option string;
  min_conf : option pyfloat
}.

(** [HTTPException(status_code, detail)] *)
Record http_exception : Type := {
  status_code : Z;
  detail : fstring
}.

(** The body shared by the seven [get_signal] endpoints: [fetched] is what
    the price fetcher returned ([None] when it failed), [rows] its length,
    [min_rows] the engine's minimum. *)
Definition serve {I : Type} (rows : I -> nat) (min_rows : nat)
    (generate_signal : I -> signal_response)
    (req : request) (fetched : option I) : http_exception + signal_response :=
  let min_conf := dict_get (min_conf req) (Fin 0.5) in
  match symbol req with
  | None | Some "" =>
      inl {| status_code := 400; detail := lit "Symbol is required" |}
  | Some sym =>
      match fetched with
      | None =>
          inl {| status_code := 404; detail := FString "Insufficient data for {}" [AStr sym] |}
      | Some df =>
          if (rows df <? min_rows)%nat then
            inl {| status_code := 404; detail := FString "Insufficient data for {}" [AStr sym] |}
          else inr (apply_gate (generate_signal df) min_conf)
      end
  end.

(** *** Band-follow: [services/supertrend/service.py] *)
Module Supertrend.

Record input : Type := {
  len_df : nat;
  current_direction : Z;
  prev_direction : Z;
  current_price : pyfloat;
  current_atr : pyfloat;
  trend_analysis : trend;
  volatility_analysis : volatility
}.

Definition evaluate (df : input) : signal_response + scored :=
  if (len_df df <? 2)%nat then
    inl (early_flat [lit "Insufficient data for signal generation"])
  else
    let current_direction := current_direction df in
    let prev_direction := prev_direction df in
    let trend_analysis := trend_analysis df in
    let volatility_analysis := volatility_analysis df in
    let '(signal, rationale) :=
      if (current_direction =? 1)%Z && (prev_direction =? -1)%Z then
        ("LONG", [lit "Supertrend changed from bearish to bullish"])
      else if (current_direction =? -1)%Z && (prev_direction =? 1)%Z then
        ("SHORT", [lit "Supertrend changed from bullish to bearish"])
      else if (current_direction =? 1)%Z then
        ("LONG", [lit "Supertrend remains bullish"])
      else if (current_direction =? -1)%Z then
        ("SHORT", [lit "Supertrend remains bearish"])
      else ("FLAT", []) in
    let signal_strength := Fin 0.5 in
    let '(signal_strength, rationale) :=
      if (signal =? "LONG") && (direction trend_analysis =? "UP") then
        ((signal_strength + Fin 0.2)%F,
         rationale ++ [lit "Trend analysis confirms bullish direction"])
      else if (signal =? "SHORT") && (direction trend_analysis =? "DOWN") then
        ((signal_strength + Fin 0.2)%F,
         rationale ++ [lit "Trend analysis confirms bearish direction"])
      else if negb (signal =? "FLAT") then
        ((signal_strength - Fin 0.1)%F,
         rationale ++ [lit "Trend analysis conflicts with Supertrend signal"])
      else (signal_strength, rationale) in
    let '(signal_strength, rationale) :=
      if level volatility_analysis =? "NORMAL" then
        ((signal_strength + Fin 0.1)%F, rationale ++ [lit "Normal volatility conditions"])
      else if level volatility_analysis =? "HIGH" then
        ((signal_strength - Fin 0.1)%F,
         rationale ++ [lit "High volatility reduces signal reliability"])
      else (signal_strength, rationale) in
    let market_conditions := conditions_of volatility_analysis trend_analysis in
    let sl_pct := Fin 0.025 in
    let tp_multiple := Fin 1.5 in
    let '(sl_pct, rationale) :=
      if (current_atr df >? Fin 0)%F then
        let atr_sl_pct := (current_atr df * Fin 2 / current_price df)%F in
        let sl_pct := PyFloat.max (Fin 0.015) (PyFloat.min (Fin 0.05) atr_sl_pct) in
        (sl_pct,
         rationale ++ [FString "Stop loss adjusted based on ATR: {:.3f}" [AFloat sl_pct]])
      else (sl_pct, rationale) in
    inr {| s_signal := signal; s_strength := signal_strength;
           s_conditions := market_conditions; s_sl_pct := sl_pct;
           s_tp_multiple := tp_multiple; s_rationale := rationale |}.

Definition generate_signal (now : string) (df : input) : signal_response :=
  respond now (evaluate df).

Definition get_signal (now : string) (req : request) (fetched : option input)
  : http_exception + signal_response :=
  serve len_df 50 (generate_signal now) req fetched.

End Supertrend.

(** *** Adaptive band-follow: [services/alphatrend/service.py] *)
Module AlphaTrend.

Record input : Type := {
  len_df : nat;
  current_direction : Z;
  prev_direction : Z;
  current_price : pyfloat;
  current_atr : pyfloat;
  trend_analysis : trend;
  volatility_analysis : volatility
}.

Definition evaluate (df : input) : signal_response + scored :=
  if (len_df df <? 2)%nat then
    inl (early_flat [lit "Insufficient data for signal generation"])
  else
    let current_direction := current_direction df in
    let prev_direction := prev_direction df in
    let trend_analysis := trend_analysis df in
    let volatility_analysis := volatility_analysis df in
    let '(signal, rationale) :=
      if (current_direction =? 1)%Z && (prev_direction =? -1)%Z then
        ("LONG", [lit "AlphaTrend changed from bearish to bullish"])
      else if (current_direction =? -1)%Z && (prev_direction =? 1)%Z then
        ("SHORT", [lit "AlphaTrend changed from bullish to bearish"])
      else if (current_direction =? 1)%Z then
        ("LONG", [lit "AlphaTrend remains bullish"])
      else if (current_direction =? -1)%Z then
        ("SHORT", [lit "AlphaTrend remains bearish"])
      else ("FLAT", []) in
    let signal_strength := Fin 0.6 in
    let '(signal_strength, rationale) :=
      if (signal =? "LONG") && (direction trend_analysis =? "UP") then
        ((signal_strength + Fin 0.2)%F,
         rationale ++ [lit "Trend analysis confirms bullish direction"])
      else if (signal =? "SHORT") && (direction trend_analysis =? "DOWN") then
        ((signal_strength + Fin 0.2)%F,
         rationale ++ [lit "Trend analysis confirms bearish direction"])
      else if negb (signal =? "FLAT") then
        ((signal_strength - Fin 0.1)%F,
         rationale ++ [lit "Trend analysis conflicts with AlphaTrend signal"])
      else (signal_strength, rationale) in
    let '(signal_strength, rationale) :=
      if (level volatility_analysis =? "NORMAL")
         && (strength trend_analysis >? Fin 0.6)%F then
        ((signal_strength + Fin 0.15)%F,
         rationale ++ [lit "Strong trend with normal volatility - optimal conditions"])
      else if level volatility_analysis =? "HIGH" then
        ((signal_strength - Fin 0.05)%F,
         rationale ++ [lit "High volatility reduces signal reliability"])
      else if (strength trend_analysis <? Fin 0.3)%F then
        ((signal_strength - Fin 0.1)%F,
         rationale ++ [lit "Weak trend reduces signal strength"])
      else (signal_strength, rationale) in
    let market_conditions := conditions_of volatility_analysis trend_analysis in
    let sl_pct := Fin 0.025 in
    let tp_multiple := Fin 1.5 in
    let '(sl_pct, rationale) :=
      if (current_atr df >? Fin 0)%F then
        let atr_sl_pct := (current_atr df * Fin 1.5 / current_price df)%F in
        let sl_pct := PyFloat.max (Fin 0.015) (PyFloat.min (Fin 0.04) atr_sl_pct) in
        (sl_pct,
         rationale ++ [FString "Stop loss adjusted based on ATR: {:.3f}" [AFloat sl_pct]])
      else (sl_pct, rationale) in
    inr {| s_signal := signal; s_strength := signal_strength;
           s_conditions := market_conditions; s_sl_pct := sl_pct;
           s_tp_multiple := tp_multiple; s_rationale := rationale |}.

Definition generate_signal (now : string) (df : input) : signal_response :=
  respond now (evaluate df).

Definition get_signal (now : string) (req : request) (fetched : option input)
  : http_exception + signal_response :=
  serve len_df 50 (generate_signal now) req fetched.

End AlphaTrend.

(** *** Cloud-based: [services/ichimoku/service.py] *)
Module Ichimoku.

Definition tenkan_period : nat := 9.
Definition kijun_period : nat := 26.
Definition senkou_span_b_period : nat := 52.

(** [chikou_span_26] and [close_26] are the two columns at [iloc[-26]]. *)
Record input : Type := {
  len_df : nat;
  current_price : pyfloat;
  tenkan_sen : pyfloat;
  kijun_sen : pyfloat;
  cloud_top : pyfloat;
  cloud_bottom : pyfloat;
  senkou_span_a : pyfloat;
  senkou_span_b : pyfloat;
  chikou_span_26 : pyfloat;
  close_26 : pyfloat;
  trend_analysis : trend;
  volatility_analysis : volatility
}.

Record analysis : Type := {
  price_vs_cloud : string;
  tenkan_vs_kijun : string;
  price_vs_tenkan : string;
  price_vs_kijun : string;
  cloud_color : string;
  chikou_position : string
}.

(** Called only past the length guard of [generate_signal], which repeats
    the guard of this function. *)
Definition analyze_ichimoku_signals (df : input) : analysis :=
  let current_price := current_price df in
  let tenkan := tenkan_sen df in
  let kijun := kijun_sen df in
  let chikou :=
    if (52 <=? len_df df)%nat then Some (chikou_span_26 df) else None in
  let chikou_truthy :=
    match chikou with Some c => PyFloat.truthy c | None => false end in
  {| price_vs_cloud :=
       if (current_price >? cloud_top df)%F then "above"
       else if (current_price <? cloud_bottom df)%F then "below"
       else "inside";
     tenkan_vs_kijun := if (tenkan >? kijun)%F then "above" else "below";
     price_vs_tenkan := if (current_price >? tenkan)%F then "above" else "below";
     price_vs_kijun := if (current_price >? kijun)%F then "above" else "below";
     cloud_color :=
       if (senkou_span_a df >? senkou_span_b df)%F then "green" else "red";
     chikou_position :=
       if chikou_truthy && (dict_get chikou NaN >? close_26 df)%F then "above"
       else if chikou_truthy then "below"
       else "unknown" |}.

Definition evaluate (df : input) : signal_response + scored :=
  if (len_df df <? kijun_period + 1)%nat then
    inl (early_flat [lit "Insufficient data for Ichimoku analysis"])
  else
    let ichimoku_analysis := analyze_ichimoku_signals df in
    let trend_analysis := trend_analysis df in
    let volatility_analysis := volatility_analysis df in
    let signal_strength := Fin 0.0 in
    (* Rule 1: price position relative to cloud *)
    let '(signal_strength, rationale) :=
      if price_vs_cloud ichimoku_analysis =? "above" then
        if cloud_color ichimoku_analysis =? "green" then
          ((signal_strength + Fin 0.3)%F, [lit "Price above green cloud - bullish"])
        else
          ((signal_strength + Fin 0.1)%F, [lit "Price above red cloud - weak bullish"])
      else if price_vs_cloud ichimoku_analysis =? "below" then
        if cloud_color ichimoku_analysis =? "red" then
          ((signal_strength + Fin 0.3)%F, [lit "Price below red cloud - bearish"])
        else
          ((signal_strength + Fin 0.1)%F, [lit "Price below green cloud - weak bearish"])
      else (signal_strength, [lit "Price inside cloud - neutral"]) in
    (* Rule 2: Tenkan vs Kijun *)
    let '(signal_strength, rationale) :=
      if tenkan_vs_kijun ichimoku_analysis =? "above" then
        ((signal_strength + Fin 0.2)%F,
         rationale ++ [lit "Tenkan above Kijun - bullish momentum"])
      else
        ((signal_strength + Fin 0.2)%F,
         rationale ++ [lit "Tenkan below Kijun - bearish momentum"]) in
    (* Rule 3: price vs Tenkan/Kijun *)
    let '(signal_strength, rationale) :=
      if (price_vs_tenkan ichimoku_analysis =? "above")
         && (price_vs_kijun ichimoku_analysis =? "above") then
        ((signal_strength + Fin 0.2)%F,
         rationale ++ [lit "Price above both Tenkan and Kijun - strong bullish"])
      else if (price_vs_tenkan ichimoku_analysis =? "below")
              && (price_vs_kijun ichimoku_analysis =? "below") then
        ((signal_strength + Fin 0.2)%F,
         rationale ++ [lit "Price below both Tenkan and Kijun - strong bearish"])
      else (signal_strength, rationale) in
    (* Rule 4: Chikou span confirmation *)
    let '(signal_strength, rationale) :=
      if chikou_position ichimoku_analysis =? "above" then
        ((signal_strength + Fin 0.1)%F,
         rationale ++ [lit "Chikou Span confirms bullish trend"])
      else if chikou_position ichimoku_analysis =? "below" then
        ((signal_strength + Fin 0.1)%F,
         rationale ++ [lit "Chikou Span confirms bearish trend"])
      else (signal_strength, rationale) in
    (* Final signal *)
    let '(signal, rationale) :=
      if (signal_strength >=? Fin 0.6)%F then
        if (price_vs_cloud ichimoku_analysis =? "above")
           && (tenkan_vs_kijun ichimoku_analysis =? "above") then
          ("LONG", rationale)
        else if (price_vs_cloud ichimoku_analysis =? "below")
                && (tenkan_vs_kijun ichimoku_analysis =? "below") then
          ("SHORT", rationale)
        else ("FLAT", rationale ++ [lit "Mixed signals - no clear direction"])
      else ("FLAT", rationale ++ [lit "Insufficient signal strength"]) in
    (* Market conditions *)
    let '(signal_strength, rationale) :=
      if negb (signal =? "FLAT") then
        let '(signal_strength, rationale) :=
          if (strength trend_analysis >? Fin 0.6)%F then
            ((signal_strength + Fin 0.1)%F,
             rationale ++ [lit "Strong trend supports Ichimoku signal"])
          else (signal_strength, rationale) in
        if level volatility_analysis =? "NORMAL" then
          ((signal_strength + Fin 0.05)%F,
           rationale ++ [lit "Normal volatility conditions"])
        else if level volatility_analysis =? "HIGH" then
          ((signal_strength - Fin 0.05)%F,
           rationale ++ [lit "High volatility reduces reliability"])
        else (signal_strength, rationale)
      else (signal_strength, rationale) in
    let market_conditions := conditions_of volatility_analysis trend_analysis in
    let sl_pct := Fin 0.03 in
    let tp_multiple := Fin 2.0 in
    let cloud_thickness :=
      (PyFloat.abs (senkou_span_a df - senkou_span_b df) / current_price df)%F in
    let '(sl_pct, rationale) :=
      if (cloud_thickness >? Fin 0.05)%F then
        let sl_pct := PyFloat.max (Fin 0.025) (PyFloat.min (Fin 0.05) cloud_thickness) in
        (sl_pct,
         rationale ++ [FString "Stop loss adjusted for thick cloud: {:.3f}" [AFloat sl_pct]])
      else (sl_pct, rationale) in
    inr {| s_signal := signal; s_strength := signal_strength;
           s_conditions := market_conditions; s_sl_pct := sl_pct;
           s_tp_multiple := tp_multiple; s_rationale := rationale |}.

Definition generate_signal (now : string) (df : input) : signal_response :=
  respond now (evaluate df).

Definition get_signal (now : string) (req : request) (fetched : option input)
  : http_exception + signal_response :=
  serve len_df 100 (generate_signal now) req fetched.

End Ichimoku.

(** *** Breakout: [services/turtle/service.py] *)
Module Turtle.

Definition entry_period : nat := 20.
Definition exit_period : nat := 10.

Record input : Type := {
  len_df : nat;
  current_price : pyfloat;
  entry_high : pyfloat;
  entry_low : pyfloat;
  exit_high : pyfloat;
  exit_low : pyfloat;
  prev_price : pyfloat;
  prev_entry_high : pyfloat;
  prev_entry_low : pyfloat;
  atr : pyfloat;
  trend_analysis : trend;
  volatility_analysis : volatility
}.

Definition evaluate (df : input) : signal_response + scored :=
  if (len_df df <? Nat.max entry_period exit_period + 1)%nat then
    inl (early_flat [lit "Insufficient data for signal generation"])
  else
    let current_price := current_price df in
    let trend_analysis := trend_analysis df in
    let volatility_analysis := volatility_analysis df in
    let signal_strength := Fin 0.5 in
    (* entry breakouts *)
    let '(signal, rationale) :=
      if (current_price >=? entry_high df)%F && (prev_price df <? prev_entry_high df)%F then
        ("LONG", [FString "Price broke above {}-day high" [AInt (Z.of_nat entry_period)];
                  lit "Turtle entry signal triggered"])
      else if (current_price <=? entry_low df)%F && (prev_price df >? prev_entry_low df)%F then
        ("SHORT", [FString "Price broke below {}-day low" [AInt (Z.of_nat entry_period)];
                   lit "Turtle entry signal triggered"])
      else ("FLAT", []) in
    (* exit signals *)
    let '(signal, rationale) :=
      if negb (signal =? "FLAT") then
        if (signal =? "LONG") && (current_price <=? exit_low df)%F then
          ("FLAT", rationale ++
             [FString "Price dropped below {}-day low" [AInt (Z.of_nat exit_period)];
              lit "Turtle exit signal triggered"])
        else if (signal =? "SHORT") && (current_price >=? exit_high df)%F then
          ("FLAT", rationale ++
             [FString "Price rose above {}-day high" [AInt (Z.of_nat exit_period)];
              lit "Turtle exit signal triggered"])
        else (signal, rationale)
      else (signal, rationale) in
    (* confidence *)
    let '(signal_strength, rationale) :=
      if negb (signal =? "FLAT") then
        let channel_width := ((entry_high df - entry_low df) / current_price)%F in
        let '(signal_strength, rationale) :=
          if (channel_width >? Fin 0.05)%F then
            ((signal_strength + Fin 0.2)%F,
             rationale ++ [lit "Wide channel indicates strong breakout"])
          else
            ((signal_strength - Fin 0.1)%F,
             rationale ++ [lit "Narrow channel may indicate weak breakout"]) in
        if (signal =? "LONG") && (direction trend_analysis =? "UP") then
          ((signal_strength + Fin 0.2)%F,
           rationale ++ [lit "Trend analysis confirms bullish direction"])
        else if (signal =? "SHORT") && (direction trend_analysis =? "DOWN") then
          ((signal_strength + Fin 0.2)%F,
           rationale ++ [lit "Trend analysis confirms bearish direction"])
        else if negb (signal =? "FLAT") then
          ((signal_strength - Fin 0.1)%F,
           rationale ++ [lit "Trend analysis conflicts with signal"])
        else (signal_strength, rationale)
      else (signal_strength, rationale) in
    let '(signal_strength, rationale) :=
      if level volatility_analysis =? "NORMAL" then
        ((signal_strength + Fin 0.1)%F, rationale ++ [lit "Normal volatility conditions"])
      else if level volatility_analysis =? "HIGH" then
        ((signal_strength - Fin 0.1)%F,
         rationale ++ [lit "High volatility reduces signal reliability"])
      else (signal_strength, rationale) in
    let market_conditions := conditions_of volatility_analysis trend_analysis in
    let sl_pct := Fin 0.025 in
    let tp_multiple := Fin 2.0 in
    let '(sl_pct, rationale) :=
      if (atr df >? Fin 0)%F then
        let atr_sl_pct := (atr df * Fin 2 / current_price)%F in
        let sl_pct := PyFloat.max (Fin 0.02) (PyFloat.min (Fin 0.06) atr_sl_pct) in
        (sl_pct, rationale ++ [FString "Stop loss set at 2*ATR: {:.3f}" [AFloat sl_pct]])
      else (sl_pct, rationale) in
    inr {| s_signal := signal; s_strength := signal_strength;
           s_conditions := market_conditions; s_sl_pct := sl_pct;
           s_tp_multiple := tp_multiple; s_rationale := rationale |}.

Definition generate_signal (now : string) (df : input) : signal_response :=
  respond now (evaluate df).

Definition get_signal (now : string) (req : request) (fetched : option input)
  : http_exception + signal_response :=
  serve len_df 50 (generate_signal now) req fetched.

End Turtle.

(** *** Composite vote: [services/qqe_ssl_wae/service.py] *)
Module Composite.

Definition qqe_period : nat := 14.
Definition ssl_period : nat := 10.
Definition wae_period : nat := 20.

Record input : Type := {
  len_df : nat;
  current_price : pyfloat;
  qqe_line : pyfloat;
  qqe_signal : pyfloat;
  qqe_rsi : pyfloat;
  ssl_direction : Z;
  ssl_up : pyfloat;
  ssl_down : pyfloat;
  wae_current : pyfloat;
  wae_prev : pyfloat;
  trend_analysis : trend;
  volatility_analysis : volatility
}.

(** [signals] keeps the insertion order of the dict: qqe, ssl, wae. *)
Record composite : Type := {
  signals : list (string * string);
  consensus : string;
  long_count : nat;
  short_count : nat
}.

Definition count_votes (vote : string) (signals : list (string * string)) : nat :=
  List.length (filter (fun kv => snd kv =? vote) signals).

(** Called only past the length guard of [generate_signal], which repeats
    the guard of this function. *)
Definition analyze_composite_signals (df : input) : composite :=
  let current_price := current_price df in
  let qqe :=
    if (qqe_line df >? qqe_signal df)%F && (qqe_rsi df >? Fin 50)%F then "LONG"
    else if (qqe_line df <? qqe_signal df)%F && (qqe_rsi df <? Fin 50)%F then "SHORT"
    else "FLAT" in
  let ssl :=
    if (ssl_direction df =? 1)%Z && (current_price >? ssl_up df)%F then "LONG"
    else if (ssl_direction df =? -1)%Z && (current_price <? ssl_down df)%F then "SHORT"
    else "FLAT" in
  let wae :=
    if (wae_current df >? wae_prev df)%F && (wae_current df >? Fin 0)%F then "LONG"
    else if (wae_current df <? wae_prev df)%F && (wae_current df <? Fin 0)%F then "SHORT"
    else "FLAT" in
  let signals := [("qqe", qqe); ("ssl", ssl); ("wae", wae)] in
  let long_count := count_votes "LONG" signals in
  let short_count := count_votes "SHORT" signals in
  let consensus :=
    if (2 <=? long_count)%nat then "LONG"
    else if (2 <=? short_count)%nat then "SHORT"
    else "FLAT" in
  {| signals := signals; consensus := consensus;
     long_count := long_count; short_count := short_count |}.

(** [indicator.upper()] on the three keys. *)
Definition upper (indicator : string) : string :=
  if indicator =? "qqe" then "QQE"
  else if indicator =? "ssl" then "SSL"
  else if indicator =? "wae" then "WAE"
  else indicator.

Definition of_count (n : nat) : pyfloat := Fin (inject_Z (Z.of_nat n)).

Definition evaluate (df : input) : signal_response + scored :=
  if (len_df df <? Nat.max (Nat.max qqe_period ssl_period) wae_period + 1)%nat then
    inl (early_flat [lit "Insufficient data for composite analysis"])
  else
    let composite_analysis := analyze_composite_signals df in
    let trend_analysis := trend_analysis df in
    let volatility_analysis := volatility_analysis df in
    let signal := consensus composite_analysis in
    let signal_strength := Fin 0.0 in
    let '(signal_strength, rationale) :=
      if signal =? "LONG" then
        ((Fin 0.4 + of_count (long_count composite_analysis) * Fin 0.2)%F,
         [FString "QQE-SSL-WAE consensus: {}/3 indicators bullish"
                  [AInt (Z.of_nat (long_count composite_analysis))]])
      else if signal =? "SHORT" then
        ((Fin 0.4 + of_count (short_count composite_analysis) * Fin 0.2)%F,
         [FString "QQE-SSL-WAE consensus: {}/3 indicators bearish"
                  [AInt (Z.of_nat (short_count composite_analysis))]])
      else (signal_strength, [lit "QQE-SSL-WAE consensus: No clear direction"]) in
    let rationale :=
      rationale ++
      map (fun kv => FString "{}: {}" [AStr (upper (fst kv)); AStr (snd kv)])
          (signals composite_analysis) in
    let '(signal_strength, rationale) :=
      if negb (signal =? "FLAT") then
        let '(signal_strength, rationale) :=
          if (strength trend_analysis >? Fin 0.6)%F then
            ((signal_strength + Fin 0.1)%F,
             rationale ++ [lit "Strong trend supports composite signal"])
          else (signal_strength, rationale) in
        if level volatility_analysis =? "NORMAL" then
          ((signal_strength + Fin 0.05)%F,
           rationale ++ [lit "Normal volatility conditions"])
        else if level volatility_analysis =? "HIGH" then
          ((signal_strength - Fin 0.05)%F,
           rationale ++ [lit "High volatility reduces reliability"])
        else (signal_strength, rationale)
      else (signal_strength, rationale) in
    let market_conditions := conditions_of volatility_analysis trend_analysis in
    let sl_pct := Fin 0.025 in
    let tp_multiple := Fin 1.5 in
    let '(sl_pct, rationale) :=
      if (factor volatility_analysis >? Fin 1.2)%F then
        let sl_pct := PyFloat.min (Fin 0.04) (sl_pct * factor volatility_analysis)%F in
        (sl_pct,
         rationale ++
           [FString "Stop loss adjusted for high volatility: {:.3f}" [AFloat sl_pct]])
      else (sl_pct, rationale) in
    inr {| s_signal := signal; s_strength := signal_strength;
           s_conditions := market_conditions; s_sl_pct := sl_pct;
           s_tp_multiple := tp_multiple; s_rationale := rationale |}.

Definition generate_signal (now : string) (df : input) : signal_response :=
  respond now (evaluate df).

Definition get_signal (now : string) (req : request) (fetched : option input)
  : http_exception + signal_response :=
  serve len_df 100 (generate_signal now) req fetched.

End Composite.

(** *** Mean reversion: [services/meanrev/service.py] *)
Module MeanReversion.

Definition rsi_period : nat := 14.
Definition rsi_oversold : pyfloat := Fin 30.
Definition rsi_overbought : pyfloat := Fin 70.
Definition bb_period : nat := 20.
Definition adx_period : nat := 14.
Definition adx_threshold : pyfloat := Fin 25.

Record input : Type := {
  len_df : nat;
  current_price : pyfloat;
  current_rsi : pyfloat;
  current_zscore : pyfloat;
  current_adx : pyfloat;
  current_atr : pyfloat;
  bb_middle : pyfloat;
  trend_analysis : trend;
  volatility_analysis : volatility
}.

Definition evaluate (df : input) : signal_response + scored :=
  if (len_df df <? Nat.max (Nat.max rsi_period bb_period) adx_period + 1)%nat then
    inl (early_flat [lit "Insufficient data for signal generation"])
  else
    let current_price := current_price df in
    let current_rsi := current_rsi df in
    let current_zscore := current_zscore df in
    let current_adx := current_adx df in
    let current_atr := current_atr df in
    let volatility_analysis := volatility_analysis df in
    let signal_strength := Fin 0.5 in
    (* ADX gate *)
    if PyFloat.notna current_adx && (current_adx >? adx_threshold)%F then
      inl (early_flat
             [FString "ADX too high ({:.1f} > {})" [AFloat current_adx; AFloat adx_threshold];
              lit "Trend too strong for mean reversion"])
    else
      let '(signal, signal_strength, rationale) :=
        if PyFloat.notna current_rsi && PyFloat.notna current_zscore then
          if (current_rsi <? rsi_oversold)%F && (current_zscore <? Fin (-1.0))%F then
            let rationale :=
              [FString "RSI oversold: {:.1f} < {}" [AFloat current_rsi; AFloat rsi_oversold];
               FString "Price below BB lower band (z={:.2f})" [AFloat current_zscore];
               lit "Mean reversion setup detected"] in
            if (current_rsi <? Fin 25)%F || (current_zscore <? Fin (-2.0))%F then
              ("LONG", (signal_strength + Fin 0.25)%F,
               rationale ++ [lit "Extremely oversold conditions"])
            else ("LONG", (signal_strength + Fin 0.15)%F, rationale)
          else if (current_rsi >? rsi_overbought)%F && (current_zscore >? Fin 1.0)%F then
            let rationale :=
              [FString "RSI overbought: {:.1f} > {}"
                       [AFloat current_rsi; AFloat rsi_overbought];
               FString "Price above BB upper band (z={:.2f})" [AFloat current_zscore];
               lit "Mean reversion setup detected"] in
            if (current_rsi >? Fin 75)%F || (current_zscore >? Fin 2.0)%F then
              ("SHORT", (signal_strength + Fin 0.25)%F,
               rationale ++ [lit "Extremely overbought conditions"])
            else ("SHORT", (signal_strength + Fin 0.15)%F, rationale)
          else ("FLAT", signal_strength, [])
        else ("FLAT", signal_strength, []) in
      let '(signal_strength, rationale) :=
        if negb (signal =? "FLAT") then
          let '(signal_strength, rationale) :=
            if PyFloat.notna current_adx then
              if (current_adx <? Fin 20)%F then
                ((signal_strength + Fin 0.15)%F,
                 rationale ++ [FString "ADX confirms weak trend: {:.1f}" [AFloat current_adx]])
              else
                ((signal_strength + Fin 0.05)%F,
                 rationale ++ [FString "ADX acceptable: {:.1f}" [AFloat current_adx]])
            else (signal_strength, rationale) in
          let '(signal_strength, rationale) :=
            if level volatility_analysis =? "NORMAL" then
              ((signal_strength + Fin 0.1)%F,
               rationale ++ [lit "Normal volatility favors mean reversion"])
            else if level volatility_analysis =? "LOW" then
              ((signal_strength + Fin 0.05)%F,
               rationale ++ [lit "Low volatility conditions"])
            else
              ((signal_strength - Fin 0.1)%F,
               rationale ++ [lit "High volatility reduces reliability"]) in
          let distance_from_mean :=
            PyFloat.abs ((current_price - bb_middle df) / bb_middle df)%F in
          if (distance_from_mean >? Fin 0.02)%F then
            ((signal_strength + Fin 0.1)%F,
             rationale ++ [FString "Good distance from mean: {:.1%}" [AFloat distance_from_mean]])
          else (signal_strength, rationale)
        else (signal_strength, rationale) in
      let market_conditions :=
        {| volatility_factor := Some (factor volatility_analysis);
           trend_strength :=
             Some (if PyFloat.notna current_adx
                   then PyFloat.max (Fin 0) (Fin 1 - current_adx / Fin 50)%F
                   else Fin 0.5) |} in
      let sl_pct := Fin 0.018 in
      let tp_multiple := Fin 1.2 in
      let '(sl_pct, rationale) :=
        if (current_atr >? Fin 0)%F && (current_price >? Fin 0)%F then
          let atr_sl_pct := (current_atr * Fin 1.8 / current_price)%F in
          let sl_pct := PyFloat.max (Fin 0.015) (PyFloat.min (Fin 0.04) atr_sl_pct) in
          (sl_pct, rationale ++ [FString "Stop loss set at 1.8*ATR: {:.3f}" [AFloat sl_pct]])
        else (sl_pct, rationale) in
      inr {| s_signal := signal; s_strength := signal_strength;
             s_conditions := market_conditions; s_sl_pct := sl_pct;
             s_tp_multiple := tp_multiple; s_rationale := rationale |}.

Definition generate_signal (now : string) (df : input) : signal_response :=
  respond now (evaluate df).

Definition get_signal (now : string) (req : request) (fetched : option input)
  : http_exception + signal_response :=
  serve len_df 50 (generate_signal now) req fetched.

End MeanReversion.

(** *** Crossover trend: [services/trend/service.py] *)
Module Trend.

Definition ema_fast : nat := 50.
Definition ema_slow : nat := 200.
Definition macd_fast : nat := 12.
Definition macd_slow : nat := 26.
Definition macd_signal : nat := 9.

Record input : Type := {
  len_df : nat;
  current_price : pyfloat;
  current_ema_fast : pyfloat;
  current_ema_slow : pyfloat;
  prev_ema_fast : pyfloat;
  prev_ema_slow : pyfloat;
  current_macd : pyfloat;
  current_macd_signal : pyfloat;
  prev_macd : pyfloat;
  prev_macd_signal : pyfloat;
  current_macd_hist : pyfloat;
  current_atr : pyfloat;
  trend_analysis : trend;
  volatility_analysis : volatility
}.

Definition periods : list farg :=
  [AInt (Z.of_nat ema_fast); AInt (Z.of_nat ema_slow)].

Definition evaluate (df : input) : signal_response + scored :=
  if (len_df df <? Nat.max ema_slow (macd_slow + macd_signal) + 10)%nat then
    inl (early_flat [lit "Insufficient data for signal generation"])
  else
    let current_price := current_price df in
    let current_ema_fast := current_ema_fast df in
    let current_ema_slow := current_ema_slow df in
    let current_macd_hist := current_macd_hist df in
    let current_atr := current_atr df in
    let trend_analysis := trend_analysis df in
    let volatility_analysis := volatility_analysis df in
    let signal_strength := Fin 0.5 in
    let ema_bullish := (current_ema_fast >? current_ema_slow)%F in
    let ema_bearish := (current_ema_fast <? current_ema_slow)%F in
    let ema_crossover_up :=
      (prev_ema_fast df <=? prev_ema_slow df)%F && (current_ema_fast >? current_ema_slow)%F in
    let ema_crossover_down :=
      (prev_ema_fast df >=? prev_ema_slow df)%F && (current_ema_fast <? current_ema_slow)%F in
    let macd_bullish := (current_macd df >? current_macd_signal df)%F in
    let macd_bearish := (current_macd df <? current_macd_signal df)%F in
    let macd_crossover_up :=
      (prev_macd df <=? prev_macd_signal df)%F
      && (current_macd df >? current_macd_signal df)%F in
    let macd_crossover_down :=
      (prev_macd df >=? prev_macd_signal df)%F
      && (current_macd df <? current_macd_signal df)%F in
    let macd_strength :=
      PyFloat.min (PyFloat.abs current_macd_hist / PyFloat.abs current_price * Fin 1000)%F
                  (Fin 0.15) in
    let '(signal, signal_strength, rationale) :=
      if ema_bullish && macd_bullish then
        let '(signal_strength, rationale) :=
          if ema_crossover_up then
            ((signal_strength + Fin 0.25)%F, [FString "EMA golden cross: {}/{}" periods])
          else
            ((signal_strength + Fin 0.15)%F, [FString "EMA{} above EMA{} (uptrend)" periods]) in
        let '(signal_strength, rationale) :=
          if macd_crossover_up then
            ((signal_strength + Fin 0.2)%F, rationale ++ [lit "MACD bullish crossover"])
          else
            ((signal_strength + Fin 0.1)%F, rationale ++ [lit "MACD above signal line"]) in
        if (current_macd_hist >? Fin 0)%F then
          ("LONG", (signal_strength + macd_strength)%F,
           rationale ++ [lit "MACD momentum positive"])
        else ("LONG", signal_strength, rationale)
      else if ema_bearish && macd_bearish then
        let '(signal_strength, rationale) :=
          if ema_crossover_down then
            ((signal_strength + Fin 0.25)%F, [FString "EMA death cross: {}/{}" periods])
          else
            ((signal_strength + Fin 0.15)%F,
             [FString "EMA{} below EMA{} (downtrend)" periods]) in
        let '(signal_strength, rationale) :=
          if macd_crossover_down then
            ((signal_strength + Fin 0.2)%F, rationale ++ [lit "MACD bearish crossover"])
          else
            ((signal_strength + Fin 0.1)%F, rationale ++ [lit "MACD below signal line"]) in
        if (current_macd_hist <? Fin 0)%F then
          ("SHORT", (signal_strength + macd_strength)%F,
           rationale ++ [lit "MACD momentum negative"])
        else ("SHORT", signal_strength, rationale)
      else if (ema_bullish && macd_bearish) || (ema_bearish && macd_bullish) then
        ("FLAT", signal_strength,
         [lit "Mixed signals between EMA and MACD"; lit "Waiting for alignment"])
      else ("FLAT", signal_strength, []) in
    let '(signal_strength, rationale) :=
      if negb (signal =? "FLAT") then
        (* trend alignment *)
        let '(signal_strength, rationale) :=
          if (signal =? "LONG") && (direction trend_analysis =? "UP") then
            ((signal_strength + Fin 0.15)%F,
             rationale ++ [lit "Overall trend confirms bullish direction"])
          else if (signal =? "SHORT") && (direction trend_analysis =? "DOWN") then
            ((signal_strength + Fin 0.15)%F,
             rationale ++ [lit "Overall trend confirms bearish direction"])
          else if negb (signal =? "FLAT") then
            ((signal_strength - Fin 0.1)%F,
             rationale ++ [lit "Trend analysis shows mixed signals"])
          else (signal_strength, rationale) in
        (* price position relative to the EMAs *)
        let '(signal_strength, rationale) :=
          if signal =? "LONG" then
            if (current_price >? current_ema_fast)%F
               && (current_ema_fast >? current_ema_slow)%F then
              ((signal_strength + Fin 0.1)%F,
               rationale ++ [lit "Price above both EMAs (strong uptrend)"])
            else if (current_price <? current_ema_fast)%F then
              ((signal_strength - Fin 0.1)%F,
               rationale ++ [lit "Price below fast EMA (potential weakness)"])
            else (signal_strength, rationale)
          else if signal =? "SHORT" then
            if (current_price <? current_ema_fast)%F
               && (current_ema_fast <? current_ema_slow)%F then
              ((signal_strength + Fin 0.1)%F,
               rationale ++ [lit "Price below both EMAs (strong downtrend)"])
            else if (current_price >? current_ema_fast)%F then
              ((signal_strength - Fin 0.1)%F,
               rationale ++ [lit "Price above fast EMA (potential weakness)"])
            else (signal_strength, rationale)
          else (signal_strength, rationale) in
        (* volatility check *)
        if level volatility_analysis =? "NORMAL" then
          ((signal_strength + Fin 0.1)%F, rationale ++ [lit "Normal volatility conditions"])
        else if level volatility_analysis =? "HIGH" then
          ((signal_strength - Fin 0.05)%F, rationale ++ [lit "Elevated volatility"])
        else (signal_strength, rationale)
      else (signal_strength, rationale) in
    let market_conditions := conditions_of volatility_analysis trend_analysis in
    let sl_pct := Fin 0.025 in
    let tp_multiple := Fin 1.5 in
    let '(sl_pct, rationale) :=
      if (current_atr >? Fin 0)%F && (current_price >? Fin 0)%F then
        let atr_sl_pct := (current_atr * Fin 2.5 / current_price)%F in
        let sl_pct := PyFloat.max (Fin 0.02) (PyFloat.min (Fin 0.05) atr_sl_pct) in
        (sl_pct, rationale ++ [FString "Stop loss set at 2.5*ATR: {:.3f}" [AFloat sl_pct]])
      else (sl_pct, rationale) in
    inr {| s_signal := signal; s_strength := signal_strength;
           s_conditions := market_conditions; s_sl_pct := sl_pct;
           s_tp_multiple := tp_multiple; s_rationale := rationale |}.

Definition generate_signal (now : string) (df : input) : signal_response :=
  respond now (evaluate df).

Definition get_signal (now : string) (req : request) (fetched : option input)
  : http_exception + signal_response :=
  serve len_df 200 (generate_signal now) req fetched.

End Trend.

(** The seven engines behind one type: an engine together with the rows it
    reads. *)
Inductive engine_input : Type :=
| OfSupertrend (df : Supertrend.input)
| OfAlphaTrend (df : AlphaTrend.input)
| OfIchimoku (df : Ichimoku.input)
| OfComposite (df : Composite.input)
| OfTurtle (df : Turtle.input)
| OfMeanReversion (df : MeanReversion.input)
| OfTrend (df : Trend.input).

Definition evaluate (e : engine_input) : signal_response + scored :=
  match e with
  | OfSupertrend df => Supertrend.evaluate df
  | OfAlphaTrend df => AlphaTrend.evaluate df
  | OfIchimoku df => Ichimoku.evaluate df
  | OfComposite df => Composite.evaluate df
  | OfTurtle df => Turtle.evaluate df
  | OfMeanReversion df => MeanReversion.evaluate df
  | OfTrend df => Trend.evaluate df
  end.

Definition generate_signal (now : string) (e : engine_input) : signal_response :=
  match e with
  | OfSupertrend df => Supertrend.generate_signal now df
  | OfAlphaTrend df => AlphaTrend.generate_signal now df
  | OfIchimoku df => Ichimoku.generate_signal now df
  | OfComposite df => Composite.generate_signal now df
  | OfTurtle df => Turtle.generate_signal now df
  | OfMeanReversion df => MeanReversion.generate_signal now df
  | OfTrend df => Trend.generate_signal now df
  end.

(** ** The aggregator: [orchestrator/app.py] *)
Module Orchestrator.

Definition SERVICE_URLS : list (string * string) :=
  [("supertrend", "http://supertrend:8000");
   ("alphatrend", "http://alphatrend:8000");
   ("ichimoku", "http://ichimoku:8000");
   ("qqe_ssl_wae", "http://qqe_ssl_wae:8000");
   ("turtle", "http://turtle:8000");
   ("meanrev", "http://meanrev:8000");
   ("trend", "http://trend:8000")].

(** [SERVICE_URLS.keys()] *)
Definition keys : list string := map fst SERVICE_URLS.

Record TradingOrchestrator : Type := {
  min_confidence : pyfloat;
  min_holding_days : Z;
  default_sl_pct : pyfloat;
  default_tp_multiple : pyfloat
}.

(** [TradingOrchestrator.__init__] *)
Definition orchestrator : TradingOrchestrator :=
  {| min_confidence := Fin 0.7; min_holding_days := 7;
     default_sl_pct := Fin 0.025; default_tp_multiple := Fin 1.5 |}.

(** What one POST to a service's [/signal] comes to: a decoded body (the
    2xx replies of the seven services always carry the keys the aggregator
    reads), the [HTTPStatusError] of [raise_for_status] (status code and
    response text), or any other exception (its [str(e)] and its type name;
    a timeout, a refused connection or an undecodable body is one of
    these). *)
Inductive outcome : Type :=
| Replied (body : signal_response)
| HTTPStatusError (status_code : Z) (text : string)
| Raised (str_e : string) (type_name : string).

Definition str_int (n : Z) : string := NilZero.string_of_int (Z.to_int n).

Definition get_signal_from_service (service_name : string) (o : outcome)
  : signal_response :=
  match o with
  | Replied body => body
  | HTTPStatusError status_code text =>
      let error_msg :=
        if negb (text =? "") then ("HTTP " ++ str_int status_code ++ ": " ++ text)%string
        else ("HTTP " ++ str_int status_code)%string in
      {| signal := "FLAT"; confidence := Fin 0.0; sl_pct := Fin 0.0;
         tp_multiple := Fin 0.0;
         rationale := [FString "Service HTTP error: {}" [AStr error_msg]];
         timestamp := None |}
  | Raised str_e type_name =>
      let error_msg :=
        if negb (str_e =? "") then str_e
        else ("Unknown error: " ++ type_name)%string in
      {| signal := "FLAT"; confidence := Fin 0.0; sl_pct := Fin 0.0;
         tp_multiple := Fin 0.0;
         rationale := [FString "Service error: {}" [AStr error_msg]];
         timestamp := None |}
  end.

Record component : Type := {
  svc : string;
  c_signal : string;
  c_confidence : pyfloat;
  c_rationale : list fstring
}.

Record metadata : Type := {
  total_signals : nat;
  m_valid_signals : nat;
  m_long_signals : nat;
  m_short_signals : nat;
  min_confidence_threshold : pyfloat;
  m_timestamp : string
}.

Record aggregated : Type := {
  decision : string;
  a_confidence : pyfloat;
  components : list component;
  a_sl_pct : pyfloat;
  a_tp_multiple : pyfloat;
  a_metadata : metadata
}.

(** The local variables of the loop of [aggregate_signals]. *)
Record tally : Type := {
  t_components : list component;
  long_signals : nat;
  short_signals : nat;
  total_confidence : pyfloat;
  valid_signals : nat
}.

Definition tally0 : tally :=
  {| t_components := []; long_signals := 0; short_signals := 0;
     total_confidence := Fin 0.0; valid_signals := 0 |}.

(** One iteration of [for i, (service_name, result) in enumerate(zip(...))]. *)
Definition tally_step (t : tally) (entry : string * signal_response) : tally :=
  let '(service_name, result) := entry in
  let components :=
    t_components t ++
    [{| svc := service_name; c_signal := signal result;
        c_confidence := confidence result; c_rationale := rationale result |}] in
  if negb (signal result =? "FLAT") then
    {| t_components := components;
       long_signals :=
         if signal result =? "LONG" then long_signals t + 1 else long_signals t;
       short_signals :=
         if signal result =? "LONG" then short_signals t
         else if signal result =? "SHORT" then short_signals t + 1
         else short_signals t;
       total_confidence := (total_confidence t + confidence result)%F;
       valid_signals := valid_signals t + 1 |}
  else
    {| t_components := components;
       long_signals := long_signals t;
       short_signals := short_signals t;
       total_confidence := total_confidence t;
       valid_signals := valid_signals t |}.

Definition of_count (n : nat) : pyfloat := Fin (inject_Z (Z.of_nat n)).

(** The end of [aggregate_signals]: the decision drawn from the counters
    the loop has filled. *)
Definition conclude (self : TradingOrchestrator) (t : tally)
    (min_conf : pyfloat) (now : string) : aggregated :=
  let '(decision, confidence) :=
    if (valid_signals t =? 0)%nat then ("FLAT", Fin 0.0)
    else
      let avg_confidence := (total_confidence t / of_count (valid_signals t))%F in
      if (avg_confidence <? min_conf)%F then ("FLAT", avg_confidence)
      else
        let decision :=
          if (short_signals t <? long_signals t)%nat then "LONG"
          else if (long_signals t <? short_signals t)%nat then "SHORT"
          else "FLAT" in
        (decision, avg_confidence) in
  {| decision := decision;
     a_confidence := PyFloat.round confidence 3;
     components := t_components t;
     a_sl_pct := default_sl_pct self;
     a_tp_multiple := default_tp_multiple self;
     a_metadata :=
       {| total_signals := List.length SERVICE_URLS;
          m_valid_signals := valid_signals t;
          m_long_signals := long_signals t;
          m_short_signals := short_signals t;
          min_confidence_threshold := min_conf;
          m_timestamp := now |} |}.

(** The part of [aggregate_signals] after [asyncio.gather]: [results] are
    the replies in the order of [SERVICE_URLS]; the loop runs over
    [zip(SERVICE_URLS.keys(), results)]. *)
Definition reduce (self : TradingOrchestrator) (results : list signal_response)
    (min_conf : pyfloat) (now : string) : aggregated :=
  conclude self (fold_left tally_step (combine keys results) tally0) min_conf now.

(** [aggregate_signals]: [query service] is what the request to [service]
    comes to.  The seven requests are independent, so the concurrency of
    [asyncio.gather] is not visible in the result, which keeps the order of
    the tasks. *)
Definition aggregate_signals (self : TradingOrchestrator) (query : string -> outcome)
    (min_conf : pyfloat) (now : string) : aggregated :=
  let results := map (fun service => get_signal_from_service service (query service)) keys in
  reduce self results min_conf now.

End Orchestrator.

(** ** The backtester: [orchestrator/run_backtests.py] *)
Module Backtest.

Record BacktestRunner : Type := {
  min_confidence : pyfloat;
  min_holding_days : Z;
  initial_capital : pyfloat;
  commission_rate : pyfloat
}.

(** [BacktestRunner.__init__] *)
Definition runner : BacktestRunner :=
  {| min_confidence := Fin 0.7; min_holding_days := 7;
     initial_capital := Fin 100000; commission_rate := Fin 0.001 |}.

(** The dictionary [get_trading_signal] returns; ["sl_pct"] may be missing. *)
Record decision : Type := {
  d_decision : string;
  d_confidence : pyfloat;
  d_sl_pct : option pyfloat
}.

(** [get_trading_signal]: the decoded reply of [/decide], or the fallback
    of the [except] branch when the request failed ([None]). *)
Definition get_trading_signal (reply : option decision) : decision :=
  match reply with
  | Some d => d
  | None => {| d_decision := "FLAT"; d_confidence := Fin 0.0; d_sl_pct := None |}
  end.

(** In the loop the price is a numpy float, so a zero divisor gives an
    infinity (or NaN) and not a ZeroDivisionError. *)
Definition calculate_position_size (signal : decision)
    (current_price available_capital : pyfloat) : pyfloat :=
  if d_decision signal =? "FLAT" then Fin 0.0
  else
    let risk_amount := (available_capital * Fin 0.02)%F in
    let sl_pct := dict_get (d_sl_pct signal) (Fin 0.025) in
    let position_size := (risk_amount / (current_price * sl_pct))%F in
    let max_position_value := (available_capital * Fin 0.95)%F in
    let max_position_size := (max_position_value / current_price)%F in
    PyFloat.min position_size max_position_size.

(** A pandas [Timestamp], in nanoseconds since the epoch. *)
Definition Timestamp : Type := Z.

Definition nanoseconds_per_day : Z := 86400 * 1000000000.

(** [(a - b).days]: whole days of a [Timedelta], rounded down. *)
Definition days_between (a b : Timestamp) : Z := ((a - b) / nanoseconds_per_day)%Z.

(** A row of the price frame: its index and its ["close"] column, the two
    things the backtester reads. *)
Record bar : Type := {
  date : Timestamp;
  close : pyfloat
}.

Record position : Type := {
  entry_date : Timestamp;
  side : string;
  entry_price : pyfloat;
  size : pyfloat;
  signal_confidence : pyfloat
}.

Record trade : Type := {
  t_entry_date : Timestamp;
  exit_date : Timestamp;
  t_side : string;
  t_entry_price : pyfloat;
  exit_price : pyfloat;
  t_size : pyfloat;
  pnl : pyfloat;
  commission : pyfloat;
  days_held : Z;
  t_signal_confidence : pyfloat
}.

(** The variables the loop of [run_walk_forward_backtest] updates. *)
Record state : Type := {
  trades : list trade;
  current_position : option position;
  capital : pyfloat;
  equity_curve : list pyfloat
}.

Definition initial_state (self : BacktestRunner) : state :=
  {| trades := []; current_position := None;
     capital := initial_capital self; equity_curve := [initial_capital self] |}.

(** One iteration of the loop, at the bar [(current_date, current_price)]
    with the signal fetched for it. *)
Definition step (self : BacktestRunner) (st : state)
    (current_date : Timestamp) (current_price : pyfloat) (signal : decision) : state :=
  (* Handle existing position *)
  let '(trades, current_position, capital) :=
    match current_position st with
    | Some p =>
        let days_held := days_between current_date (entry_date p) in
        if (days_held >=? min_holding_days self)%Z then
          let exit_price := current_price in
          let pnl :=
            if side p =? "LONG" then ((exit_price - entry_price p) * size p)%F
            else ((entry_price p - exit_price) * size p)%F in
          let commission :=
            ((entry_price p + exit_price) * size p * commission_rate self)%F in
          let pnl := (pnl - commission)%F in
          let capital := (capital st + pnl)%F in
          let trade :=
            {| t_entry_date := entry_date p; exit_date := current_date;
               t_side := side p; t_entry_price := entry_price p;
               exit_price := exit_price; t_size := size p; pnl := pnl;
               commission := commission; days_held := days_held;
               t_signal_confidence := signal_confidence p |} in
          (trades st ++ [trade], None, capital)
        else (trades st, Some p, capital st)
    | None => (trades st, None, capital st)
    end in
  (* Handle new position *)
  let current_position :=
    match current_position with
    | Some p => Some p
    | None =>
        if negb (d_decision signal =? "FLAT") then
          let position_size := calculate_position_size signal current_price capital in
          if (position_size >? Fin 0)%F then
            Some {| entry_date := current_date; side := d_decision signal;
                    entry_price := current_price; size := position_size;
                    signal_confidence := d_confidence signal |}
          else None
        else None
    end in
  (* Update equity curve *)
  {| trades := trades; current_position := current_position;
     capital := capital; equity_curve := equity_curve st ++ [capital] |}.

(** The block after the loop: close any remaining position at the last
    row of the frame. *)
Definition close_remaining (self : BacktestRunner) (st : state) (final : bar) : state :=
  match current_position st with
  | Some p =>
      let final_date := date final in
      let final_price := close final in
      let days_held := days_between final_date (entry_date p) in
      let pnl :=
        if side p =? "LONG" then ((final_price - entry_price p) * size p)%F
        else ((entry_price p - final_price) * size p)%F in
      let commission :=
        ((entry_price p + final_price) * size p * commission_rate self)%F in
      let pnl := (pnl - commission)%F in
      let capital := (capital st + pnl)%F in
      let trade :=
        {| t_entry_date := entry_date p; exit_date := final_date;
           t_side := side p; t_entry_price := entry_price p;
           exit_price := final_price; t_size := size p; pnl := pnl;
           commission := commission; days_held := days_held;
           t_signal_confidence := signal_confidence p |} in
      {| trades := trades st ++ [trade]; current_position := current_position st;
         capital := capital; equity_curve := equity_curve st |}
  | None => st
  end.

(** [range(start, stop, step)] for a positive [step]. *)
Definition range (start stop step : nat) : list nat :=
  map (fun k => start + k * step)%nat (seq 0 ((stop - start + (step - 1)) / step)).

(** The loop: [signal_at i] is the reply to the request made at row [i]. *)
Definition walk (self : BacktestRunner) (df : list bar)
    (signal_at : nat -> option decision) (indices : list nat) : state :=
  fold_left
    (fun st i =>
       match nth_error df i with
       | Some row => step self st (date row) (close row) (get_trading_signal (signal_at i))
       | None => st
       end)
    indices (initial_state self).

(** ** Metrics *)

(** pandas reductions skip NaN. *)
Definition dropna (l : list pyfloat) : list pyfloat := filter PyFloat.notna l.

Definition pd_sum (l : list pyfloat) : pyfloat :=
  fold_left PyFloat.add (dropna l) (Fin 0).

Definition pd_mean (l : list pyfloat) : pyfloat :=
  (pd_sum l / Fin (inject_Z (Z.of_nat (List.length (dropna l)))))%F.

(** Running maximum over the values that are not NaN. *)
Definition pd_max2 (acc x : pyfloat) : pyfloat :=
  if PyFloat.isnan x then acc
  else if PyFloat.isnan acc then x
  else if (x >? acc)%F then x else acc.

Definition pd_min2 (acc x : pyfloat) : pyfloat :=
  if PyFloat.isnan x then acc
  else if PyFloat.isnan acc then x
  else if (x <? acc)%F then x else acc.

Fixpoint expanding_max_from (acc : pyfloat) (l : list pyfloat) : list pyfloat :=
  match l with
  | [] => []
  | x :: rest => let m := pd_max2 acc x in m :: expanding_max_from m rest
  end.

(** [series.expanding().max()] *)
Definition expanding_max (l : list pyfloat) : list pyfloat := expanding_max_from NaN l.

(** [series.min()] *)
Definition pd_min (l : list pyfloat) : pyfloat := fold_left pd_min2 l NaN.

(** The Python list [equity_curve] of [calculate_trade_metrics]. *)
Definition equity_of (self : BacktestRunner) (trades : list trade) : list pyfloat :=
  fold_left
    (fun curve t => curve ++ [(List.last curve NaN + pnl t)%F])
    trades [initial_capital self].

(** [max_drawdown] before it is rounded. *)
Definition max_drawdown_of (equity_curve : list pyfloat) : pyfloat :=
  let equity_series := equity_curve in
  let rolling_max := expanding_max equity_series in
  let drawdown :=
    map (fun er => (fst er - snd er) / snd er)%F (combine equity_series rolling_max) in
  pd_min drawdown.

(** [profit_factor] before it is rounded. *)
Definition profit_factor_of (trades : list trade) : pyfloat :=
  let pnls := map pnl trades in
  let gross_profit := pd_sum (filter (fun x => x >? Fin 0)%F pnls) in
  let gross_loss := PyFloat.abs (pd_sum (filter (fun x => x <? Fin 0)%F pnls)) in
  if (gross_loss >? Fin 0)%F then (gross_profit / gross_loss)%F else PInf.

(** The returned dictionary.  ["sharpe_ratio"] (a standard deviation and a
    square root) is not modelled; ["final_capital"] is absent when there
    are no trades. *)
Record metrics : Type := {
  total_trades : nat;
  winning_trades : nat;
  losing_trades : nat;
  win_rate : pyfloat;
  avg_win : pyfloat;
  avg_loss : pyfloat;
  profit_factor : pyfloat;
  max_drawdown : pyfloat;
  total_return : pyfloat;
  final_capital : option pyfloat
}.

Definition of_count (n : nat) : pyfloat := Fin (inject_Z (Z.of_nat n)).

Definition calculate_trade_metrics (self : BacktestRunner) (trades : list trade) : metrics :=
  match trades with
  | [] =>
      {| total_trades := 0; winning_trades := 0; losing_trades := 0;
         win_rate := Fin 0.0; avg_win := Fin 0.0; avg_loss := Fin 0.0;
         profit_factor := Fin 0.0; max_drawdown := Fin 0.0;
         total_return := Fin 0.0; final_capital := None |}
  | _ :: _ =>
      let pnls := map pnl trades in
      let wins := filter (fun x => x >? Fin 0)%F pnls in
      let losses := filter (fun x => x <? Fin 0)%F pnls in
      let total_trades := List.length trades in
      let winning_trades := List.length wins in
      let losing_trades := List.length losses in
      let win_rate :=
        if (0 <? total_trades)%nat then (of_count winning_trades / of_count total_trades)%F
        else Fin 0 in
      let avg_win := if (0 <? winning_trades)%nat then pd_mean wins else Fin 0 in
      let avg_loss := if (0 <? losing_trades)%nat then pd_mean losses else Fin 0 in
      let profit_factor := profit_factor_of trades in
      let equity_curve := equity_of self trades in
      let max_drawdown := max_drawdown_of equity_curve in
      let last_equity := List.last equity_curve NaN in
      let total_return :=
        ((last_equity - initial_capital self) / initial_capital self)%F in
      {| total_trades := total_trades;
         winning_trades := winning_trades;
         losing_trades := losing_trades;
         win_rate := PyFloat.round win_rate 3;
         avg_win := PyFloat.round avg_win 2;
         avg_loss := PyFloat.round avg_loss 2;
         profit_factor := PyFloat.round profit_factor 3;
         max_drawdown := PyFloat.round max_drawdown 3;
         total_return := PyFloat.round total_return 3;
         final_capital := Some last_equity |}
  end.

(** ** The whole run *)

Record result : Type := {
  r_trades : list trade;
  r_metrics : metrics;
  r_equity_curve : list pyfloat
}.

Inductive run : Type :=
| InsufficientData          (* [{"error": "Insufficient data"}] *)
| ValueError                (* [range()] with a zero step *)
| Completed (r : result).

(** [fetched] is what [fetch_price_data] returned. *)
Definition run_walk_forward_backtest (self : BacktestRunner)
    (fetched : option (list bar)) (signal_at : nat -> option decision)
    (window_size step_size : nat) : run :=
  match fetched with
  | None => InsufficientData
  | Some df =>
      if (List.length df <? window_size)%nat then InsufficientData
      else if (step_size =? 0)%nat then ValueError
      else
        let start_idx := window_size in
        let st := walk self df signal_at (range start_idx (List.length df) step_size) in
        let st :=
          match iloc_last df with
          | Some final => close_remaining self st final
          | None => st
          end in
        Completed {| r_trades := trades st;
                     r_metrics := calculate_trade_metrics self (trades st);
                     r_equity_curve := equity_curve st |}
  end.

End Backtest.

(** * Reference definitions and sample inputs *)

(** [clamp01] as the specification writes it. *)
Definition clamp01 (x : Q) : Q := Qmax 0 (Qmin 1 x).

(** A mean-reversion snapshot with ADX above the threshold of 25. *)
Definition strong_trend_rows : MeanReversion.input :=
  {| MeanReversion.len_df := 60;
     MeanReversion.current_price := Fin 100;
     MeanReversion.current_rsi := Fin 50;
     MeanReversion.current_zscore := Fin 0;
     MeanReversion.current_adx := Fin 30;
     MeanReversion.current_atr := Fin 1;
     MeanReversion.bb_middle := Fin 100;
     MeanReversion.trend_analysis :=
       {| direction := "SIDEWAYS"; strength := Fin 0.1;
          sma_short := Some (Fin 100); sma_long := Some (Fin 99) |};
     MeanReversion.volatility_analysis := {| level := "NORMAL"; factor := Fin 1 |} |}.


(** A LONG result at confidence 0.4 and a FLAT result at confidence 0.1. *)
Definition weak_long : signal_response :=
  {| signal := "LONG"; confidence := Fin 0.4; sl_pct := Fin 0.025;
     tp_multiple := Fin 1.5; rationale := [lit "Supertrend remains bullish"];
     timestamp := Some "2024-01-01T00:00:00" |}.

Definition weak_flat : signal_response :=
  {| signal := "FLAT"; confidence := Fin 0.1; sl_pct := Fin 0.025;
     tp_multiple := Fin 1.5; rationale := [lit "Normal volatility conditions"];
     timestamp := Some "2024-01-01T00:00:00" |}.


(** The simple moving average over the last [window] values of a column
    holding at least that many: their mean, NaN for an empty window. *)
Definition window_mean (data : list pyfloat) (window : nat) : pyfloat :=
  match window with
  | O => NaN
  | S _ => TechnicalIndicators.mean (skipn (List.length data - window) data)
  end.

(** Five closes rising from 10 to 14. *)
Definition rising_closes : list Q := [10; 11; 12; 13; 14].


(** The decisions the orchestrator sends: LONG and FLAT at the default stop. *)
Definition long_call : Backtest.decision :=
  {| Backtest.d_decision := "LONG"; Backtest.d_confidence := Fin 0.8;
     Backtest.d_sl_pct := Some (Fin 0.025) |}.

Definition short_call : Backtest.decision :=
  {| Backtest.d_decision := "SHORT"; Backtest.d_confidence := Fin 0.8;
     Backtest.d_sl_pct := Some (Fin 0.025) |}.

Definition flat_call : Backtest.decision :=
  {| Backtest.d_decision := "FLAT"; Backtest.d_confidence := Fin 0.0;
     Backtest.d_sl_pct := None |}.


(** A state holding a LONG position of 10 units entered at 100 on day 0,
    and two bars: day 8 at 110 and day 3 at 105. *)
Definition day (n : Z) : Backtest.Timestamp := (n * Backtest.nanoseconds_per_day)%Z.

Definition held_long : Backtest.position :=
  {| Backtest.entry_date := day 0; Backtest.side := "LONG";
     Backtest.entry_price := Fin 100; Backtest.size := Fin 10;
     Backtest.signal_confidence := Fin 0.8 |}.

Definition holding : Backtest.state :=
  {| Backtest.trades := []; Backtest.current_position := Some held_long;
     Backtest.capital := Fin 100000; Backtest.equity_curve := [Fin 100000] |}.

Definition bar_day8 : Backtest.bar := {| Backtest.date := day 8; Backtest.close := Fin 110 |}.
Definition bar_day3 : Backtest.bar := {| Backtest.date := day 3; Backtest.close := Fin 105 |}.


(** Three daily bars, and a source of signals that always answers LONG. *)
Definition three_bars : list Backtest.bar :=
  [{| Backtest.date := day 0; Backtest.close := Fin 100 |};
   {| Backtest.date := day 1; Backtest.close := Fin 101 |};
   {| Backtest.date := day 2; Backtest.close := Fin 102 |}].

Definition always_long (i : nat) : option Backtest.decision := Some long_call.


(** The aggregation rule as the specification words it: [valid_of] are the
    replies whose signal is not FLAT, [votes side] counts the valid replies
    on [side], [average_confidence] is the mean confidence of the valid
    replies. *)
Definition is_valid (r : signal_response) : bool := negb (signal r =? "FLAT").

Definition valid_of (results : list signal_response) : list signal_response :=
  filter is_valid results.

Definition votes (side : string) (results : list signal_response) : nat :=
  List.length (filter (fun r => signal r =? side) (valid_of results)).

Definition average_confidence (results : list signal_response) : pyfloat :=
  (fold_left PyFloat.add (map confidence (valid_of results)) (Fin 0.0)
   / Fin (inject_Z (Z.of_nat (List.length (valid_of results)))))%F.

(** Replies for the consensus truth table. *)
Definition reply (side : string) (conf : Q) : signal_response :=
  {| signal := side; confidence := Fin conf; sl_pct := Fin 0.025;
     tp_multiple := Fin 1.5; rationale := []; timestamp := None |}.

Definition seven_flat : list signal_response := repeat (reply "FLAT" 0.3) 7.

Definition four_long : list signal_response :=
  [reply "LONG" 0.7; reply "FLAT" 0.2; reply "LONG" 0.9; reply "LONG" 0.8;
   reply "FLAT" 0.1; reply "LONG" 0.8; reply "FLAT" 0.0].

Definition three_each : list signal_response :=
  [reply "LONG" 0.9; reply "SHORT" 0.9; reply "LONG" 0.8; reply "SHORT" 0.8;
   reply "FLAT" 0.5; reply "LONG" 1.0; reply "SHORT" 1.0].

Definition two_long : list signal_response :=
  [reply "FLAT" 0.0; reply "LONG" 0.85; reply "FLAT" 0.0; reply "FLAT" 0.0;
   reply "LONG" 0.95; reply "FLAT" 0.0; reply "FLAT" 0.0].

(** A round of queries in which the turtle service times out, the trend
    service answers 503, and the others answer LONG at 0.8. *)
Definition one_down (service : string) : Orchestrator.outcome :=
  if service =? "turtle" then Orchestrator.Raised "" "ReadTimeout"
  else if service =? "trend" then Orchestrator.HTTPStatusError 503 "Service Unavailable"
  else Orchestrator.Replied (reply "LONG" 0.8).

(** Whether a query came back without a body. *)
Definition failed (o : Orchestrator.outcome) : bool :=
  match o with Orchestrator.Replied _ => false | _ => true end.

(** The note the aggregator leaves for a failed query. *)
Definition failure_note (o : Orchestrator.outcome) : option fstring :=
  match o with
  | Orchestrator.Replied _ => None
  | Orchestrator.HTTPStatusError status_code text =>
      Some (FString "Service HTTP error: {}"
              [AStr (if text =? "" then "HTTP " ++ Orchestrator.str_int status_code
                     else "HTTP " ++ Orchestrator.str_int status_code ++ ": " ++ text)%string])
  | Orchestrator.Raised str_e type_name =>
      Some (FString "Service error: {}"
              [AStr (if str_e =? "" then "Unknown error: " ++ type_name else str_e)%string])
  end.

(** The component the loop records for an entry of the zip. *)
Definition component_of (entry : string * signal_response) : Orchestrator.component :=
  {| Orchestrator.svc := fst entry;
     Orchestrator.c_signal := signal (snd entry);
     Orchestrator.c_confidence := confidence (snd entry);
     Orchestrator.c_rationale := rationale (snd entry) |}.


(** A trade whose pnl is a finite number. *)
Definition finite_pnl (t : Backtest.trade) : Prop := exists q : Q, Backtest.pnl t = Fin q.

(** A curve that never steps down. *)
Fixpoint nondecreasing (l : list pyfloat) : Prop :=
  match l with
  | a :: (b :: _) as rest => PyFloat.le a b = true /\ nondecreasing rest
  | _ => True
  end.

(** The same on rationals, from a starting level [m]. *)
Fixpoint climbs (m : Q) (l : list Q) : Prop :=
  match l with
  | [] => True
  | e :: rest => m <= e /\ climbs e rest
  end.

(** A closed LONG trade with a given pnl. *)
Definition trade_with (x : Q) : Backtest.trade :=
  {| Backtest.t_entry_date := day 0; Backtest.exit_date := day 8;
     Backtest.t_side := "LONG"; Backtest.t_entry_price := Fin 100;
     Backtest.exit_price := Fin 110; Backtest.t_size := Fin 10;
     Backtest.pnl := Fin x; Backtest.commission := Fin 2.1;
     Backtest.days_held := 8; Backtest.t_signal_confidence := Fin 0.8 |}.


(** * Further reference definitions *)

(** The three calls an engine may emit. *)
Definition tri_state (s : string) : Prop := s = "LONG" \/ s = "SHORT" \/ s = "FLAT".

(** The range each engine keeps its stop-loss fraction in, and its
    take-profit multiple. *)
Definition stop_loss_range (e : engine_input) : Q * Q :=
  match e with
  | OfSupertrend _ => (0.015, 0.05)
  | OfAlphaTrend _ => (0.015, 0.04)
  | OfIchimoku _ => (0.025, 0.05)
  | OfComposite _ => (0.025, 0.04)
  | OfTurtle _ => (0.02, 0.06)
  | OfMeanReversion _ => (0.015, 0.04)
  | OfTrend _ => (0.02, 0.05)
  end.

Definition take_profit_of (e : engine_input) : Q :=
  match e with
  | OfSupertrend _ | OfAlphaTrend _ | OfComposite _ | OfTrend _ => 1.5
  | OfIchimoku _ | OfTurtle _ => 2.0
  | OfMeanReversion _ => 1.2
  end.

(** ** [orchestrator/app.py]: the [/decide] endpoint *)

(** [make_decision]: [query symbol service] is what the request to
    [service] for [symbol] comes to, [str_of] the rendering [str(e)] of an
    [HTTPException].  The body runs inside one [try] whose handler catches
    every [Exception], the [HTTPException] raised for a missing symbol
    included, and raises status 500 in its place. *)
Definition make_decision (self : Orchestrator.TradingOrchestrator)
    (str_of : http_exception -> string) (req : request)
    (query : string -> string -> Orchestrator.outcome) (now : string)
  : http_exception + Orchestrator.aggregated :=
  let attempt :=
    let min_conf := dict_get (min_conf req) (Fin 0.7) in
    match symbol req with
    | None | Some "" =>
        inl {| status_code := 400; detail := lit "Symbol is required" |}
    | Some sym => inr (Orchestrator.aggregate_signals self (query sym) min_conf now)
    end in
  match attempt with
  | inl e =>
      inl {| status_code := 500;
             detail := FString "Failed to make decision: {}" [AStr (str_of e)] |}
  | inr result => inr result
  end.

(** The reply of [/decide] as [BacktestRunner.get_trading_signal] reads it. *)
Definition decision_of (a : Orchestrator.aggregated) : Backtest.decision :=
  {| Backtest.d_decision := Orchestrator.decision a;
     Backtest.d_confidence := Orchestrator.a_confidence a;
     Backtest.d_sl_pct := Some (Orchestrator.a_sl_pct a) |}.

(** ** What the loop of the backtest keeps true *)

(** The number of iterations of [for i in range(start_idx, len(df), step_size)]. *)
Definition iterations (len_df window_size step_size : nat) : nat :=
  ((len_df - window_size + (step_size - 1)) / step_size)%nat.

(** [price] is the close of the row of [df] dated [d]. *)
Definition on_bar (df : list Backtest.bar) (d : Backtest.Timestamp) (price : pyfloat) : Prop :=
  exists row : Backtest.bar, In row df /\ Backtest.date row = d /\ Backtest.close row = price.

Definition sound_position (df : list Backtest.bar) (p : Backtest.position) : Prop :=
  PyFloat.gt (Backtest.size p) (Fin 0) = true
  /\ Backtest.side p <> "FLAT"
  /\ on_bar df (Backtest.entry_date p) (Backtest.entry_price p).

Definition sound_trade (df : list Backtest.bar) (t : Backtest.trade) : Prop :=
  PyFloat.gt (Backtest.t_size t) (Fin 0) = true
  /\ Backtest.t_side t <> "FLAT"
  /\ Backtest.days_held t
     = Backtest.days_between (Backtest.exit_date t) (Backtest.t_entry_date t)
  /\ on_bar df (Backtest.t_entry_date t) (Backtest.t_entry_price t)
  /\ on_bar df (Backtest.exit_date t) (Backtest.exit_price t).

Definition open_positions (st : Backtest.state) : nat :=
  match Backtest.current_position st with Some _ => 1%nat | None => 0%nat end.

(** The walk of a run and the state it ends in. *)
Definition walked (self : Backtest.BacktestRunner) (df : list Backtest.bar)
    (signal_at : nat -> option Backtest.decision) (window_size step_size : nat)
  : Backtest.state :=
  Backtest.walk self df signal_at (Backtest.range window_size (List.length df) step_size).

Definition total_pnl (self : Backtest.BacktestRunner) (ts : list Backtest.trade) : pyfloat :=
  fold_left PyFloat.add (map Backtest.pnl ts) (Backtest.initial_capital self).

(** ** Price frames: the rest of [services/supertrend/utils.py] and the
    band of [services/supertrend/service.py] *)

Module Ohlc.

(** The columns of a price frame the indicators read. *)
Record row : Type := {
  high : pyfloat;
  low : pyfloat;
  close : pyfloat
}.

End Ohlc.

(** [series.shift(1)]: every value moves one row down, the first row is NaN. *)
Fixpoint shift_with (fill : pyfloat) (l : list pyfloat) : list pyfloat :=
  match l with
  | [] => []
  | x :: rest => fill :: shift_with x rest
  end.

Definition shift1 (l : list pyfloat) : list pyfloat := shift_with NaN l.

(** Arithmetic of two columns of one frame, row by row. *)
Definition zip_with {A B C : Type} (f : A -> B -> C) (a : list A) (b : list B) : list C :=
  map (fun ab => f (fst ab) (snd ab)) (combine a b).

(** [pd.concat([...], axis=1).max(axis=1)] on one row: the maximum of the
    values that are not NaN. *)
Definition row_max (values : list pyfloat) : pyfloat :=
  fold_left Backtest.pd_max2 values NaN.

(** [TechnicalIndicators.atr] *)
Definition atr (high low close : list pyfloat) (period : nat) : list pyfloat :=
  let tr1 := zip_with PyFloat.sub high low in
  let tr2 := map PyFloat.abs (zip_with PyFloat.sub high (shift1 close)) in
  let tr3 := map PyFloat.abs (zip_with PyFloat.sub low (shift1 close)) in
  let tr := zip_with (fun a bc => row_max [a; fst bc; snd bc]) tr1 (combine tr2 tr3) in
  TechnicalIndicators.rolling_mean tr period.

(** [MarketAnalyzer.analyze_volatility(df, period)]; the keys
    ["current_atr"] and ["avg_atr"], which no engine reads, are left out.
    [None] is the IndexError of [iloc[-1]] on an empty frame. *)
Definition analyze_volatility (df : list Ohlc.row) (period : nat) : option volatility :=
  if (List.length df <? period)%nat then
    Some {| level := "UNKNOWN"; factor := Fin 1.0 |}
  else
    let atr := atr (map Ohlc.high df) (map Ohlc.low df) (map Ohlc.close df) period in
    match iloc_last atr with
    | Some current_atr =>
        let avg_atr := Backtest.pd_mean atr in
        let volatility_factor :=
          if (avg_atr >? Fin 0)%F then (current_atr / avg_atr)%F else Fin 1.0 in
        let level :=
          if (volatility_factor >? Fin 1.5)%F then "HIGH"
          else if (volatility_factor <? Fin 0.7)%F then "LOW"
          else "NORMAL" in
        Some {| level := level; factor := volatility_factor |}
    | None => None
    end.

(** [SupertrendStrategy.__init__] *)
Definition atr_period : nat := 10.
Definition atr_multiplier : pyfloat := Fin 3.0.

(** One pass of the loop of [calculate_supertrend] for [i > 0]: the band
    value and the direction of row [i] from those of row [i - 1]. *)
Definition supertrend_step (prev : pyfloat * Z)
    (current_upper current_lower current_close : pyfloat) : pyfloat * Z :=
  let '(prev_supertrend, prev_direction) := prev in
  if (prev_direction =? 1)%Z then
    if (current_close <=? current_lower)%F then (current_lower, (-1)%Z)
    else (PyFloat.min current_upper prev_supertrend, 1%Z)
  else
    if (current_close >=? current_upper)%F then (current_upper, 1%Z)
    else (PyFloat.max current_lower prev_supertrend, (-1)%Z).

(** The rows [i > 0] of the loop, given the result at the row before. *)
Fixpoint supertrend_from (prev : pyfloat * Z)
    (rows : list (pyfloat * pyfloat * pyfloat)) : list (pyfloat * Z) :=
  match rows with
  | [] => []
  | (current_upper, current_lower, current_close) :: rest =>
      let current := supertrend_step prev current_upper current_lower current_close in
      current :: supertrend_from current rest
  end.

(** The columns [calculate_supertrend] adds to the frame. *)
Record supertrend_columns : Type := {
  supertrend : list pyfloat;
  supertrend_direction : list Z;
  atr_column : list pyfloat
}.

(** [calculate_supertrend]: [None] when the frame is returned as it came,
    without the new columns.  The loop stores a band value and a direction
    for every row, so the two columns hold exactly what it stored. *)
Definition calculate_supertrend (df : list Ohlc.row) : option supertrend_columns :=
  if (List.length df <? atr_period)%nat then None
  else
    let atr := atr (map Ohlc.high df) (map Ohlc.low df) (map Ohlc.close df) atr_period in
    let hl2 :=
      map (fun x => x / Fin 2)%F (zip_with PyFloat.add (map Ohlc.high df) (map Ohlc.low df)) in
    let upper_band := zip_with PyFloat.add hl2 (map (PyFloat.mul atr_multiplier) atr) in
    let lower_band := zip_with PyFloat.sub hl2 (map (PyFloat.mul atr_multiplier) atr) in
    let rows := combine (combine upper_band lower_band) (map Ohlc.close df) in
    let out :=
      match rows with
      | [] => []
      | (_, lower0, _) :: rest =>
          let first := (lower0, 1%Z) in
          first :: supertrend_from first rest
      end in
    Some {| supertrend := map fst out;
            supertrend_direction := map snd out;
            atr_column := atr |}.

(** What [SupertrendStrategy.generate_signal] reads from the frame that
    [calculate_supertrend] has extended; [None] is a KeyError (no columns) or
    an IndexError. *)
Definition supertrend_rows (df : list Ohlc.row) : option Supertrend.input :=
  match calculate_supertrend df with
  | None => None
  | Some cols =>
      match iloc_last (supertrend_direction cols), iloc_last2 (supertrend_direction cols),
            iloc_last (map Ohlc.close df), iloc_last (atr_column cols),
            MarketAnalyzer.analyze_trend (map Ohlc.close df) 20,
            analyze_volatility df 20 with
      | Some current_direction, Some prev_direction, Some current_price, Some current_atr,
        Some trend_analysis, Some volatility_analysis =>
          Some {| Supertrend.len_df := List.length df;
                  Supertrend.current_direction := current_direction;
                  Supertrend.prev_direction := prev_direction;
                  Supertrend.current_price := current_price;
                  Supertrend.current_atr := current_atr;
                  Supertrend.trend_analysis := trend_analysis;
                  Supertrend.volatility_analysis := volatility_analysis |}
      | _, _, _, _, _, _ => None
      end
  end.

(** A frame of finite prices whose highs are not below its lows. *)
Definition finite_row (r : Ohlc.row) : Prop :=
  exists h l c : Q,
    r = {| Ohlc.high := Fin h; Ohlc.low := Fin l; Ohlc.close := Fin c |} /\ l <= h.

Definition is_direction (d : Z) : Prop := d = 1%Z \/ d = (-1)%Z.

(** ** The adaptive band of [services/alphatrend/service.py] *)

(** [AlphaTrendStrategy.__init__] *)
Definition alpha_atr_period : nat := 14.
Definition alpha_atr_multiplier : pyfloat := Fin 2.0.
Definition alpha_period : nat := 21.

(** The rows the loop reads: upper band, lower band and close, the bands
    being [hl2 +/- multiplier * atr]. *)
Definition band_rows (period : nat) (multiplier : pyfloat) (df : list Ohlc.row)
  : list (pyfloat * pyfloat * pyfloat) :=
  let atr := atr (map Ohlc.high df) (map Ohlc.low df) (map Ohlc.close df) period in
  let hl2 :=
    map (fun x => x / Fin 2)%F (zip_with PyFloat.add (map Ohlc.high df) (map Ohlc.low df)) in
  let upper_band := zip_with PyFloat.add hl2 (map (PyFloat.mul multiplier) atr) in
  let lower_band := zip_with PyFloat.sub hl2 (map (PyFloat.mul multiplier) atr) in
  combine (combine upper_band lower_band) (map Ohlc.close df).

(** One pass of the loop of [calculate_alpha_trend] for [i > 0]. *)
Definition alpha_trend_step (alpha : pyfloat) (prev : pyfloat * Z)
    (current_upper current_lower current_close : pyfloat) : pyfloat * Z :=
  let '(prev_alpha_trend, prev_direction) := prev in
  if (prev_direction =? 1)%Z then
    if (current_close <=? current_lower)%F then (current_lower, (-1)%Z)
    else
      ((alpha * PyFloat.min current_upper prev_alpha_trend
        + (Fin 1 - alpha) * prev_alpha_trend)%F, 1%Z)
  else
    if (current_close >=? current_upper)%F then (current_upper, 1%Z)
    else
      ((alpha * PyFloat.max current_lower prev_alpha_trend
        + (Fin 1 - alpha) * prev_alpha_trend)%F, (-1)%Z).

Fixpoint alpha_trend_from (alpha : pyfloat) (prev : pyfloat * Z)
    (rows : list (pyfloat * pyfloat * pyfloat)) : list (pyfloat * Z) :=
  match rows with
  | [] => []
  | (current_upper, current_lower, current_close) :: rest =>
      let current := alpha_trend_step alpha prev current_upper current_lower current_close in
      current :: alpha_trend_from alpha current rest
  end.

(** The columns [calculate_alpha_trend] adds to the frame. *)
Record alpha_trend_columns : Type := {
  alpha_trend : list pyfloat;
  alpha_trend_direction : list Z;
  alpha_atr_column : list pyfloat
}.

(** [calculate_alpha_trend]: [None] when the frame is returned as it came. *)
Definition calculate_alpha_trend (df : list Ohlc.row) : option alpha_trend_columns :=
  if (List.length df <? Nat.max alpha_atr_period alpha_period)%nat then None
  else
    let atr :=
      atr (map Ohlc.high df) (map Ohlc.low df) (map Ohlc.close df) alpha_atr_period in
    let alpha := (Fin 2.0 / Fin (inject_Z (Z.of_nat alpha_period + 1)))%F in
    let out :=
      match band_rows alpha_atr_period alpha_atr_multiplier df with
      | [] => []
      | (_, lower0, _) :: rest =>
          let first := (lower0, 1%Z) in
          first :: alpha_trend_from alpha first rest
      end in
    Some {| alpha_trend := map fst out;
            alpha_trend_direction := map snd out;
            alpha_atr_column := atr |}.

(** The directions of the loop without smoothing, on the same rows. *)
Definition unsmoothed_directions (rows : list (pyfloat * pyfloat * pyfloat)) : list Z :=
  match rows with
  | [] => []
  | (_, lower0, _) :: rest => 1%Z :: map snd (supertrend_from (lower0, 1%Z) rest)
  end.

(** ** The channels of [services/turtle/service.py] *)

(** [rolling(window=period).max()] and [.min()] on one window: NaN when
    the window holds a NaN. *)
Definition window_extreme (pick : pyfloat -> pyfloat -> pyfloat) (w : list pyfloat)
  : pyfloat :=
  if existsb PyFloat.isnan w then NaN else fold_left pick w NaN.

Definition rolling_extreme (pick : pyfloat -> pyfloat -> pyfloat)
    (data : list pyfloat) (window : nat) : list pyfloat :=
  map (fun i => match TechnicalIndicators.window_at data window i with
                | Some w => window_extreme pick w
                | None => NaN
                end)
      (seq 0 (List.length data)).

Definition rolling_max : list pyfloat -> nat -> list pyfloat :=
  rolling_extreme Backtest.pd_max2.

Definition rolling_min : list pyfloat -> nat -> list pyfloat :=
  rolling_extreme Backtest.pd_min2.

(** [calculate_donchian_channels]: the two columns it adds for [period]. *)
Definition calculate_donchian_channels (df : list Ohlc.row) (period : nat)
  : list pyfloat * list pyfloat :=
  (rolling_max (map Ohlc.high df) period, rolling_min (map Ohlc.low df) period).

(** What [TurtleStrategy.generate_signal] reads from the frame past its
    length guard; [None] is an IndexError. *)
Definition turtle_rows (df : list Ohlc.row) : option Turtle.input :=
  let '(donchian_high_20, donchian_low_20) :=
    calculate_donchian_channels df Turtle.entry_period in
  let '(donchian_high_10, donchian_low_10) :=
    calculate_donchian_channels df Turtle.exit_period in
  let close := map Ohlc.close df in
  let atr := atr (map Ohlc.high df) (map Ohlc.low df) close 14 in
  match iloc_last close, iloc_last donchian_high_20, iloc_last donchian_low_20 with
  | Some current_price, Some entry_high, Some entry_low =>
      match iloc_last donchian_high_10, iloc_last donchian_low_10, iloc_last2 close with
      | Some exit_high, Some exit_low, Some prev_price =>
          match iloc_last2 donchian_high_20, iloc_last2 donchian_low_20, iloc_last atr with
          | Some prev_entry_high, Some prev_entry_low, Some atr =>
              match MarketAnalyzer.analyze_trend close 20, analyze_volatility df 20 with
              | Some trend_analysis, Some volatility_analysis =>
                  Some {| Turtle.len_df := List.length df;
                          Turtle.current_price := current_price;
                          Turtle.entry_high := entry_high;
                          Turtle.entry_low := entry_low;
                          Turtle.exit_high := exit_high;
                          Turtle.exit_low := exit_low;
                          Turtle.prev_price := prev_price;
                          Turtle.prev_entry_high := prev_entry_high;
                          Turtle.prev_entry_low := prev_entry_low;
                          Turtle.atr := atr;
                          Turtle.trend_analysis := trend_analysis;
                          Turtle.volatility_analysis := volatility_analysis |}
              | _, _ => None
              end
          | _, _, _ => None
          end
      | _, _, _ => None
      end
  | _, _, _ => None
  end.

(** A row of finite prices with [low <= close <= high]. *)
Definition ordered_row (r : Ohlc.row) : Prop :=
  exists h l c : Q,
    r = {| Ohlc.high := Fin h; Ohlc.low := Fin l; Ohlc.close := Fin c |}
    /\ l <= c /\ c <= h.

(** ** The lagging span of [services/ichimoku/service.py] *)

(** [series.shift(-periods)]: every value moves [periods] rows up and the
    rows left at the end are NaN. *)
Definition shift_up (periods : nat) (l : list pyfloat) : list pyfloat :=
  skipn periods l ++ repeat NaN (Nat.min periods (List.length l)).

(** [series.iloc[-k]] for [k >= 1]; [None] is an IndexError. *)
Definition iloc_from_end {A : Type} (k : nat) (l : list A) : option A :=
  if (List.length l <? k)%nat then None else nth_error l (List.length l - k).

(** The column [chikou_span] of [calculate_ichimoku]. *)
Definition chikou_span (close : list pyfloat) : list pyfloat :=
  shift_up Ichimoku.kijun_period close.

(** ** Order in time *)

(** The index of the frame is sorted ([df.sort_index]). *)
Definition sorted_index (df : list Backtest.bar) : Prop :=
  forall (i j : nat) (a b : Backtest.bar),
    (i <= j)%nat -> nth_error df i = Some a -> nth_error df j = Some b ->
    (Backtest.date a <= Backtest.date b)%Z.

(** [z] is not after any row from index [k] on. *)
Definition not_after (df : list Backtest.bar) (k : nat) (z : Backtest.Timestamp) : Prop :=
  forall (i : nat) (row : Backtest.bar),
    (k <= i)%nat -> nth_error df i = Some row -> (z <= Backtest.date row)%Z.

(** [t1] is over when [t2] begins. *)
Definition precedes (t1 t2 : Backtest.trade) : Prop :=
  (Backtest.exit_date t1 <= Backtest.t_entry_date t2)%Z.

Definition forward (t : Backtest.trade) : Prop :=
  (Backtest.t_entry_date t <= Backtest.exit_date t)%Z
  /\ (0 <= Backtest.days_held t)%Z.

(** The loop invariant behind the order of the ledger, at an index [k] not
    before any row seen so far. *)
Definition in_order (df : list Backtest.bar) (k : nat) (st : Backtest.state) : Prop :=
  StronglySorted precedes (Backtest.trades st)
  /\ Forall (fun t => forward t /\ not_after df k (Backtest.exit_date t)) (Backtest.trades st)
  /\ (forall p, Backtest.current_position st = Some p ->
        not_after df k (Backtest.entry_date p)
        /\ Forall (fun t => (Backtest.exit_date t <= Backtest.entry_date p)%Z)
                  (Backtest.trades st)).

(** ** Sample inputs *)

Definition up_trend : trend :=
  {| direction := "UP"; strength := Fin 0.5;
     sma_short := Some (Fin 99); sma_long := Some (Fin 98) |}.

Definition normal_volatility : volatility := {| level := "NORMAL"; factor := Fin 1 |}.

(** A band that has stayed bullish. *)
Definition bullish_band : Supertrend.input :=
  {| Supertrend.len_df := 60;
     Supertrend.current_direction := 1;
     Supertrend.prev_direction := 1;
     Supertrend.current_price := Fin 100;
     Supertrend.current_atr := Fin 1;
     Supertrend.trend_analysis := up_trend;
     Supertrend.volatility_analysis := normal_volatility |}.

(** Fast EMA above slow EMA and MACD above its signal line. *)
Definition aligned_crossover : Trend.input :=
  {| Trend.len_df := 250;
     Trend.current_price := Fin 100;
     Trend.current_ema_fast := Fin 99;
     Trend.current_ema_slow := Fin 98;
     Trend.prev_ema_fast := Fin 99;
     Trend.prev_ema_slow := Fin 98;
     Trend.current_macd := Fin 1;
     Trend.current_macd_signal := Fin 0.5;
     Trend.prev_macd := Fin 1;
     Trend.prev_macd_signal := Fin 0.5;
     Trend.current_macd_hist := Fin 0.5;
     Trend.current_atr := Fin 1;
     Trend.trend_analysis := up_trend;
     Trend.volatility_analysis := normal_volatility |}.

(** QQE and SSL vote LONG, WAE abstains. *)
Definition two_of_three : Composite.input :=
  {| Composite.len_df := 60;
     Composite.current_price := Fin 100;
     Composite.qqe_line := Fin 60;
     Composite.qqe_signal := Fin 55;
     Composite.qqe_rsi := Fin 60;
     Composite.ssl_direction := 1;
     Composite.ssl_up := Fin 99;
     Composite.ssl_down := Fin 97;
     Composite.wae_current := Fin 0;
     Composite.wae_prev := Fin 0;
     Composite.trend_analysis := up_trend;
     Composite.volatility_analysis := normal_volatility |}.

(** An oversold snapshot in a market without a trend (ADX 10). *)
Definition oversold_rows : MeanReversion.input :=
  {| MeanReversion.len_df := 60;
     MeanReversion.current_price := Fin 95;
     MeanReversion.current_rsi := Fin 20;
     MeanReversion.current_zscore := Fin (-1.5);
     MeanReversion.current_adx := Fin 10;
     MeanReversion.current_atr := Fin 1;
     MeanReversion.bb_middle := Fin 100;
     MeanReversion.trend_analysis := up_trend;
     MeanReversion.volatility_analysis := normal_volatility |}.

(** A [/decide] request without a symbol. *)
Definition no_symbol : request := {| symbol := None; min_conf := None |}.

(** Ten daily bars, and a source of signals that never answers. *)
Definition ten_bars : list Backtest.bar :=
  map (fun k => {| Backtest.date := day (Z.of_nat k);
                   Backtest.close := Fin (inject_Z (100 + Z.of_nat k)) |}) (seq 0 10).

Definition unreachable (i : nat) : option Backtest.decision := None.

(** ** More sample inputs *)

(** Twenty-five rows climbing by one a day, each with a range of two. *)
Definition climbing_frame : list Ohlc.row :=
  map (fun k => {| Ohlc.high := Fin (inject_Z (101 + Z.of_nat k));
                   Ohlc.low := Fin (inject_Z (99 + Z.of_nat k));
                   Ohlc.close := Fin (inject_Z (100 + Z.of_nat k)) |}) (seq 0 25).

(** A close at the 20-day high after a close below it. *)
Definition upward_breakout : Turtle.input :=
  {| Turtle.len_df := 60;
     Turtle.current_price := Fin 110;
     Turtle.entry_high := Fin 110;
     Turtle.entry_low := Fin 95;
     Turtle.exit_high := Fin 110;
     Turtle.exit_low := Fin 100;
     Turtle.prev_price := Fin 105;
     Turtle.prev_entry_high := Fin 108;
     Turtle.prev_entry_low := Fin 95;
     Turtle.atr := Fin 1;
     Turtle.trend_analysis := up_trend;
     Turtle.volatility_analysis := normal_volatility |}.

(** Price above a green cloud, conversion line above base line; the
    lagging span reads NaN, as it does on every frame. *)
Definition above_green_cloud : Ichimoku.input :=
  {| Ichimoku.len_df := 120;
     Ichimoku.current_price := Fin 110;
     Ichimoku.tenkan_sen := Fin 108;
     Ichimoku.kijun_sen := Fin 106;
     Ichimoku.cloud_top := Fin 105;
     Ichimoku.cloud_bottom := Fin 100;
     Ichimoku.senkou_span_a := Fin 105;
     Ichimoku.senkou_span_b := Fin 100;
     Ichimoku.chikou_span_26 := NaN;
     Ichimoku.close_26 := Fin 100;
     Ichimoku.trend_analysis := up_trend;
     Ichimoku.volatility_analysis := normal_volatility |}.

(** The crossover snapshot on a frame of 205 rows. *)
Definition young_crossover : Trend.input :=
  {| Trend.len_df := 205;
     Trend.current_price := Fin 100;
     Trend.current_ema_fast := Fin 99;
     Trend.current_ema_slow := Fin 98;
     Trend.prev_ema_fast := Fin 99;
     Trend.prev_ema_slow := Fin 98;
     Trend.current_macd := Fin 1;
     Trend.current_macd_signal := Fin 0.5;
     Trend.prev_macd := Fin 1;
     Trend.prev_macd_signal := Fin 0.5;
     Trend.current_macd_hist := Fin 0.5;
     Trend.current_atr := Fin 1;
     Trend.trend_analysis := up_trend;
     Trend.volatility_analysis := normal_volatility |}.

Definition gold_request : request :=
  {| symbol := Some "XAUUSD=X"; min_conf := Some (Fin 0.7) |}.

(** * Properties *)

(** ** Comparisons and rounding *)

Lemma Qlt_bool_iff (x y : Q) : Qlt_bool x y = true <-> x < y.
Proof.
  unfold Qlt_bool. rewrite negb_true_iff. split; intro H.
  - apply Qnot_le_lt. intro L. apply Qle_bool_iff in L. congruence.
  - destruct (Qle_bool y x) eqn:E; [|reflexivity].
    apply Qle_bool_iff in E. exfalso. exact (Qlt_not_le _ _ H E).
Qed.

Lemma Qlt_bool_spec (x y : Q) : reflect (x < y) (Qlt_bool x y).
Proof. apply iff_reflect. symmetry. apply Qlt_bool_iff. Qed.

Lemma Qle_bool_spec (x y : Q) : reflect (x <= y) (Qle_bool x y).
Proof. apply iff_reflect. symmetry. apply Qle_bool_iff. Qed.

Lemma Qeq_bool_spec (x y : Q) : reflect (x == y) (Qeq_bool x y).
Proof. apply iff_reflect. symmetry. apply Qeq_bool_iff. Qed.

(** Case analysis on every rational test in the goal. *)
Ltac qcases :=
  repeat match goal with
    | |- context [Qlt_bool ?x ?y] => destruct (Qlt_bool_spec x y)
    | |- context [Qle_bool ?x ?y] => destruct (Qle_bool_spec x y)
    | |- context [Qeq_bool ?x ?y] => destruct (Qeq_bool_spec x y)
    end.

Lemma feq_refl (a : pyfloat) : a =f a.
Proof. destruct a; simpl; auto. reflexivity. Qed.

Lemma feq_sym (a b : pyfloat) : a =f b -> b =f a.
Proof. destruct a, b; simpl; auto. intro H. symmetry. exact H. Qed.

Lemma feq_trans (a b c : pyfloat) : a =f b -> b =f c -> a =f c.
Proof.
  destruct a, b, c; simpl; auto; try contradiction.
  intros H1 H2. rewrite H1. exact H2.
Qed.

Lemma lt_true_ge_false (a b : pyfloat) :
  PyFloat.lt a b = true -> PyFloat.ge a b = false.
Proof.
  unfold PyFloat.ge. destruct a, b; simpl; auto; try discriminate.
  qcases; auto. intros _. exfalso. apply (Qlt_not_le q q0); assumption.
Qed.

Lemma round_half_even_bounds (q : Q) (a b : Z) :
  inject_Z a <= q -> q <= inject_Z b ->
  (a <= PyFloat.round_half_even q <= b)%Z.
Proof.
  intros Ha Hb. unfold PyFloat.round_half_even.
  pose proof (Qfloor_resp_le _ _ Ha) as Fa. rewrite Qfloor_Z in Fa.
  pose proof (Qfloor_resp_le _ _ Hb) as Fb. rewrite Qfloor_Z in Fb.
  pose proof (Qfloor_le q) as Fl.
  destruct (Z.eq_dec (Qfloor q) b) as [E|N].
  - assert (q - inject_Z (Qfloor q) == 0) as Z0.
    { rewrite E in *. lra. }
    rewrite Z0. simpl. lia.
  - destruct (Qcompare (q - inject_Z (Qfloor q)) (1 # 2));
      [destruct (Z.even (Qfloor q))| |]; lia.
Qed.

Lemma inject_Z_div_range (r n : Z) :
  (0 < n)%Z -> (0 <= r <= n)%Z -> 0 <= inject_Z r / inject_Z n <= 1.
Proof.
  intros Hn [H0 H1].
  pose proof Hn as Pn. rewrite Zlt_Qlt in Pn.
  pose proof H0 as P0. rewrite Zle_Qle in P0.
  pose proof H1 as P1. rewrite Zle_Qle in P1.
  change (inject_Z 0) with 0 in Pn, P0.
  split.
  - apply Qle_shift_div_l; [exact Pn|]. lra.
  - apply Qle_shift_div_r; [exact Pn|]. lra.
Qed.

Lemma round3_in_range (x : pyfloat) :
  in_range 0 1 x -> in_range 0 1 (PyFloat.round x 3).
Proof.
  destruct x as [q| | |]; simpl; try contradiction. intros [H0 H1].
  change (PyFloat.pow10 3) with (inject_Z 1000).
  apply inject_Z_div_range; [lia|].
  apply round_half_even_bounds.
  - change (inject_Z 0) with 0. change (inject_Z 1000) with 1000. nra.
  - change (inject_Z 1000) with 1000. nra.
Qed.

(** ** The shared scorer *)

Lemma clamp01_cases (x : Q) :
  (x <= 0 -> clamp01 x == 0) /\
  (0 <= x <= 1 -> clamp01 x == x) /\
  (1 <= x -> clamp01 x == 1).
Proof.
  unfold clamp01.
  destruct (Q.min_spec 1 x) as [[A B]|[A B]];
  destruct (Q.max_spec 0 (Qmin 1 x)) as [[C D]|[C D]];
  repeat split; intros; lra.
Qed.

Lemma clamp_in_range (c : pyfloat) :
  in_range 0 1 (PyFloat.max (Fin 0.0) (PyFloat.min (Fin 1.0) c)).
Proof.
  destruct c as [q| | |]; unfold PyFloat.max, PyFloat.min, PyFloat.gt; simpl.
  - destruct (Qlt_bool_spec q 1.0); simpl.
    + destruct (Qlt_bool_spec 0.0 q); simpl; lra.
    + simpl. lra.
  - lra.
  - lra.
  - lra.
Qed.

Lemma calculate_confidence_in_range (s : pyfloat) (mc : market_conditions) :
  in_range 0 1 (SignalProcessor.calculate_confidence s mc).
Proof. unfold SignalProcessor.calculate_confidence. apply clamp_in_range. Qed.

Lemma clamp_fin (q : Q) :
  PyFloat.max (Fin 0.0) (PyFloat.min (Fin 1.0) (Fin q)) =f Fin (clamp01 q).
Proof.
  destruct (clamp01_cases q) as (A & B & C).
  unfold PyFloat.max, PyFloat.min, PyFloat.gt, PyFloat.lt.
  destruct (Qlt_bool_spec q 1.0).
  - destruct (Qlt_bool_spec 0.0 q).
    + change (q == clamp01 q). symmetry. apply B. lra.
    + change (0.0 == clamp01 q). rewrite A; lra.
  - destruct (Qlt_bool_spec 0.0 1.0); [|lra].
    change (1.0 == clamp01 q). rewrite C; lra.
Qed.

#[local] Instance clamp01_compat : Proper (Qeq ==> Qeq) clamp01.
Proof. intros x y E. unfold clamp01. rewrite E. reflexivity. Qed.

Lemma calculate_confidence_formula (s ts vf : Q) :
  SignalProcessor.calculate_confidence (Fin s)
    {| volatility_factor := Some (Fin vf); trend_strength := Some (Fin ts) |}
  =f Fin (clamp01 (s + 0.2 * ts - 0.1 * (vf - 1))).
Proof.
  eapply feq_trans; [apply clamp_fin|].
  change (clamp01 (s + ts * 0.2 + - (vf + - 1.0) * 0.1)
          == clamp01 (s + 0.2 * ts - 0.1 * (vf - 1))).
  apply clamp01_compat. lra.
Qed.

(** ** The engines reach the scorer or return early *)

(** Name the result of every destructuring [let], without splitting on the
    conditions that produced it. *)
Ltac peel :=
  repeat match goal with
    | |- context [match ?X with pair _ _ => _ end] => destruct X
    end.

Ltac early_or_scored :=
  cbv zeta;
  repeat match goal with
    | |- context [if ?c then inl _ else _] => destruct c
    end;
  peel;
  intros H; try discriminate H;
  injection H as <-; split; reflexivity.

Lemma generate_signal_respond (now : string) (e : engine_input) :
  generate_signal now e = respond now (evaluate e).
Proof. destruct e; reflexivity. Qed.

Lemma early_return_is_flat (e : engine_input) (early : signal_response) :
  evaluate e = inl early ->
  signal early = "FLAT" /\ confidence early = Fin 0.0.
Proof.
  destruct e; unfold evaluate.
  - unfold Supertrend.evaluate. early_or_scored.
  - unfold AlphaTrend.evaluate. early_or_scored.
  - unfold Ichimoku.evaluate. early_or_scored.
  - unfold Composite.evaluate. early_or_scored.
  - unfold Turtle.evaluate. early_or_scored.
  - unfold MeanReversion.evaluate. early_or_scored.
  - unfold Trend.evaluate. early_or_scored.
Qed.

(** C2 (as amended).  The shared scorer computes
    [clamp01(signal_strength + 0.2 * trend_strength - 0.1 * (volatility_factor - 1))];
    every engine that reaches the scorer emits that value rounded to three
    decimals; an engine that returns early (too few rows, or the ADX gate of
    the mean-reversion engine) emits confidence 0 without calling the scorer;
    in every case the emitted confidence lies in [0, 1], whatever the inputs
    (infinities and NaN included). *)
Theorem engine_confidence_scored_or_zero :
  (forall s ts vf : Q,
      SignalProcessor.calculate_confidence (Fin s)
        {| volatility_factor := Some (Fin vf); trend_strength := Some (Fin ts) |}
      =f Fin (clamp01 (s + 0.2 * ts - 0.1 * (vf - 1))))
  /\ (forall (now : string) (e : engine_input),
         match evaluate e with
         | inr sc =>
             confidence (generate_signal now e) =
             PyFloat.round
               (SignalProcessor.calculate_confidence (s_strength sc) (s_conditions sc)) 3
         | inl early =>
             generate_signal now e = early /\ confidence early = Fin 0.0
         end)
  /\ (forall (now : string) (e : engine_input),
         in_range 0 1 (confidence (generate_signal now e))).
Proof.
  split; [exact calculate_confidence_formula|].
  split; intros now e; rewrite generate_signal_respond;
    destruct (evaluate e) as [early|sc] eqn:E; simpl.
  - split; [reflexivity|]. apply (early_return_is_flat e early E).
  - reflexivity.
  - destruct (early_return_is_flat e early E) as [_ ->]. simpl. lra.
  - apply round3_in_range, calculate_confidence_in_range.
Qed.

(** C2 (as stated) fails: with ADX = 30 the mean-reversion engine emits
    confidence 0, while the scorer applied to the strength the engine holds
    at that point (0.5) and to its market conditions gives 0.58. *)
Lemma adx_gate_bypasses_scorer :
  confidence (MeanReversion.generate_signal "2024-01-01T00:00:00" strong_trend_rows)
    = Fin 0.0
  /\ PyFloat.round
       (SignalProcessor.calculate_confidence (Fin 0.5)
          {| volatility_factor := Some (Fin 1);
             trend_strength := Some (PyFloat.max (Fin 0) (Fin 1 - Fin 30 / Fin 50)%F) |}) 3
     =f Fin 0.58
  /\ ~ (confidence (MeanReversion.generate_signal "2024-01-01T00:00:00" strong_trend_rows)
        =f PyFloat.round
             (SignalProcessor.calculate_confidence (Fin 0.5)
                {| volatility_factor := Some (Fin 1);
                   trend_strength :=
                     Some (PyFloat.max (Fin 0) (Fin 1 - Fin 30 / Fin 50)%F) |}) 3).
Proof.
  split; [reflexivity|]. split.
  - vm_compute. reflexivity.
  - vm_compute. discriminate.
Qed.

(** ** The confidence gate *)

Lemma gate_fires (result : signal_response) (min_conf : pyfloat) :
  signal result <> "FLAT" ->
  PyFloat.ge (confidence result) min_conf = false ->
  SignalProcessor.validate_signal (signal result) (confidence result) min_conf = false.
Proof.
  intros NF B. unfold SignalProcessor.validate_signal.
  apply String.eqb_neq in NF. rewrite NF, B.
  destruct (existsb _ _); reflexivity.
Qed.

(** C9.  A non-FLAT result whose confidence is below the minimum leaves the
    gate with its signal set to FLAT and one line appended to its rationale;
    confidence, stop-loss, take-profit (and timestamp) are untouched.  A FLAT
    result leaves the gate as it came, whatever its confidence.  The
    [/signal] endpoint returns the gated result of [generate_signal]. *)
Theorem gate_changes_only_signal_and_rationale
    (result : signal_response) (min_conf : pyfloat) :
  (signal result <> "FLAT" ->
   PyFloat.lt (confidence result) min_conf = true ->
   signal (apply_gate result min_conf) = "FLAT"
   /\ confidence (apply_gate result min_conf) = confidence result
   /\ sl_pct (apply_gate result min_conf) = sl_pct result
   /\ tp_multiple (apply_gate result min_conf) = tp_multiple result
   /\ timestamp (apply_gate result min_conf) = timestamp result
   /\ rationale (apply_gate result min_conf) =
      rationale result ++
      [FString "Signal confidence {} below minimum {}"
               [AFloat (confidence result); AFloat min_conf]])
  /\ (signal result = "FLAT" -> apply_gate result min_conf = result)
  /\ (forall (now sym : string) (df : Supertrend.input),
         sym <> "" -> (50 <= Supertrend.len_df df)%nat ->
         Supertrend.get_signal now {| symbol := Some sym; min_conf := Some min_conf |}
                               (Some df)
         = inr (apply_gate (Supertrend.generate_signal now df) min_conf)).
Proof.
  split; [|split].
  - intros NF B. unfold apply_gate.
    rewrite (gate_fires result min_conf NF (lt_true_ge_false _ _ B)). simpl.
    repeat split; reflexivity.
  - intros F. unfold apply_gate, SignalProcessor.validate_signal.
    rewrite F. reflexivity.
  - intros now sym df NE L. unfold Supertrend.get_signal, serve. simpl.
    destruct sym as [|c sym]; [contradiction NE; reflexivity|].
    destruct (Nat.ltb_spec (Supertrend.len_df df) 50); [lia|reflexivity].
Qed.

Lemma gate_changes_only_signal_and_rationale_witness :
  (signal (apply_gate weak_long (Fin 0.5)) = "FLAT"
   /\ confidence (apply_gate weak_long (Fin 0.5)) = Fin 0.4
   /\ sl_pct (apply_gate weak_long (Fin 0.5)) = Fin 0.025
   /\ tp_multiple (apply_gate weak_long (Fin 0.5)) = Fin 1.5
   /\ timestamp (apply_gate weak_long (Fin 0.5)) = Some "2024-01-01T00:00:00"
   /\ rationale (apply_gate weak_long (Fin 0.5)) =
      [lit "Supertrend remains bullish";
       FString "Signal confidence {} below minimum {}" [AFloat (Fin 0.4); AFloat (Fin 0.5)]])
  /\ apply_gate weak_flat (Fin 0.5) = weak_flat.
Proof.
  split.
  - apply (proj1 (gate_changes_only_signal_and_rationale weak_long (Fin 0.5))).
    + discriminate.
    + reflexivity.
  - apply (proj1 (proj2 (gate_changes_only_signal_and_rationale weak_flat (Fin 0.5)))).
    reflexivity.
Defined.

(** ** Floats up to [=f] *)

Lemma lt_feq (a a' b b' : pyfloat) :
  a =f a' -> b =f b' -> PyFloat.lt a b = PyFloat.lt a' b'.
Proof.
  destruct a, a', b, b'; simpl; try contradiction; auto.
  intros E1 E2. unfold Qlt_bool. rewrite E1, E2. reflexivity.
Qed.

Lemma min_feq (a a' b b' : pyfloat) :
  a =f a' -> b =f b' -> PyFloat.min a b =f PyFloat.min a' b'.
Proof.
  intros E1 E2. unfold PyFloat.min. rewrite (lt_feq b b' a a' E2 E1).
  destruct (PyFloat.lt b' a'); assumption.
Qed.

Lemma mul_comm_feq (a b : pyfloat) : (a * b)%F =f (b * a)%F.
Proof.
  destruct a, b; simpl; auto; try apply feq_refl.
  apply Qmult_comm.
Qed.

Lemma min_fin (a b : Q) : PyFloat.min (Fin a) (Fin b) =f Fin (Qmin a b).
Proof.
  unfold PyFloat.min, PyFloat.lt.
  destruct (Qlt_bool_spec b a) as [L|L].
  - change (b == Qmin a b). symmetry. apply Q.min_r. lra.
  - change (a == Qmin a b). symmetry. apply Q.min_l. lra.
Qed.

Lemma div_fin (x y : Q) : ~ y == 0 -> (Fin x / Fin y)%F = Fin (x / y).
Proof.
  intro N. simpl. destruct (Qeq_bool_spec y 0); [contradiction|reflexivity].
Qed.

Lemma fold_add_fin (qs : list Q) (a : Q) :
  fold_left PyFloat.add (map Fin qs) (Fin a) = Fin (fold_left Qplus qs a).
Proof.
  revert a. induction qs as [|q qs IH]; intro a; [reflexivity|].
  simpl. apply IH.
Qed.

(** ** The trend analyzer *)

Lemma iloc_last_snoc {A : Type} (l : list A) (x : A) : iloc_last (l ++ [x]) = Some x.
Proof. unfold iloc_last. rewrite rev_app_distr. reflexivity. Qed.

Lemma iloc_last_map_seq {A : Type} (f : nat -> A) (n : nat) :
  iloc_last (map f (seq 0 (S n))) = Some (f n).
Proof. rewrite seq_S, map_app. simpl. apply iloc_last_snoc. Qed.

Lemma sma_last (data : list pyfloat) (window : nat) :
  data <> [] -> (window <= List.length data)%nat ->
  iloc_last (TechnicalIndicators.sma data window) = Some (window_mean data window).
Proof.
  intros NE L. unfold TechnicalIndicators.sma, TechnicalIndicators.rolling_mean.
  destruct (List.length data) as [|n] eqn:Len.
  - destruct data; [contradiction NE; reflexivity|discriminate].
  - rewrite iloc_last_map_seq. f_equal.
    unfold TechnicalIndicators.window_at, window_mean.
    destruct window as [|w]; [reflexivity|].
    replace (0 <? S w)%nat with true by (symmetry; apply Nat.ltb_lt; lia).
    replace (S w <=? n + 1)%nat with true by (symmetry; apply Nat.leb_le; lia).
    simpl andb. cbv iota. rewrite Len.
    replace (n + 1 - S w)%nat with (S n - S w)%nat by lia.
    rewrite firstn_all2; [reflexivity|].
    rewrite length_skipn. lia.
Qed.

Lemma iloc_last_map {A B : Type} (f : A -> B) (l : list A) :
  iloc_last (map f l) = option_map f (iloc_last l).
Proof.
  unfold iloc_last. rewrite <- map_rev. destruct (rev l); reflexivity.
Qed.

(** On finite closes the moving average is the rational mean of the last
    [window] closes. *)
Lemma window_mean_finite (qs : list Q) (window : nat) :
  (1 <= window <= List.length qs)%nat ->
  window_mean (map Fin qs) window
  = Fin (fold_left Qplus (skipn (List.length qs - window) qs) 0
         / inject_Z (Z.of_nat window)).
Proof.
  intros [L1 L2]. unfold window_mean. destruct window as [|w]; [lia|].
  rewrite length_map, skipn_map. unfold TechnicalIndicators.mean, TechnicalIndicators.total.
  rewrite fold_add_fin, length_map, length_skipn.
  replace (List.length qs - (List.length qs - S w))%nat with (S w) by lia.
  apply div_fin. intro E.
  assert (inject_Z 0 < inject_Z (Z.of_nat (S w))) as P by (rewrite <- Zlt_Qlt; lia).
  change (inject_Z 0) with 0 in P. lra.
Qed.

(** C7.  On a frame of finite closes with at least [period] rows, [p] its
    last close, [short] and [long] the simple moving averages of the last
    [period // 2] and [period] closes: the direction is UP exactly when
    [p > short > long], DOWN exactly when [p < short < long], and SIDEWAYS
    otherwise, and it is always one of the three; the strength is
    [min(1, 10 * |p - long| / long)], which for a non-zero [long] is that
    rational number. *)
Theorem analyze_trend_classifies (qs : list Q) (period : nat) (p : Q) :
  (period <= List.length qs)%nat ->
  iloc_last qs = Some p ->
  exists t : trend,
    MarketAnalyzer.analyze_trend (map Fin qs) period = Some t
    /\ (direction t = "UP" <->
        PyFloat.gt (Fin p) (window_mean (map Fin qs) (period / 2)) = true
        /\ PyFloat.gt (window_mean (map Fin qs) (period / 2))
                      (window_mean (map Fin qs) period) = true)
    /\ (direction t = "DOWN" <->
        PyFloat.lt (Fin p) (window_mean (map Fin qs) (period / 2)) = true
        /\ PyFloat.lt (window_mean (map Fin qs) (period / 2))
                      (window_mean (map Fin qs) period) = true)
    /\ (direction t = "SIDEWAYS" <->
        ~ (PyFloat.gt (Fin p) (window_mean (map Fin qs) (period / 2)) = true
           /\ PyFloat.gt (window_mean (map Fin qs) (period / 2))
                         (window_mean (map Fin qs) period) = true)
        /\ ~ (PyFloat.lt (Fin p) (window_mean (map Fin qs) (period / 2)) = true
              /\ PyFloat.lt (window_mean (map Fin qs) (period / 2))
                            (window_mean (map Fin qs) period) = true))
    /\ (direction t = "UP" \/ direction t = "DOWN" \/ direction t = "SIDEWAYS")
    /\ strength t =f
       PyFloat.min (Fin 1)
         (Fin 10 * (PyFloat.abs (Fin p - window_mean (map Fin qs) period)
                    / window_mean (map Fin qs) period))%F
    /\ (forall l : Q,
           window_mean (map Fin qs) period = Fin l -> ~ l == 0 ->
           strength t =f Fin (Qmin 1 (10 * Qabs (p - l) / l))).
Proof.
  intros L P.
  assert (iloc_last (map Fin qs) = Some (Fin p)) as P'
    by (rewrite iloc_last_map, P; reflexivity).
  assert (map Fin qs <> []) as NE by (intro E; rewrite E in P'; discriminate P').
  rewrite <- (length_map Fin) in L.
  assert (period / 2 <= List.length (map Fin qs))%nat as L2.
  { pose proof (Nat.Div0.div_le_upper_bound period 2 period). lia. }
  unfold MarketAnalyzer.analyze_trend.
  replace (List.length (map Fin qs) <? period)%nat with false
    by (symmetry; apply Nat.ltb_ge; exact L).
  rewrite P', (sma_last _ (period / 2) NE L2), (sma_last _ period NE L).
  remember (Fin p) as price eqn:Price.
  set (short := window_mean (map Fin qs) (period / 2)).
  set (long := window_mean (map Fin qs) period).
  eexists. split; [reflexivity|]. cbn [direction strength].
  assert (PyFloat.min (Fin 1.0) (PyFloat.abs (price - long) / long * Fin 10)%F =f
          PyFloat.min (Fin 1) (Fin 10 * (PyFloat.abs (price - long) / long))%F) as S.
  { apply min_feq; [reflexivity|apply mul_comm_feq]. }
  assert (PyFloat.lt price short = true -> PyFloat.gt price short = true -> False) as X.
  { unfold PyFloat.gt. intros A B. apply lt_true_ge_false in A. unfold PyFloat.ge in A.
    clear Price P'. destruct price, short; simpl in *; try discriminate.
    revert A B. qcases; intros; try discriminate. lra. }
  split; [|split; [|split; [|split; [|split]]]].
  - destruct (PyFloat.gt price short), (PyFloat.gt short long); simpl;
      [tauto| | |];
      (split; [|intros [? ?]; discriminate]);
      destruct (PyFloat.lt price short && PyFloat.lt short long); discriminate.
  - destruct (PyFloat.gt price short) eqn:G1, (PyFloat.gt short long) eqn:G2; simpl.
    + split; [discriminate|]. intros [A _]. exfalso. exact (X A eq_refl).
    + destruct (PyFloat.lt price short), (PyFloat.lt short long); simpl;
        [tauto| | |]; (split; [discriminate|intros [? ?]; discriminate]).
    + destruct (PyFloat.lt price short), (PyFloat.lt short long); simpl;
        [tauto| | |]; (split; [discriminate|intros [? ?]; discriminate]).
    + destruct (PyFloat.lt price short), (PyFloat.lt short long); simpl;
        [tauto| | |]; (split; [discriminate|intros [? ?]; discriminate]).
  - destruct (PyFloat.gt price short), (PyFloat.gt short long); simpl;
      [split; [discriminate|tauto]| | |];
      (destruct (PyFloat.lt price short), (PyFloat.lt short long); simpl;
       [split; [discriminate|tauto]| | |];
       (split; [intros _; split; intros [? ?]; discriminate|reflexivity])).
  - destruct (PyFloat.gt price short && PyFloat.gt short long); [tauto|].
    destruct (PyFloat.lt price short && PyFloat.lt short long); tauto.
  - exact S.
  - intros l El N. eapply feq_trans; [exact S|].
    rewrite Price, El. cbn [PyFloat.sub PyFloat.neg PyFloat.add PyFloat.abs].
    rewrite (div_fin _ l N). cbn [PyFloat.mul].
    eapply feq_trans; [apply min_fin|].
    change (Qmin 1 (10 * (Qabs (p + - l) / l)) == Qmin 1 (10 * Qabs (p - l) / l)).
    apply Q.min_compat; [reflexivity|]. unfold Qminus. field. exact N.
Qed.

Lemma analyze_trend_classifies_witness :
  (4 <= List.length rising_closes)%nat
  /\ iloc_last rising_closes = Some 14
  /\ exists t : trend,
       MarketAnalyzer.analyze_trend (map Fin rising_closes) 4 = Some t
       /\ direction t = "UP".
Proof.
  assert (4 <= List.length rising_closes)%nat as L by (simpl; lia).
  assert (iloc_last rising_closes = Some 14) as P by reflexivity.
  split; [exact L|]. split; [exact P|].
  destruct (analyze_trend_classifies rising_closes 4 14 L P) as (t & E & UP & _).
  exists t. split; [exact E|]. apply UP. split; reflexivity.
Defined.

(** ** Position sizing *)



(** ** The backtest step *)

Lemma snoc_neq {A : Type} (l : list A) (x : A) : l ++ [x] <> l.
Proof.
  intro E. apply (f_equal (@List.length A)) in E.
  rewrite length_app in E. simpl in E. lia.
Qed.

Lemma walk_nil (self : Backtest.BacktestRunner)
    (signal_at : nat -> option Backtest.decision) (indices : list nat) :
  Backtest.walk self [] signal_at indices = Backtest.initial_state self.
Proof.
  unfold Backtest.walk. generalize (Backtest.initial_state self).
  induction indices as [|i rest IH]; intro st; simpl; [reflexivity|].
  destruct i; simpl; apply IH.
Qed.

(** C3.  At a step with an open position [p], [held] being the whole
    calendar days between the bar's date and the entry date: the position
    is closed (one trade is appended) if and only if
    [held >= min_holding_days]; the trade exits at the bar's close with
    commission [(entry + exit) * size * commission_rate] and pnl
    [(exit - entry) * size] (LONG) or [(entry - exit) * size] (SHORT) minus
    the commission, which is added to the capital; otherwise the position is
    kept and nothing changes.  After the loop a position still open is
    closed at the close of the last row of the frame by the same formulas,
    and that trade ends the trade list of the run. *)
Theorem holding_period_exit :
  (forall (self : Backtest.BacktestRunner) (st : Backtest.state) (p : Backtest.position)
          (date : Backtest.Timestamp) (price : pyfloat) (signal : Backtest.decision),
      Backtest.current_position st = Some p ->
      (Backtest.trades (Backtest.step self st date price signal) <> Backtest.trades st
       <-> (Backtest.min_holding_days self
            <= Backtest.days_between date (Backtest.entry_date p))%Z)
      /\ ((Backtest.min_holding_days self
           <= Backtest.days_between date (Backtest.entry_date p))%Z ->
          exists t : Backtest.trade,
            Backtest.trades (Backtest.step self st date price signal)
              = Backtest.trades st ++ [t]
            /\ Backtest.t_entry_date t = Backtest.entry_date p
            /\ Backtest.t_entry_price t = Backtest.entry_price p
            /\ Backtest.t_size t = Backtest.size p
            /\ Backtest.t_side t = Backtest.side p
            /\ Backtest.exit_date t = date
            /\ Backtest.exit_price t = price
            /\ Backtest.days_held t = Backtest.days_between date (Backtest.entry_date p)
            /\ Backtest.commission t
               = ((Backtest.entry_price p + price) * Backtest.size p
                  * Backtest.commission_rate self)%F
            /\ (Backtest.side p = "LONG" ->
                Backtest.pnl t
                = ((price - Backtest.entry_price p) * Backtest.size p
                   - Backtest.commission t)%F)
            /\ (Backtest.side p = "SHORT" ->
                Backtest.pnl t
                = ((Backtest.entry_price p - price) * Backtest.size p
                   - Backtest.commission t)%F)
            /\ Backtest.capital (Backtest.step self st date price signal)
               = (Backtest.capital st + Backtest.pnl t)%F)
      /\ ((Backtest.days_between date (Backtest.entry_date p)
           < Backtest.min_holding_days self)%Z ->
          Backtest.trades (Backtest.step self st date price signal) = Backtest.trades st
          /\ Backtest.current_position (Backtest.step self st date price signal) = Some p
          /\ Backtest.capital (Backtest.step self st date price signal)
             = Backtest.capital st))
  /\ (forall (self : Backtest.BacktestRunner) (st : Backtest.state) (p : Backtest.position)
             (final : Backtest.bar),
         Backtest.current_position st = Some p ->
         exists t : Backtest.trade,
           Backtest.trades (Backtest.close_remaining self st final)
             = Backtest.trades st ++ [t]
           /\ Backtest.t_entry_date t = Backtest.entry_date p
           /\ Backtest.t_entry_price t = Backtest.entry_price p
           /\ Backtest.t_size t = Backtest.size p
           /\ Backtest.t_side t = Backtest.side p
           /\ Backtest.exit_date t = Backtest.date final
           /\ Backtest.exit_price t = Backtest.close final
           /\ Backtest.commission t
              = ((Backtest.entry_price p + Backtest.close final) * Backtest.size p
                 * Backtest.commission_rate self)%F
           /\ (Backtest.side p = "LONG" ->
               Backtest.pnl t
               = ((Backtest.close final - Backtest.entry_price p) * Backtest.size p
                  - Backtest.commission t)%F)
           /\ (Backtest.side p = "SHORT" ->
               Backtest.pnl t
               = ((Backtest.entry_price p - Backtest.close final) * Backtest.size p
                  - Backtest.commission t)%F)
           /\ Backtest.capital (Backtest.close_remaining self st final)
              = (Backtest.capital st + Backtest.pnl t)%F)
  /\ (forall (self : Backtest.BacktestRunner) (df : list Backtest.bar)
             (signal_at : nat -> option Backtest.decision) (window_size step_size : nat)
             (p : Backtest.position),
         (window_size <= List.length df)%nat -> step_size <> 0%nat ->
         Backtest.current_position
           (Backtest.walk self df signal_at
              (Backtest.range window_size (List.length df) step_size)) = Some p ->
         exists (final : Backtest.bar) (r : Backtest.result),
           iloc_last df = Some final
           /\ Backtest.run_walk_forward_backtest self (Some df) signal_at
                window_size step_size = Backtest.Completed r
           /\ Backtest.r_trades r
              = Backtest.trades
                  (Backtest.close_remaining self
                     (Backtest.walk self df signal_at
                        (Backtest.range window_size (List.length df) step_size))
                     final)).
Proof.
  split; [|split].
  - intros self st p date price signal P.
    unfold Backtest.step. rewrite P.
    destruct (Z.geb_spec (Backtest.days_between date (Backtest.entry_date p))
                (Backtest.min_holding_days self)) as [G|L].
    + split; [|split].
      * cbn [Backtest.trades]. split; [intros _; exact G|intros _; apply snoc_neq].
      * intros _. eexists. cbn [Backtest.trades Backtest.capital].
        split; [reflexivity|]. cbn.
        repeat (split; [reflexivity|]).
        split; [|split].
        -- intros S. rewrite S. reflexivity.
        -- intros S. rewrite S. reflexivity.
        -- reflexivity.
      * intros C. lia.
    + split; [|split].
      * cbn [Backtest.trades]. split; [intros N; contradiction N; reflexivity|lia].
      * intros C. lia.
      * intros _. repeat split; reflexivity.
  - intros self st p final P. unfold Backtest.close_remaining. rewrite P.
    eexists. cbn [Backtest.trades Backtest.capital].
    split; [reflexivity|]. cbn.
    repeat (split; [reflexivity|]).
    split; [|split].
    + intros S. rewrite S. reflexivity.
    + intros S. rewrite S. reflexivity.
    + reflexivity.
  - intros self df signal_at window_size step_size p L NZ P.
    destruct (iloc_last df) as [final|] eqn:F.
    + exists final. eexists. split; [reflexivity|].
      unfold Backtest.run_walk_forward_backtest.
      replace (List.length df <? window_size)%nat with false
        by (symmetry; apply Nat.ltb_ge; exact L).
      replace (step_size =? 0)%nat with false
        by (symmetry; apply Nat.eqb_neq; exact NZ).
      rewrite F. split; reflexivity.
    + assert (df = []) as E.
      { unfold iloc_last in F. destruct (rev df) eqn:R; [|discriminate].
        apply (f_equal (@rev Backtest.bar)) in R. rewrite rev_involutive in R. exact R. }
      subst df. rewrite walk_nil in P. discriminate P.
Qed.

Lemma holding_period_exit_witness :
  (exists t : Backtest.trade,
      Backtest.trades (Backtest.step Backtest.runner holding (day 8) (Fin 110) flat_call)
        = [t]
      /\ Backtest.exit_price t = Fin 110
      /\ Backtest.pnl t =f Fin 97.9)
  /\ Backtest.current_position
       (Backtest.step Backtest.runner holding (day 3) (Fin 105) flat_call)
     = Some held_long
  /\ (exists t : Backtest.trade,
         Backtest.trades (Backtest.close_remaining Backtest.runner holding bar_day3) = [t]
         /\ Backtest.exit_price t = Fin 105)
  /\ (exists (final : Backtest.bar) (r : Backtest.result),
         iloc_last three_bars = Some final
         /\ Backtest.run_walk_forward_backtest Backtest.runner (Some three_bars)
              always_long 1 1 = Backtest.Completed r
         /\ List.length (Backtest.r_trades r) = 1%nat).
Proof.
  destruct holding_period_exit as (S & F & R).
  split; [|split; [|split]].
  - destruct (S Backtest.runner holding held_long (day 8) (Fin 110) flat_call eq_refl)
      as (_ & C & _).
    destruct C as (t & E & _ & _ & _ & _ & _ & X & _ & Fee & Long & _).
    { vm_compute. discriminate. }
    exists t. split; [exact E|]. split; [exact X|].
    rewrite (Long eq_refl), Fee. vm_compute. reflexivity.
  - destruct (S Backtest.runner holding held_long (day 3) (Fin 105) flat_call eq_refl)
      as (_ & _ & K).
    apply K. vm_compute. reflexivity.
  - destruct (F Backtest.runner holding held_long bar_day3 eq_refl)
      as (t & E & _ & _ & _ & _ & _ & X & _).
    exists t. split; [exact E|exact X].
  - edestruct (R Backtest.runner three_bars always_long 1%nat 1%nat)
      as (final & r & L & E & T).
    + simpl. lia.
    + discriminate.
    + vm_compute. reflexivity.
    + exists final, r. split; [exact L|]. split; [exact E|].
      rewrite T. vm_compute. reflexivity.
Defined.

(** C10.  Exit is evaluated before entry within one step.  When the open
    position [p] has been held long enough and the decision of the step is
    not FLAT, the step records the closing trade at the bar's close and, if
    the size computed from the capital after that exit is positive, opens a
    new position on the side of the decision at the same date and the same
    close (otherwise it is left without a position).  When [p] has not been
    held long enough it stays the one position, whatever the decision. *)
Theorem exit_precedes_entry :
  (forall (self : Backtest.BacktestRunner) (st : Backtest.state) (p : Backtest.position)
          (date : Backtest.Timestamp) (price : pyfloat) (signal : Backtest.decision),
      Backtest.current_position st = Some p ->
      (Backtest.min_holding_days self
       <= Backtest.days_between date (Backtest.entry_date p))%Z ->
      Backtest.d_decision signal <> "FLAT" ->
      exists t : Backtest.trade,
        Backtest.trades (Backtest.step self st date price signal)
          = Backtest.trades st ++ [t]
        /\ Backtest.t_entry_date t = Backtest.entry_date p
        /\ Backtest.t_side t = Backtest.side p
        /\ Backtest.exit_date t = date
        /\ Backtest.exit_price t = price
        /\ Backtest.capital (Backtest.step self st date price signal)
           = (Backtest.capital st + Backtest.pnl t)%F
        /\ (PyFloat.gt
              (Backtest.calculate_position_size signal price
                 (Backtest.capital st + Backtest.pnl t)%F) (Fin 0) = true ->
            Backtest.current_position (Backtest.step self st date price signal)
            = Some {| Backtest.entry_date := date;
                      Backtest.side := Backtest.d_decision signal;
                      Backtest.entry_price := price;
                      Backtest.size :=
                        Backtest.calculate_position_size signal price
                          (Backtest.capital st + Backtest.pnl t)%F;
                      Backtest.signal_confidence := Backtest.d_confidence signal |})
        /\ (PyFloat.gt
              (Backtest.calculate_position_size signal price
                 (Backtest.capital st + Backtest.pnl t)%F) (Fin 0) = false ->
            Backtest.current_position (Backtest.step self st date price signal) = None))
  /\ (forall (self : Backtest.BacktestRunner) (st : Backtest.state) (p : Backtest.position)
             (date : Backtest.Timestamp) (price : pyfloat) (signal : Backtest.decision),
         Backtest.current_position st = Some p ->
         (Backtest.days_between date (Backtest.entry_date p)
          < Backtest.min_holding_days self)%Z ->
         Backtest.current_position (Backtest.step self st date price signal) = Some p
         /\ Backtest.trades (Backtest.step self st date price signal) = Backtest.trades st).
Proof.
  split.
  - intros self st p date price signal P G NF.
    apply String.eqb_neq in NF.
    unfold Backtest.step. rewrite P.
    destruct (Z.geb_spec (Backtest.days_between date (Backtest.entry_date p))
                (Backtest.min_holding_days self)) as [_|L]; [|lia].
    eexists. cbn [Backtest.trades Backtest.capital Backtest.current_position].
    split; [reflexivity|].
    cbn [Backtest.t_entry_date Backtest.t_side Backtest.exit_date
         Backtest.exit_price Backtest.pnl].
    repeat (split; [reflexivity|]).
    rewrite NF. cbn [negb].
    split; intros Pos; rewrite Pos; reflexivity.
  - intros self st p date price signal P L.
    unfold Backtest.step. rewrite P.
    destruct (Z.geb_spec (Backtest.days_between date (Backtest.entry_date p))
                (Backtest.min_holding_days self)) as [G|_]; [lia|].
    split; reflexivity.
Qed.

Lemma exit_precedes_entry_witness :
  (exists t : Backtest.trade,
      Backtest.trades (Backtest.step Backtest.runner holding (day 8) (Fin 110) short_call)
        = [t]
      /\ Backtest.t_side t = "LONG"
      /\ Backtest.exit_price t = Fin 110
      /\ exists q : Backtest.position,
           Backtest.current_position
             (Backtest.step Backtest.runner holding (day 8) (Fin 110) short_call) = Some q
           /\ Backtest.side q = "SHORT"
           /\ Backtest.entry_date q = day 8
           /\ Backtest.entry_price q = Fin 110)
  /\ Backtest.current_position
       (Backtest.step Backtest.runner holding (day 3) (Fin 105) short_call)
     = Some held_long.
Proof.
  destruct exit_precedes_entry as (X & K). split.
  - destruct (X Backtest.runner holding held_long (day 8) (Fin 110) short_call eq_refl)
      as (t & E & _ & S & _ & Px & Cap & Open & _).
    + vm_compute. discriminate.
    + discriminate.
    + exists t. split; [exact E|]. split; [exact S|]. split; [exact Px|].
      eexists. split; [|split; [|split]].
      * apply Open.
        apply (f_equal (@List.hd_error Backtest.trade)) in E.
        vm_compute in E. injection E as <-. vm_compute. reflexivity.
      * reflexivity.
      * reflexivity.
      * reflexivity.
  - apply (K Backtest.runner holding held_long (day 3) (Fin 105) short_call eq_refl).
    vm_compute. reflexivity.
Defined.

(** ** The aggregator *)

Lemma votes_cons (side : string) (r : signal_response) (rest : list signal_response) :
  votes side (r :: rest) =
  ((if is_valid r && (signal r =? side)%string then 1 else 0) + votes side rest)%nat.
Proof.
  unfold votes, valid_of. simpl. destruct (is_valid r); simpl; [|reflexivity].
  destruct (signal r =? side); reflexivity.
Qed.

(** What the loop has counted after any list of entries. *)
Lemma tally_fold (entries : list (string * signal_response)) (t : Orchestrator.tally) :
  let t' := fold_left Orchestrator.tally_step entries t in
  Orchestrator.valid_signals t'
    = (Orchestrator.valid_signals t + List.length (valid_of (map snd entries)))%nat
  /\ Orchestrator.long_signals t'
     = (Orchestrator.long_signals t + votes "LONG" (map snd entries))%nat
  /\ Orchestrator.short_signals t'
     = (Orchestrator.short_signals t + votes "SHORT" (map snd entries))%nat
  /\ Orchestrator.total_confidence t'
     = fold_left PyFloat.add (map confidence (valid_of (map snd entries)))
         (Orchestrator.total_confidence t)
  /\ Orchestrator.t_components t'
     = Orchestrator.t_components t ++ map component_of entries.
Proof.
  revert t. induction entries as [|[name r] rest IH]; intro t.
  - unfold votes, valid_of. simpl. rewrite app_nil_r. repeat split; first [reflexivity|lia].
  - cbn [fold_left map snd]. destruct (IH (Orchestrator.tally_step t (name, r)))
      as (V & Lg & Sh & Tot & Cmp).
    cbv zeta. rewrite V, Lg, Sh, Tot, Cmp. clear V Lg Sh Tot Cmp IH.
    rewrite !votes_cons. unfold valid_of. cbn [filter].
    unfold Orchestrator.tally_step, is_valid.
    destruct (signal r =? "FLAT") eqn:F; cbn [negb andb].
    + cbn. rewrite <- app_assoc. repeat split; first [reflexivity|lia].
    + cbn [Orchestrator.valid_signals Orchestrator.long_signals
           Orchestrator.short_signals Orchestrator.total_confidence
           Orchestrator.t_components map List.length fold_left].
      rewrite <- app_assoc.
      destruct (signal r =? "LONG") eqn:Lo.
      * apply String.eqb_eq in Lo. rewrite Lo. cbn.
        repeat split;
          first [reflexivity|lia|unfold component_of; cbn; rewrite Lo; reflexivity].
      * destruct (signal r =? "SHORT"); repeat split; first [reflexivity|lia].
Qed.

Lemma combine_snd {A B : Type} (l : list A) (l' : list B) :
  (List.length l' <= List.length l)%nat -> map snd (combine l l') = l'.
Proof.
  revert l'. induction l as [|a l IH]; intros [|b l'] L; simpl in *;
    try reflexivity; try lia.
  f_equal. apply IH. lia.
Qed.



(** The consensus truth table of the specification. *)
Example truth_table_seven_flat :
  Orchestrator.decision
    (Orchestrator.reduce Orchestrator.orchestrator seven_flat (Fin 0.7) "t") = "FLAT"
  /\ Orchestrator.a_confidence
       (Orchestrator.reduce Orchestrator.orchestrator seven_flat (Fin 0.7) "t") =f Fin 0.
Proof. vm_compute. split; reflexivity. Qed.

Example truth_table_four_long :
  Orchestrator.decision
    (Orchestrator.reduce Orchestrator.orchestrator four_long (Fin 0.7) "t") = "LONG"
  /\ Orchestrator.a_confidence
       (Orchestrator.reduce Orchestrator.orchestrator four_long (Fin 0.7) "t") =f Fin 0.8.
Proof. vm_compute. split; reflexivity. Qed.

Example truth_table_tie :
  Orchestrator.decision
    (Orchestrator.reduce Orchestrator.orchestrator three_each (Fin 0.7) "t") = "FLAT"
  /\ Orchestrator.a_confidence
       (Orchestrator.reduce Orchestrator.orchestrator three_each (Fin 0.7) "t") =f Fin 0.9.
Proof. vm_compute. split; reflexivity. Qed.

Example truth_table_gated :
  Orchestrator.decision
    (Orchestrator.reduce Orchestrator.orchestrator two_long (Fin 0.95) "t") = "FLAT"
  /\ Orchestrator.a_confidence
       (Orchestrator.reduce Orchestrator.orchestrator two_long (Fin 0.95) "t") =f Fin 0.9.
Proof. vm_compute. split; reflexivity. Qed.

(** ** Failed engines *)

Lemma combine_map_r {A B : Type} (f : A -> B) (l : list A) :
  combine l (map f l) = map (fun x => (x, f x)) l.
Proof. induction l as [|a l IH]; simpl; [reflexivity|]. f_equal. exact IH. Qed.

Lemma valid_of_skip {A : Type} (g : A -> signal_response) (keep : A -> bool) (l : list A) :
  (forall x, In x l -> keep x = false -> is_valid (g x) = false) ->
  valid_of (map g (filter keep l)) = valid_of (map g l).
Proof.
  induction l as [|a l IH]; intro H; [reflexivity|].
  assert (valid_of (map g (filter keep l)) = valid_of (map g l)) as R.
  { apply IH. intros x I. apply H. right. exact I. }
  unfold valid_of in *. cbn [filter map].
  destruct (keep a) eqn:K; cbn [map filter].
  - rewrite R. reflexivity.
  - rewrite (H a (or_introl eq_refl) K). exact R.
Qed.

Lemma conclude_depends_on_counters (self : Orchestrator.TradingOrchestrator)
    (t1 t2 : Orchestrator.tally) (min_conf : pyfloat) (now : string) :
  Orchestrator.valid_signals t1 = Orchestrator.valid_signals t2 ->
  Orchestrator.long_signals t1 = Orchestrator.long_signals t2 ->
  Orchestrator.short_signals t1 = Orchestrator.short_signals t2 ->
  Orchestrator.total_confidence t1 = Orchestrator.total_confidence t2 ->
  Orchestrator.decision (Orchestrator.conclude self t1 min_conf now)
  = Orchestrator.decision (Orchestrator.conclude self t2 min_conf now)
  /\ Orchestrator.a_confidence (Orchestrator.conclude self t1 min_conf now)
     = Orchestrator.a_confidence (Orchestrator.conclude self t2 min_conf now).
Proof.
  intros V L S T. unfold Orchestrator.conclude. rewrite V, L, S, T.
  destruct (Orchestrator.valid_signals t2 =? 0)%nat; [split; reflexivity|].
  destruct (PyFloat.lt _ min_conf); split; reflexivity.
Qed.

Lemma conclude_keeps_counters (self : Orchestrator.TradingOrchestrator)
    (t : Orchestrator.tally) (min_conf : pyfloat) (now : string) :
  Orchestrator.components (Orchestrator.conclude self t min_conf now)
  = Orchestrator.t_components t
  /\ Orchestrator.m_valid_signals
       (Orchestrator.a_metadata (Orchestrator.conclude self t min_conf now))
     = Orchestrator.valid_signals t
  /\ Orchestrator.m_long_signals
       (Orchestrator.a_metadata (Orchestrator.conclude self t min_conf now))
     = Orchestrator.long_signals t
  /\ Orchestrator.m_short_signals
       (Orchestrator.a_metadata (Orchestrator.conclude self t min_conf now))
     = Orchestrator.short_signals t.
Proof.
  unfold Orchestrator.conclude.
  destruct (Orchestrator.valid_signals t =? 0)%nat; [repeat split; reflexivity|].
  destruct (PyFloat.lt _ min_conf); repeat split; reflexivity.
Qed.

Lemma failed_reply_is_flat (service : string) (o : Orchestrator.outcome) :
  failed o = true ->
  exists why : fstring,
    failure_note o = Some why
    /\ Orchestrator.get_signal_from_service service o
       = {| signal := "FLAT"; confidence := Fin 0.0; sl_pct := Fin 0.0;
            tp_multiple := Fin 0.0; rationale := [why]; timestamp := None |}.
Proof.
  destruct o as [body|code text|str_e type_name]; intro F; [discriminate F| |].
  - eexists. split; [reflexivity|]. simpl. destruct (text =? ""); reflexivity.
  - eexists. split; [reflexivity|]. simpl. destruct (str_e =? ""); reflexivity.
Qed.

(** C8.  When the query to one of the seven services fails (an HTTP error
    status or any other exception), the aggregation still returns: the
    components are those of the seven services, the one of the failed
    service is FLAT with confidence 0 and a one-line rationale carrying the
    error, and decision, confidence and counters are those obtained from the
    remaining services alone. *)
Theorem failed_engine_degrades
    (self : Orchestrator.TradingOrchestrator) (query : string -> Orchestrator.outcome)
    (min_conf : pyfloat) (now service : string) :
  In service Orchestrator.keys ->
  failed (query service) = true ->
  (exists why : fstring,
      failure_note (query service) = Some why
      /\ In {| Orchestrator.svc := service; Orchestrator.c_signal := "FLAT";
               Orchestrator.c_confidence := Fin 0.0;
               Orchestrator.c_rationale := [why] |}
            (Orchestrator.components
               (Orchestrator.aggregate_signals self query min_conf now)))
  /\ map Orchestrator.svc
       (Orchestrator.components (Orchestrator.aggregate_signals self query min_conf now))
     = Orchestrator.keys
  /\ (let remaining :=
        fold_left Orchestrator.tally_step
          (map (fun s => (s, Orchestrator.get_signal_from_service s (query s)))
               (filter (fun s => negb (s =? service)) Orchestrator.keys))
          Orchestrator.tally0 in
      Orchestrator.decision (Orchestrator.aggregate_signals self query min_conf now)
      = Orchestrator.decision (Orchestrator.conclude self remaining min_conf now)
      /\ Orchestrator.a_confidence (Orchestrator.aggregate_signals self query min_conf now)
         = Orchestrator.a_confidence (Orchestrator.conclude self remaining min_conf now)
      /\ Orchestrator.m_valid_signals
           (Orchestrator.a_metadata (Orchestrator.aggregate_signals self query min_conf now))
         = Orchestrator.valid_signals remaining
      /\ Orchestrator.m_long_signals
           (Orchestrator.a_metadata (Orchestrator.aggregate_signals self query min_conf now))
         = Orchestrator.long_signals remaining
      /\ Orchestrator.m_short_signals
           (Orchestrator.a_metadata (Orchestrator.aggregate_signals self query min_conf now))
         = Orchestrator.short_signals remaining).
Proof.
  intros I F.
  set (g := fun s => Orchestrator.get_signal_from_service s (query s)).
  set (keep := fun s => negb (s =? service)).
  unfold Orchestrator.aggregate_signals, Orchestrator.reduce.
  change (map (fun service0 => Orchestrator.get_signal_from_service service0 (query service0))
              Orchestrator.keys) with (map g Orchestrator.keys).
  rewrite combine_map_r.
  pose proof (tally_fold (map (fun s => (s, g s)) Orchestrator.keys) Orchestrator.tally0) as A.
  pose proof (tally_fold (map (fun s => (s, g s)) (filter keep Orchestrator.keys))
                Orchestrator.tally0) as R.
  rewrite map_map in A, R. cbn [snd] in A, R.
  change (map (fun x : string => g x)) with (map g) in A, R.
  assert (valid_of (map g (filter keep Orchestrator.keys))
          = valid_of (map g Orchestrator.keys)) as Same.
  { apply valid_of_skip. intros x _ K. unfold keep in K.
    apply negb_false_iff, String.eqb_eq in K. subst x.
    destruct (failed_reply_is_flat service (query service) F) as (why & _ & E).
    unfold g, is_valid. rewrite E. reflexivity. }
  unfold votes in A, R. rewrite Same in R.
  set (all := fold_left Orchestrator.tally_step
                (map (fun s => (s, g s)) Orchestrator.keys) Orchestrator.tally0) in *.
  set (remaining := fold_left Orchestrator.tally_step
                      (map (fun s => (s, g s)) (filter keep Orchestrator.keys))
                      Orchestrator.tally0) in *.
  cbv zeta in A, R.
  destruct A as (V & Lg & Sh & Tot & Cmp). destruct R as (V' & Lg' & Sh' & Tot' & _).
  change (Orchestrator.t_components Orchestrator.tally0)
    with (@nil Orchestrator.component) in Cmp.
  rewrite app_nil_l in Cmp.
  split; [|split].
  - destruct (failed_reply_is_flat service (query service) F) as (why & N & E).
    exists why. split; [exact N|].
    rewrite (proj1 (conclude_keeps_counters self all min_conf now)).
    rewrite Cmp.
    apply in_map_iff. exists (service, g service). split;
      [|exact (in_map (fun s => (s, g s)) _ _ I)].
    unfold component_of, g. cbn [fst snd]. rewrite E. reflexivity.
  - rewrite (proj1 (conclude_keeps_counters self all min_conf now)).
    rewrite Cmp. rewrite !map_map. cbn [component_of Orchestrator.svc fst].
    apply map_id.
  - destruct (conclude_keeps_counters self all min_conf now) as (_ & MV & ML & MS).
    rewrite MV, ML, MS. clear MV ML MS.
    cbv zeta.
    change (fold_left Orchestrator.tally_step
              (map (fun s => (s, Orchestrator.get_signal_from_service s (query s)))
                   (filter (fun s => negb (s =? service)) Orchestrator.keys))
              Orchestrator.tally0) with remaining.
    assert (Orchestrator.valid_signals all = Orchestrator.valid_signals remaining) as EV
      by congruence.
    assert (Orchestrator.long_signals all = Orchestrator.long_signals remaining) as EL
      by congruence.
    assert (Orchestrator.short_signals all = Orchestrator.short_signals remaining) as ES
      by congruence.
    assert (Orchestrator.total_confidence all = Orchestrator.total_confidence remaining)
      as ET by congruence.
    destruct (conclude_depends_on_counters self all remaining min_conf now EV EL ES ET)
      as (D & C).
    split; [exact D|]. split; [exact C|].
    split; [exact EV|]. split; [exact EL|exact ES].
Qed.

Lemma failed_engine_degrades_witness :
  In "turtle" Orchestrator.keys
  /\ failed (one_down "turtle") = true
  /\ (exists why : fstring,
         failure_note (one_down "turtle") = Some why
         /\ In {| Orchestrator.svc := "turtle"; Orchestrator.c_signal := "FLAT";
                  Orchestrator.c_confidence := Fin 0.0;
                  Orchestrator.c_rationale := [why] |}
               (Orchestrator.components
                  (Orchestrator.aggregate_signals Orchestrator.orchestrator one_down
                     (Fin 0.7) "t")))
  /\ Orchestrator.decision
       (Orchestrator.aggregate_signals Orchestrator.orchestrator one_down (Fin 0.7) "t")
     = "LONG".
Proof.
  assert (In "turtle" Orchestrator.keys) as I by (simpl; tauto).
  assert (failed (one_down "turtle") = true) as F by reflexivity.
  split; [exact I|]. split; [exact F|].
  destruct (failed_engine_degrades Orchestrator.orchestrator one_down (Fin 0.7) "t"
              "turtle" I F) as (C & _ & D & _).
  split; [exact C|]. rewrite D. vm_compute. reflexivity.
Defined.

(** ** Metrics on finite pnl *)

Lemma finite_pnls (trades : list Backtest.trade) :
  Forall finite_pnl trades ->
  exists qs : list Q, map Backtest.pnl trades = map Fin qs.
Proof.
  induction 1 as [|t rest [q E] _ [qs IH]].
  - exists []. reflexivity.
  - exists (q :: qs). simpl. rewrite E, IH. reflexivity.
Qed.

Lemma filter_fin (f : Q -> bool) (g : pyfloat -> bool) (qs : list Q) :
  (forall q, g (Fin q) = f q) ->
  filter g (map Fin qs) = map Fin (filter f qs).
Proof.
  intro H. induction qs as [|q qs IH]; [reflexivity|].
  simpl. rewrite H. destruct (f q); simpl; rewrite IH; reflexivity.
Qed.

Lemma dropna_fin (qs : list Q) : Backtest.dropna (map Fin qs) = map Fin qs.
Proof.
  unfold Backtest.dropna. induction qs as [|q qs IH]; [reflexivity|].
  simpl. rewrite IH. reflexivity.
Qed.

Lemma pd_sum_fin (qs : list Q) :
  Backtest.pd_sum (map Fin qs) = Fin (fold_left Qplus qs 0).
Proof. unfold Backtest.pd_sum. rewrite dropna_fin. apply fold_add_fin. Qed.

Lemma sum_of_negatives (qs : list Q) (a : Q) :
  Forall (fun q => q < 0) qs ->
  fold_left Qplus qs a <= a /\ (qs <> [] -> fold_left Qplus qs a < a).
Proof.
  intro H. revert a. induction H as [|q qs Hq _ IH]; intro a.
  - simpl. split; [lra|]. intro N. contradiction N. reflexivity.
  - simpl. destruct (IH (a + q)) as [Le _]. split; [lra|]. intros _. lra.
Qed.

Lemma filter_negative (qs : list Q) :
  Forall (fun q => q < 0) (filter (fun q => Qlt_bool q 0) qs).
Proof.
  apply Forall_forall. intros q I. apply filter_In in I. destruct I as [_ L].
  apply Qlt_bool_iff. exact L.
Qed.

Lemma round_fin_not_inf (q : Q) (n : nat) : PyFloat.round (Fin q) n <> PInf.
Proof. simpl. discriminate. Qed.

Lemma round3_zero (q : Q) : q == 0 -> PyFloat.round (Fin q) 3 =f Fin 0.
Proof.
  intro E. simpl.
  assert (PyFloat.round_half_even (q * PyFloat.pow10 3) = 0%Z) as R.
  { assert (0 <= PyFloat.round_half_even (q * PyFloat.pow10 3) <= 0)%Z as B.
    { apply round_half_even_bounds; rewrite E; change (inject_Z 0) with 0; lra. }
    lia. }
  rewrite R. reflexivity.
Qed.

(** The profit factor of a ledger of finite pnls. *)
Lemma profit_factor_finite (trades : list Backtest.trade) (qs : list Q) :
  map Backtest.pnl trades = map Fin qs ->
  Backtest.profit_factor_of trades
  = match filter (fun q => Qlt_bool q 0) qs with
    | [] => PInf
    | _ :: _ =>
        Fin (fold_left Qplus (filter (fun q => Qlt_bool 0 q) qs) 0
             / Qabs (fold_left Qplus (filter (fun q => Qlt_bool q 0) qs) 0))
    end.
Proof.
  intro E. unfold Backtest.profit_factor_of. rewrite E.
  rewrite (filter_fin (fun q => Qlt_bool 0 q) (fun x => PyFloat.gt x (Fin 0)))
      by reflexivity.
  rewrite (filter_fin (fun q => Qlt_bool q 0) (fun x => PyFloat.lt x (Fin 0)))
      by reflexivity.
  rewrite !pd_sum_fin. cbn [PyFloat.abs].
  pose proof (filter_negative qs) as Neg.
  destruct (sum_of_negatives _ 0 Neg) as [Le Lt].
  destruct (filter (fun q => Qlt_bool q 0) qs) as [|n ns] eqn:F.
  - reflexivity.
  - assert (fold_left Qplus (n :: ns) 0 < 0) as S by (apply Lt; discriminate).
    assert (0 < Qabs (fold_left Qplus (n :: ns) 0)) as P.
    { rewrite Qabs_neg by lra. lra. }
    unfold PyFloat.gt, PyFloat.lt.
    destruct (Qlt_bool_spec 0 (Qabs (fold_left Qplus (n :: ns) 0))); [|contradiction].
    apply div_fin. lra.
Qed.




(** ** Maximum drawdown *)

Lemma last_fin (l : list Q) (d : Q) :
  l <> [] -> List.last (map Fin l) NaN = Fin (List.last l d).
Proof.
  induction l as [|a l IH]; intro N; [contradiction N; reflexivity|].
  destruct l as [|b l]; [reflexivity|].
  change (List.last (map Fin (b :: l)) NaN = Fin (List.last (b :: l) d)).
  apply IH. discriminate.
Qed.

Lemma equity_finite (self : Backtest.BacktestRunner) (trades : list Backtest.trade) (c : Q) :
  Backtest.initial_capital self = Fin c ->
  Forall finite_pnl trades ->
  exists es : list Q, Backtest.equity_of self trades = map Fin (c :: es).
Proof.
  intros C F. unfold Backtest.equity_of. rewrite C.
  change [Fin c] with (map Fin (c :: [])). generalize (@nil Q) as l0.
  induction F as [|t rest [q E] _ IH]; intro l0.
  - exists l0. reflexivity.
  - cbn [fold_left]. rewrite E, (last_fin (c :: l0) 0) by discriminate.
    cbn [PyFloat.add].
    change (map Fin (c :: l0) ++ [Fin (List.last (c :: l0) 0 + q)])
      with (map Fin (c :: l0) ++ map Fin [List.last (c :: l0) 0 + q]).
    rewrite <- map_app. rewrite <- app_comm_cons. apply IH.
Qed.

Lemma climbs_compat (m m' : Q) (l : list Q) : m == m' -> (climbs m l <-> climbs m' l).
Proof. intro E. destruct l as [|e l]; simpl; [tauto|]. rewrite E. tauto. Qed.

Lemma climbs_nondecreasing (c : Q) (es : list Q) :
  climbs c es <-> nondecreasing (map Fin (c :: es)).
Proof.
  revert c. induction es as [|e es IH]; intro c; [simpl; tauto|].
  change (c <= e /\ climbs e es
          <-> Qle_bool c e = true /\ nondecreasing (map Fin (e :: es))).
  rewrite Qle_bool_iff, IH. tauto.
Qed.

Lemma drawdown_sign (e m : Q) :
  0 < m -> e <= m ->
  (e + - m) / m <= 0 /\ (e < m -> (e + - m) / m < 0) /\ (e == m -> (e + - m) / m == 0).
Proof.
  intros Pm Le. unfold Qdiv.
  pose proof (Qinv_lt_0_compat m Pm) as Pi. set (x := / m) in *.
  repeat split; intros; nra.
Qed.

Lemma pd_max2_fin (m e : Q) :
  Backtest.pd_max2 (Fin m) (Fin e) = Fin (if Qlt_bool m e then e else m).
Proof.
  unfold Backtest.pd_max2, PyFloat.gt, PyFloat.lt. simpl.
  destruct (Qlt_bool m e); reflexivity.
Qed.

Lemma pd_min2_fin (a x : Q) :
  Backtest.pd_min2 (Fin a) (Fin x) = Fin (if Qlt_bool x a then x else a).
Proof.
  unfold Backtest.pd_min2, PyFloat.lt. simpl.
  destruct (Qlt_bool x a); reflexivity.
Qed.

(** The running minimum of the drawdowns, from a running maximum [m] and a
    minimum so far [a]. *)
Lemma running_drawdown (es : list Q) (m a : Q) :
  0 < m -> a <= 0 ->
  exists d : Q,
    fold_left Backtest.pd_min2
      (map (fun er : pyfloat * pyfloat => ((fst er - snd er) / snd er)%F)
           (combine (map Fin es) (Backtest.expanding_max_from (Fin m) (map Fin es))))
      (Fin a) = Fin d
    /\ d <= a
    /\ (d == 0 <-> a == 0 /\ climbs m es).
Proof.
  revert m a. induction es as [|e es IH]; intros m a Pm Na.
  - exists a. simpl. split; [reflexivity|]. split; [lra|tauto].
  - cbn [map Backtest.expanding_max_from combine fold_left fst snd].
    rewrite pd_max2_fin.
    destruct (Qlt_bool_spec m e) as [Up|Down].
    + (* a new maximum: the drawdown of this point is zero *)
      assert (~ e == 0) as Ne by lra.
      cbn [PyFloat.sub PyFloat.neg PyFloat.add]. rewrite (div_fin _ e Ne).
      destruct (drawdown_sign e e) as (_ & _ & Z); [lra|lra|].
      specialize (Z (Qeq_refl e)).
      rewrite pd_min2_fin. set (dd := (e + - e) / e) in *.
      destruct (Qlt_bool_spec dd a) as [B|B]; [lra|].
      destruct (IH e a) as (d & E & Le & Iff); [lra|lra|].
      exists d. split; [exact E|]. split; [exact Le|].
      rewrite Iff. simpl. split; [intros [A C]|intros [A [_ C]]]; repeat split;
        try assumption; lra.
    + (* below or at the running maximum *)
      assert (~ m == 0) as Nm by lra.
      cbn [PyFloat.sub PyFloat.neg PyFloat.add]. rewrite (div_fin _ m Nm).
      destruct (drawdown_sign e m) as (D0 & D1 & D2); [lra|lra|].
      rewrite pd_min2_fin. set (dd := (e + - m) / m) in *.
      destruct (Qlt_bool_spec dd a) as [B|B].
      * destruct (IH m dd) as (d & E & Le & Iff); [lra|lra|].
        exists d. split; [exact E|]. split; [lra|].
        split; [intro Z; lra|]. simpl. intros [A [Le' _]].
        assert (e == m) as Em by lra. specialize (D2 Em). lra.
      * destruct (IH m a) as (d & E & Le & Iff); [lra|lra|].
        exists d. split; [exact E|]. split; [exact Le|].
        rewrite Iff. simpl. split.
        -- intros [A C]. destruct (Qlt_le_dec e m) as [Lt|Ge].
           ++ specialize (D1 Lt). lra.
           ++ assert (e == m) as Em by lra.
              repeat split; [exact A|lra|]. apply (climbs_compat e m es Em). exact C.
        -- intros [A [Le' C]]. assert (e == m) as Em by lra.
           split; [exact A|]. apply (climbs_compat e m es Em). exact C.
Qed.



(** The reported figure is rounded: a curve that steps down by less than
    half a thousandth of its peak is reported with drawdown zero. *)
Example small_drawdown_rounds_to_zero :
  Backtest.max_drawdown
    (Backtest.calculate_trade_metrics Backtest.runner [trade_with (-1)]) =f Fin 0
  /\ ~ nondecreasing (Backtest.equity_of Backtest.runner [trade_with (-1)]).
Proof.
  split; [vm_compute; reflexivity|]. intros [H _]. vm_compute in H. discriminate H.
Qed.

(** * Further properties *)

(** ** What an engine may answer *)

Ltac peel_eq :=
  repeat match goal with
    | |- context [match ?X with pair _ _ => _ end] =>
        first [is_var X; destruct X | let E := fresh "E" in destruct X eqn:E]
    end.

Ltac split_ifs_in E :=
  repeat (match type of E with
          | context [if ?c then _ else _] => destruct c
          end; cbv beta iota in E).

(** Follow a variable of the goal back to the [let] that bound it. *)
Ltac trace_back :=
  repeat match goal with
    | E : _ = (?s, _) |- context [?s] =>
        is_var s; split_ifs_in E; inversion E; subst; clear E
    | E : _ = (?s, _, _) |- context [?s] =>
        is_var s; split_ifs_in E; inversion E; subst; clear E
    end.

Ltac scored_only :=
  cbv zeta;
  repeat match goal with
    | |- context [if ?c then inl _ else _] => destruct c
    end;
  try (intros H; discriminate H).

Lemma scored_signal_tri_state (e : engine_input) (sc : scored) :
  evaluate e = inr sc -> tri_state (s_signal sc).
Proof.
  destruct e; unfold evaluate.
  - unfold Supertrend.evaluate. scored_only. peel_eq.
    intros H. injection H as <-. cbn [s_signal]. trace_back; unfold tri_state; tauto.
  - unfold AlphaTrend.evaluate. scored_only. peel_eq.
    intros H. injection H as <-. cbn [s_signal]. trace_back; unfold tri_state; tauto.
  - unfold Ichimoku.evaluate. scored_only. peel_eq.
    intros H. injection H as <-. cbn [s_signal]. trace_back; unfold tri_state; tauto.
  - unfold Composite.evaluate. scored_only. peel_eq.
    intros H. injection H as <-. cbn [s_signal].
    unfold Composite.analyze_composite_signals. cbn [Composite.consensus].
    repeat match goal with |- context [if ?c then _ else _] => destruct c end;
      unfold tri_state; tauto.
  - unfold Turtle.evaluate. scored_only. peel_eq.
    intros H. injection H as <-. cbn [s_signal]. trace_back; unfold tri_state; tauto.
  - unfold MeanReversion.evaluate. scored_only. peel_eq.
    intros H. injection H as <-. cbn [s_signal]. trace_back; unfold tri_state; tauto.
  - unfold Trend.evaluate. scored_only. peel_eq.
    intros H. injection H as <-. cbn [s_signal]. trace_back; unfold tri_state; tauto.
Qed.

Lemma generated_signal_tri_state (now : string) (e : engine_input) :
  tri_state (signal (generate_signal now e)).
Proof.
  rewrite generate_signal_respond. destruct (evaluate e) as [early|sc] eqn:E; simpl.
  - destruct (early_return_is_flat e early E) as [F _]. right. right. exact F.
  - apply (scored_signal_tri_state e sc E).
Qed.

Lemma generated_confidence_in_range (now : string) (e : engine_input) :
  in_range 0 1 (confidence (generate_signal now e)).
Proof.
  rewrite generate_signal_respond. destruct (evaluate e) as [early|sc] eqn:E; simpl.
  - destruct (early_return_is_flat e early E) as [_ ->]. simpl. lra.
  - apply round3_in_range, calculate_confidence_in_range.
Qed.

Lemma flat_passes_gate (r : signal_response) (min_conf : pyfloat) :
  signal r = "FLAT" -> apply_gate r min_conf = r.
Proof.
  intro F. unfold apply_gate, SignalProcessor.validate_signal. rewrite F. reflexivity.
Qed.

(** X1.  Whatever rows an engine is given and whatever minimum the caller
    asks for, the gated result carries one of the three calls LONG, SHORT,
    FLAT and a confidence in [0, 1]; when the call is not FLAT the
    confidence is at least the minimum and the gate has changed nothing;
    gating a second time changes nothing. *)
Theorem gated_response_contract (now : string) (e : engine_input) (min_conf : pyfloat) :
  tri_state (signal (apply_gate (generate_signal now e) min_conf))
  /\ in_range 0 1 (confidence (apply_gate (generate_signal now e) min_conf))
  /\ (signal (apply_gate (generate_signal now e) min_conf) <> "FLAT" ->
      PyFloat.ge (confidence (apply_gate (generate_signal now e) min_conf)) min_conf = true
      /\ apply_gate (generate_signal now e) min_conf = generate_signal now e)
  /\ apply_gate (apply_gate (generate_signal now e) min_conf) min_conf
     = apply_gate (generate_signal now e) min_conf.
Proof.
  pose proof (generated_signal_tri_state now e) as T.
  pose proof (generated_confidence_in_range now e) as R.
  set (r := generate_signal now e) in *.
  destruct (SignalProcessor.validate_signal (signal r) (confidence r) min_conf) eqn:V.
  - assert (apply_gate r min_conf = r) as G by (unfold apply_gate; rewrite V; reflexivity).
    rewrite !G. split; [exact T|]. split; [exact R|]. split; [|reflexivity].
    intros NF. split; [|reflexivity].
    unfold SignalProcessor.validate_signal in V.
    apply String.eqb_neq in NF. rewrite NF in V.
    destruct (existsb _ _); [exact V|discriminate V].
  - assert (signal (apply_gate r min_conf) = "FLAT") as S
      by (unfold apply_gate; rewrite V; reflexivity).
    assert (confidence (apply_gate r min_conf) = confidence r) as C
      by (unfold apply_gate; rewrite V; reflexivity).
    rewrite S, C. split; [right; right; reflexivity|]. split; [exact R|]. split.
    + intros NF. contradiction NF. reflexivity.
    + apply flat_passes_gate. exact S.
Qed.

Lemma gated_response_contract_witness :
  signal (apply_gate (generate_signal "t" (OfSupertrend bullish_band)) (Fin 0.5)) <> "FLAT"
  /\ PyFloat.ge (confidence (apply_gate (generate_signal "t" (OfSupertrend bullish_band))
                               (Fin 0.5))) (Fin 0.5) = true.
Proof.
  assert (signal (apply_gate (generate_signal "t" (OfSupertrend bullish_band)) (Fin 0.5))
          <> "FLAT") as NF by (vm_compute; discriminate).
  split; [exact NF|].
  destruct (gated_response_contract "t" (OfSupertrend bullish_band) (Fin 0.5))
    as (_ & _ & H & _).
  exact (proj1 (H NF)).
Defined.

(** ** Stop-loss and take-profit *)

Lemma clamp_between (lo hi : Q) (x : pyfloat) :
  lo <= hi -> in_range lo hi (PyFloat.max (Fin lo) (PyFloat.min (Fin hi) x)).
Proof.
  intro L. destruct x as [q| | |]; unfold PyFloat.max, PyFloat.min, PyFloat.gt; simpl.
  - destruct (Qlt_bool_spec q hi); simpl.
    + destruct (Qlt_bool_spec lo q); simpl; lra.
    + destruct (Qlt_bool_spec lo hi); simpl; lra.
  - destruct (Qlt_bool_spec lo hi); simpl; lra.
  - lra.
  - destruct (Qlt_bool_spec lo hi); simpl; lra.
Qed.

Lemma composite_stop (f : pyfloat) :
  PyFloat.gt f (Fin 1.2) = true ->
  in_range 0.025 0.04 (PyFloat.min (Fin 0.04) (Fin 0.025 * f)%F).
Proof.
  destruct f as [q| | |]; unfold PyFloat.gt, PyFloat.min; simpl; try discriminate.
  - intro G. apply Qlt_bool_iff in G.
    destruct (Qlt_bool_spec (0.025 * q) 0.04); simpl; lra.
  - intros _. simpl. lra.
Qed.

(** X2.  An engine that reaches the scorer answers with a stop-loss
    fraction inside its own range (for instance 1.5% to 5% for the
    band-follow engine, 2% to 6% for the breakout engine), hence between 1.5%
    and 6% and never zero, and with its fixed take-profit multiple; this
    holds for every input, NaN and infinite indicator values included. *)
Theorem scored_stop_loss_in_range (e : engine_input) (sc : scored) :
  evaluate e = inr sc ->
  in_range (fst (stop_loss_range e)) (snd (stop_loss_range e)) (s_sl_pct sc)
  /\ in_range 0.015 0.06 (s_sl_pct sc)
  /\ s_tp_multiple sc = Fin (take_profit_of e).
Proof.
  assert (forall lo hi x, 0.015 <= lo -> hi <= 0.06 -> in_range lo hi x ->
                          in_range lo hi x /\ in_range 0.015 0.06 x) as W.
  { intros lo hi x A B R. split; [exact R|]. destruct x; simpl in *; lra. }
  destruct e; unfold evaluate; cbn [stop_loss_range take_profit_of fst snd].
  - unfold Supertrend.evaluate. scored_only. peel_eq.
    intros H. injection H as <-. cbn [s_sl_pct s_tp_multiple].
    apply and_assoc. split; [|reflexivity]. apply W; [lra|lra|].
    trace_back; [apply clamp_between; lra|simpl; lra].
  - unfold AlphaTrend.evaluate. scored_only. peel_eq.
    intros H. injection H as <-. cbn [s_sl_pct s_tp_multiple].
    apply and_assoc. split; [|reflexivity]. apply W; [lra|lra|].
    trace_back; [apply clamp_between; lra|simpl; lra].
  - unfold Ichimoku.evaluate. scored_only. peel_eq.
    intros H. injection H as <-. cbn [s_sl_pct s_tp_multiple].
    apply and_assoc. split; [|reflexivity]. apply W; [lra|lra|].
    trace_back; [apply clamp_between; lra|simpl; lra].
  - unfold Composite.evaluate. scored_only. peel_eq.
    intros H. injection H as <-. cbn [s_sl_pct s_tp_multiple].
    apply and_assoc. split; [|reflexivity]. apply W; [lra|lra|].
    match goal with
    | E : (if ?c then _ else _) = (?s, _) |- context [?s] =>
        destruct c eqn:G; inversion E; subst; clear E
    end; [apply composite_stop; exact G|simpl; lra].
  - unfold Turtle.evaluate. scored_only. peel_eq.
    intros H. injection H as <-. cbn [s_sl_pct s_tp_multiple].
    apply and_assoc. split; [|reflexivity]. apply W; [lra|lra|].
    trace_back; [apply clamp_between; lra|simpl; lra].
  - unfold MeanReversion.evaluate. scored_only. peel_eq.
    intros H. injection H as <-. cbn [s_sl_pct s_tp_multiple].
    apply and_assoc. split; [|reflexivity]. apply W; [lra|lra|].
    trace_back; [apply clamp_between; lra|simpl; lra].
  - unfold Trend.evaluate. scored_only. peel_eq.
    intros H. injection H as <-. cbn [s_sl_pct s_tp_multiple].
    apply and_assoc. split; [|reflexivity]. apply W; [lra|lra|].
    trace_back; [apply clamp_between; lra|simpl; lra].
Qed.

Lemma scored_stop_loss_in_range_witness :
  exists sc : scored,
    evaluate (OfSupertrend bullish_band) = inr sc
    /\ in_range 0.015 0.06 (s_sl_pct sc).
Proof.
  eexists. split; [vm_compute; reflexivity|].
  refine (proj1 (proj2 (scored_stop_loss_in_range (OfSupertrend bullish_band) _ _))).
  vm_compute. reflexivity.
Defined.

(** ** The decision rule of each engine *)

Lemma lt_gt_exclusive (a b : pyfloat) :
  PyFloat.lt a b = true -> PyFloat.gt a b = false.
Proof.
  unfold PyFloat.gt. destruct a, b; simpl; auto; try discriminate.
  qcases; auto. intros _. exfalso. lra.
Qed.

Lemma lt_gt_apart (a : pyfloat) (x y : Q) :
  x <= y -> PyFloat.lt a (Fin x) = true -> PyFloat.gt a (Fin y) = false.
Proof.
  intro L. unfold PyFloat.gt. destruct a; simpl; auto; try discriminate.
  qcases; auto. intros _. exfalso. lra.
Qed.

(** X3.  The band-follow engine and its adaptive variant call LONG exactly
    when the current band direction is 1 and SHORT exactly when it is -1,
    whatever the previous direction was: a flip and a continued trend get
    the same call. *)
Theorem band_follow_call_is_direction :
  (forall (df : Supertrend.input) (sc : scored),
      Supertrend.evaluate df = inr sc ->
      (s_signal sc = "LONG" <-> Supertrend.current_direction df = 1%Z)
      /\ (s_signal sc = "SHORT" <-> Supertrend.current_direction df = (-1)%Z))
  /\ (forall (df : AlphaTrend.input) (sc : scored),
         AlphaTrend.evaluate df = inr sc ->
         (s_signal sc = "LONG" <-> AlphaTrend.current_direction df = 1%Z)
         /\ (s_signal sc = "SHORT" <-> AlphaTrend.current_direction df = (-1)%Z)).
Proof.
  split; intros df sc.
  - unfold Supertrend.evaluate. scored_only. peel_eq.
    intros H. injection H as <-. cbn [s_signal].
    match goal with E : _ = (?s, _) |- context [?s = _] => revert E end.
    destruct (Z.eqb_spec (Supertrend.current_direction df) 1) as [A|A];
      destruct (Z.eqb_spec (Supertrend.current_direction df) (-1)) as [B|B];
      destruct (Z.eqb_spec (Supertrend.prev_direction df) 1);
      destruct (Z.eqb_spec (Supertrend.prev_direction df) (-1));
      cbn [andb]; intros E; inversion E; subst;
      (split; split; intros X; first [reflexivity|discriminate X|lia|contradiction]).
  - unfold AlphaTrend.evaluate. scored_only. peel_eq.
    intros H. injection H as <-. cbn [s_signal].
    match goal with E : _ = (?s, _) |- context [?s = _] => revert E end.
    destruct (Z.eqb_spec (AlphaTrend.current_direction df) 1) as [A|A];
      destruct (Z.eqb_spec (AlphaTrend.current_direction df) (-1)) as [B|B];
      destruct (Z.eqb_spec (AlphaTrend.prev_direction df) 1);
      destruct (Z.eqb_spec (AlphaTrend.prev_direction df) (-1));
      cbn [andb]; intros E; inversion E; subst;
      (split; split; intros X; first [reflexivity|discriminate X|lia|contradiction]).
Qed.

Lemma band_follow_call_is_direction_witness :
  exists sc : scored,
    Supertrend.evaluate bullish_band = inr sc /\ s_signal sc = "LONG".
Proof.
  eexists. split; [vm_compute; reflexivity|].
  refine (proj2 (proj1 (proj1 band_follow_call_is_direction bullish_band _ _)) _).
  - vm_compute. reflexivity.
  - reflexivity.
Defined.

(** Close a characterisation once every test has a value. *)
Ltac finish_iff :=
  unfold tri_state; repeat split; intros;
  repeat match goal with H : _ /\ _ |- _ => destruct H end;
  first [reflexivity | discriminate | congruence
        | left; reflexivity | right; left; reflexivity | right; right; reflexivity].

(** X4.  The crossover engine calls LONG exactly when the fast EMA is
    above the slow EMA and the MACD line is above its signal line, SHORT
    exactly when both are below, and FLAT in every other case (mixed
    readings, equal values, NaN). *)
Theorem crossover_call_needs_agreement (df : Trend.input) (sc : scored) :
  Trend.evaluate df = inr sc ->
  (s_signal sc = "LONG" <->
   PyFloat.gt (Trend.current_ema_fast df) (Trend.current_ema_slow df) = true
   /\ PyFloat.gt (Trend.current_macd df) (Trend.current_macd_signal df) = true)
  /\ (s_signal sc = "SHORT" <->
      PyFloat.lt (Trend.current_ema_fast df) (Trend.current_ema_slow df) = true
      /\ PyFloat.lt (Trend.current_macd df) (Trend.current_macd_signal df) = true)
  /\ tri_state (s_signal sc).
Proof.
  unfold Trend.evaluate. scored_only. peel_eq.
  intros H. injection H as <-. cbn [s_signal].
  match goal with E : _ = (?s, _, _) |- context [?s = _] => revert E end.
  destruct (PyFloat.gt (Trend.current_ema_fast df) (Trend.current_ema_slow df)) eqn:EB;
    destruct (PyFloat.gt (Trend.current_macd df) (Trend.current_macd_signal df)) eqn:MB;
    destruct (PyFloat.lt (Trend.current_ema_fast df) (Trend.current_ema_slow df)) eqn:ES;
    destruct (PyFloat.lt (Trend.current_macd df) (Trend.current_macd_signal df)) eqn:MS;
    try (rewrite (lt_gt_exclusive _ _ ES) in EB; discriminate EB);
    try (rewrite (lt_gt_exclusive _ _ MS) in MB; discriminate MB);
    cbn [andb orb]; intros E; split_ifs_in E; inversion E; subst;
    finish_iff.
Qed.

Lemma crossover_call_needs_agreement_witness :
  exists sc : scored,
    Trend.evaluate aligned_crossover = inr sc /\ s_signal sc = "LONG".
Proof.
  eexists. split; [vm_compute; reflexivity|].
  refine (proj2 (proj1 (crossover_call_needs_agreement aligned_crossover _ _)) _).
  - vm_compute. reflexivity.
  - split; reflexivity.
Defined.

(** X5.  The composite engine calls LONG exactly when at least two of its
    three sub-indicators vote LONG and SHORT exactly when at least two vote
    SHORT; the two cannot happen together, the counts are those of the three
    votes, and the engine's call is this consensus. *)
Theorem composite_call_is_two_of_three (df : Composite.input) :
  (Composite.consensus (Composite.analyze_composite_signals df) = "LONG" <->
   (2 <= Composite.long_count (Composite.analyze_composite_signals df))%nat)
  /\ (Composite.consensus (Composite.analyze_composite_signals df) = "SHORT" <->
      (2 <= Composite.short_count (Composite.analyze_composite_signals df))%nat)
  /\ (Composite.long_count (Composite.analyze_composite_signals df)
      + Composite.short_count (Composite.analyze_composite_signals df) <= 3)%nat
  /\ (forall sc : scored,
         Composite.evaluate df = inr sc ->
         s_signal sc = Composite.consensus (Composite.analyze_composite_signals df)).
Proof.
  assert (forall v1 v2 v3 : string,
             let votes := [("qqe", v1); ("ssl", v2); ("wae", v3)] in
             (Composite.count_votes "LONG" votes
              + Composite.count_votes "SHORT" votes <= 3)%nat) as Three.
  { intros v1 v2 v3. unfold Composite.count_votes. cbn [filter snd].
    destruct (String.eqb_spec v1 "LONG"), (String.eqb_spec v1 "SHORT"),
      (String.eqb_spec v2 "LONG"), (String.eqb_spec v2 "SHORT"),
      (String.eqb_spec v3 "LONG"), (String.eqb_spec v3 "SHORT");
      subst; try discriminate; cbn; lia. }
  assert (forall sc : scored,
             Composite.evaluate df = inr sc ->
             s_signal sc = Composite.consensus (Composite.analyze_composite_signals df))
    as Call.
  { intros sc. unfold Composite.evaluate. scored_only. peel_eq.
    intros H. injection H as <-. reflexivity. }
  revert Call. generalize (Composite.evaluate df). intros ev Call.
  unfold Composite.analyze_composite_signals in *.
  cbn [Composite.consensus Composite.long_count Composite.short_count] in *.
  match goal with
  | |- context [[("qqe", ?a); ("ssl", ?b); ("wae", ?c)]] =>
      specialize (Three a b c); cbv zeta in Three;
      set (votes := [("qqe", a); ("ssl", b); ("wae", c)]) in *
  end.
  destruct (Nat.leb_spec 2 (Composite.count_votes "LONG" votes)) as [L|L];
    destruct (Nat.leb_spec 2 (Composite.count_votes "SHORT" votes)) as [S|S];
    try lia.
  - split; [|split; [|split]]; [finish_iff; lia|split; intro X; [discriminate X|lia]
                                |exact Three|].
    exact Call.
  - split; [|split; [|split]]; [split; intro X; [discriminate X|lia]|finish_iff; lia
                                |exact Three|].
    exact Call.
  - split; [|split; [|split]]; [split; intro X; [discriminate X|lia]
                                |split; intro X; [discriminate X|lia]|exact Three|].
    exact Call.
Qed.

Lemma composite_call_is_two_of_three_witness :
  (2 <= Composite.long_count (Composite.analyze_composite_signals two_of_three))%nat
  /\ Composite.consensus (Composite.analyze_composite_signals two_of_three) = "LONG".
Proof.
  assert (2 <= Composite.long_count (Composite.analyze_composite_signals two_of_three))%nat
    as Two by (vm_compute; lia).
  split; [exact Two|].
  exact (proj2 (proj1 (composite_call_is_two_of_three two_of_three)) Two).
Defined.

(** X6.  The mean-reversion engine, given at least 21 rows: when ADX is a
    number above 25 it answers FLAT at confidence 0 whatever RSI and the
    z-score are; otherwise it calls LONG exactly when RSI and z-score are
    numbers with RSI < 30 and z < -1, and SHORT exactly when RSI > 70 and
    z > 1. *)
Theorem mean_reversion_call (now : string) (df : MeanReversion.input) :
  (21 <= MeanReversion.len_df df)%nat ->
  (PyFloat.notna (MeanReversion.current_adx df)
   && PyFloat.gt (MeanReversion.current_adx df) (Fin 25) = true ->
   signal (MeanReversion.generate_signal now df) = "FLAT"
   /\ confidence (MeanReversion.generate_signal now df) = Fin 0.0
   /\ sl_pct (MeanReversion.generate_signal now df) = Fin 0.0)
  /\ (PyFloat.notna (MeanReversion.current_adx df)
      && PyFloat.gt (MeanReversion.current_adx df) (Fin 25) = false ->
      (signal (MeanReversion.generate_signal now df) = "LONG" <->
       PyFloat.notna (MeanReversion.current_rsi df) = true
       /\ PyFloat.notna (MeanReversion.current_zscore df) = true
       /\ PyFloat.lt (MeanReversion.current_rsi df) (Fin 30) = true
       /\ PyFloat.lt (MeanReversion.current_zscore df) (Fin (-1.0)) = true)
      /\ (signal (MeanReversion.generate_signal now df) = "SHORT" <->
          PyFloat.notna (MeanReversion.current_rsi df) = true
          /\ PyFloat.notna (MeanReversion.current_zscore df) = true
          /\ PyFloat.gt (MeanReversion.current_rsi df) (Fin 70) = true
          /\ PyFloat.gt (MeanReversion.current_zscore df) (Fin 1.0) = true)).
Proof.
  intros L. unfold MeanReversion.generate_signal, MeanReversion.evaluate.
  replace (MeanReversion.len_df df <?
           Nat.max (Nat.max MeanReversion.rsi_period MeanReversion.bb_period)
             MeanReversion.adx_period + 1)%nat with false
    by (symmetry; apply Nat.ltb_ge; simpl; lia).
  cbv zeta. unfold MeanReversion.adx_threshold, MeanReversion.rsi_oversold,
    MeanReversion.rsi_overbought.
  destruct (PyFloat.notna (MeanReversion.current_adx df)
            && PyFloat.gt (MeanReversion.current_adx df) (Fin 25)) eqn:G.
  - split; [intros _|intros X; discriminate X]. repeat split; reflexivity.
  - split; [intros X; discriminate X|intros _].
    peel_eq. cbn [respond signal SignalProcessor.format_signal_response s_signal].
    match goal with E : _ = (?s, _, _) |- context [?s = _] => revert E end.
    destruct (PyFloat.notna (MeanReversion.current_rsi df)) eqn:NR;
      destruct (PyFloat.notna (MeanReversion.current_zscore df)) eqn:NZ;
      cbn [andb];
      try (intros E; inversion E; subst; split; split; intros X;
           first [discriminate X|destruct X as (? & ? & _); discriminate]).
    destruct (PyFloat.lt (MeanReversion.current_rsi df) (Fin 30)) eqn:R30;
      destruct (PyFloat.lt (MeanReversion.current_zscore df) (Fin (-1.0))) eqn:Z1;
      destruct (PyFloat.gt (MeanReversion.current_rsi df) (Fin 70)) eqn:R70;
      destruct (PyFloat.gt (MeanReversion.current_zscore df) (Fin 1.0)) eqn:Z2;
      try (rewrite (lt_gt_apart _ 30 70 ltac:(lra) R30) in R70; discriminate R70);
      cbn [andb]; intros E; split_ifs_in E; inversion E; subst;
      (split; split; intros X;
       first [reflexivity|discriminate X
             |destruct X as (_ & _ & X1 & X2); discriminate
             |repeat split; reflexivity]).
Qed.

Lemma mean_reversion_call_witness :
  (21 <= MeanReversion.len_df oversold_rows)%nat
  /\ signal (MeanReversion.generate_signal "t" oversold_rows) = "LONG".
Proof.
  assert (21 <= MeanReversion.len_df oversold_rows)%nat as Rows by (vm_compute; lia).
  split; [exact Rows|].
  destruct (mean_reversion_call "t" oversold_rows Rows) as (_ & Calm).
  destruct (Calm eq_refl) as (Long & _).
  apply Long. repeat split.
Defined.

(** ** More on the aggregator *)

Lemma sum_in_unit (l : list pyfloat) (a : Q) :
  Forall (in_range 0 1) l -> 0 <= a ->
  exists s : Q,
    fold_left PyFloat.add l (Fin a) = Fin s
    /\ a <= s <= a + inject_Z (Z.of_nat (List.length l)).
Proof.
  intro H. revert a. induction H as [|x l Hx _ IH]; intros a Pa.
  - exists a. simpl. split; [reflexivity|]. change (inject_Z 0) with 0. lra.
  - destruct x as [q| | |]; simpl in Hx; try contradiction.
    destruct (IH (a + q)) as (s & E & B); [lra|].
    exists s. split; [exact E|].
    change (List.length (Fin q :: l)) with (S (List.length l)).
    rewrite Nat2Z.inj_succ, <- Z.add_1_r, inject_Z_plus. change (inject_Z 1) with 1. lra.
Qed.

Lemma valid_of_in_unit (results : list signal_response) :
  Forall (fun r => in_range 0 1 (confidence r)) results ->
  Forall (in_range 0 1) (map confidence (valid_of results)).
Proof.
  intro H. apply Forall_map. apply Forall_forall. intros r I.
  apply filter_In in I. destruct I as [I _].
  rewrite Forall_forall in H. apply H. exact I.
Qed.

(** X7.  If every reply carries a confidence in [0, 1] (as every engine's
    does), the aggregated confidence is in [0, 1] as well, and the decision
    is one of LONG, SHORT, FLAT; a LONG (SHORT) decision is reported only
    when LONG (SHORT) has strictly more votes and the mean confidence is not
    below the threshold. *)
Theorem aggregate_stays_in_range
    (self : Orchestrator.TradingOrchestrator) (results : list signal_response)
    (min_conf : pyfloat) (now : string) :
  List.length results = 7%nat ->
  Forall (fun r => in_range 0 1 (confidence r)) results ->
  in_range 0 1 (Orchestrator.a_confidence (Orchestrator.reduce self results min_conf now))
  /\ tri_state (Orchestrator.decision (Orchestrator.reduce self results min_conf now))
  /\ (Orchestrator.decision (Orchestrator.reduce self results min_conf now) = "LONG" ->
      (votes "SHORT" results < votes "LONG" results)%nat
      /\ PyFloat.lt (average_confidence results) min_conf = false)
  /\ (Orchestrator.decision (Orchestrator.reduce self results min_conf now) = "SHORT" ->
      (votes "LONG" results < votes "SHORT" results)%nat
      /\ PyFloat.lt (average_confidence results) min_conf = false).
Proof.
  intros Len Unit. unfold Orchestrator.reduce.
  pose proof (tally_fold (combine Orchestrator.keys results) Orchestrator.tally0) as T.
  rewrite combine_snd in T by (rewrite Len; simpl; lia).
  set (t := fold_left Orchestrator.tally_step (combine Orchestrator.keys results)
              Orchestrator.tally0) in *.
  cbv zeta in T. destruct T as (V & Lg & Sh & Tot & _).
  change (Orchestrator.valid_signals Orchestrator.tally0) with 0%nat in V.
  change (Orchestrator.long_signals Orchestrator.tally0) with 0%nat in Lg.
  change (Orchestrator.short_signals Orchestrator.tally0) with 0%nat in Sh.
  change (Orchestrator.total_confidence Orchestrator.tally0) with (Fin 0.0) in Tot.
  rewrite Nat.add_0_l in V, Lg, Sh.
  unfold Orchestrator.conclude. rewrite V, Lg, Sh, Tot.
  unfold average_confidence.
  destruct (sum_in_unit _ 0.0 (valid_of_in_unit results Unit)) as (s & Es & Bs); [lra|].
  rewrite length_map in Bs. rewrite Es.
  destruct (valid_of results) as [|v rest] eqn:E.
  - cbn. unfold tri_state. split; [|split; [|split]].
    + split; vm_compute; discriminate.
    + right. right. reflexivity.
    + intros X. discriminate X.
    + intros X. discriminate X.
  - set (n := List.length (v :: rest)) in *.
    assert (0 < inject_Z (Z.of_nat n)) as Pn.
    { change 0 with (inject_Z 0). rewrite <- Zlt_Qlt. unfold n. simpl. lia. }
    replace (n =? 0)%nat with false by (symmetry; apply Nat.eqb_neq; unfold n; simpl; lia).
    unfold Orchestrator.of_count.
    rewrite (div_fin s (inject_Z (Z.of_nat n))) by lra.
    assert (in_range 0 1 (PyFloat.round (Fin (s / inject_Z (Z.of_nat n))) 3)) as R.
    { apply round3_in_range. unfold in_range. split.
      - apply Qle_shift_div_l; [exact Pn|]. lra.
      - apply Qle_shift_div_r; [exact Pn|]. lra. }
    destruct (PyFloat.lt (Fin (s / inject_Z (Z.of_nat n))) min_conf) eqn:B;
      cbn [Orchestrator.a_confidence Orchestrator.decision].
    + split; [exact R|]. unfold tri_state. split; [right; right; reflexivity|].
      split; intros X; discriminate X.
    + split; [exact R|].
      destruct (Nat.ltb_spec (votes "SHORT" results) (votes "LONG" results)) as [A|A].
      * unfold tri_state. split; [left; reflexivity|]. split; [intros _; split;
          [exact A|reflexivity]|intros X; discriminate X].
      * destruct (Nat.ltb_spec (votes "LONG" results) (votes "SHORT" results)) as [C|C].
        -- unfold tri_state. split; [right; left; reflexivity|].
           split; [intros X; discriminate X|intros _; split; [exact C|reflexivity]].
        -- unfold tri_state. split; [right; right; reflexivity|].
           split; intros X; discriminate X.
Qed.

Lemma aggregate_stays_in_range_witness :
  List.length four_long = 7%nat
  /\ in_range 0 1
       (Orchestrator.a_confidence
          (Orchestrator.reduce Orchestrator.orchestrator four_long (Fin 0.7) "t")).
Proof.
  split; [reflexivity|].
  refine (proj1 (aggregate_stays_in_range Orchestrator.orchestrator four_long (Fin 0.7) "t"
                   eq_refl _)).
  repeat constructor; vm_compute; discriminate.
Defined.

(** X8.  [/decide] never answers with status 400: a request without a
    symbol, or with an empty one, is answered with status 500, because the
    handler of the endpoint catches the rejection it has just raised; with a
    symbol the endpoint returns the aggregation, at the caller's minimum
    confidence or at 0.7 when none is given. *)
Theorem decide_masks_missing_symbol
    (self : Orchestrator.TradingOrchestrator) (str_of : http_exception -> string)
    (req : request) (query : string -> string -> Orchestrator.outcome) (now : string) :
  (forall e : http_exception,
      make_decision self str_of req query now = inl e ->
      status_code e = 500%Z /\ (symbol req = None \/ symbol req = Some ""))
  /\ (forall sym : string,
         symbol req = Some sym -> sym <> "" ->
         make_decision self str_of req query now
         = inr (Orchestrator.aggregate_signals self (query sym)
                  (dict_get (min_conf req) (Fin 0.7)) now))
  /\ (symbol req = None \/ symbol req = Some "" ->
      exists e : http_exception,
        make_decision self str_of req query now = inl e /\ status_code e = 500%Z).
Proof.
  unfold make_decision. destruct (symbol req) as [[|c sym]|]; cbn.
  - split; [|split].
    + intros e H. injection H as <-. split; [reflexivity|right; reflexivity].
    + intros sym E N. injection E as <-. contradiction N. reflexivity.
    + intros _. eexists. split; reflexivity.
  - split; [|split].
    + intros e H. discriminate H.
    + intros s E _. injection E as <-. reflexivity.
    + intros [X|X]; discriminate X.
  - split; [|split].
    + intros e H. injection H as <-. split; [reflexivity|left; reflexivity].
    + intros sym E. discriminate E.
    + intros _. eexists. split; reflexivity.
Qed.

Lemma decide_masks_missing_symbol_witness :
  exists e : http_exception,
    make_decision Orchestrator.orchestrator (fun _ => "400: Symbol is required")
      no_symbol (fun _ => one_down) "t" = inl e
    /\ status_code e = 500%Z.
Proof.
  apply (proj2 (proj2 (decide_masks_missing_symbol Orchestrator.orchestrator
                         (fun _ => "400: Symbol is required") no_symbol
                         (fun _ => one_down) "t"))).
  left. reflexivity.
Defined.

(** ** More on the backtester *)

Lemma range_length (start stop step : nat) :
  List.length (Backtest.range start stop step) = iterations stop start step.
Proof. unfold Backtest.range, iterations. rewrite length_map, length_seq. reflexivity. Qed.

Lemma range_bound (start stop step i : nat) :
  (0 < step)%nat -> In i (Backtest.range start stop step) -> (start <= i < stop)%nat.
Proof.
  intros P I. unfold Backtest.range in I. apply in_map_iff in I.
  destruct I as (k & <- & I). apply in_seq in I.
  remember (stop - start + (step - 1))%nat as m eqn:M.
  pose proof (Nat.Div0.mul_div_le m step) as D.
  assert (step * (k + 1) <= m)%nat as B by nia.
  split; [lia|]. nia.
Qed.

Lemma walk_snoc (self : Backtest.BacktestRunner) (df : list Backtest.bar)
    (signal_at : nat -> option Backtest.decision) (indices : list nat) (i : nat) :
  Backtest.walk self df signal_at (indices ++ [i])
  = match nth_error df i with
    | Some row =>
        Backtest.step self (Backtest.walk self df signal_at indices)
          (Backtest.date row) (Backtest.close row)
          (Backtest.get_trading_signal (signal_at i))
    | None => Backtest.walk self df signal_at indices
    end.
Proof. unfold Backtest.walk. rewrite fold_left_app. reflexivity. Qed.

(** An invariant of the loop: true of the initial state and kept by every
    iteration on a row of the frame. *)
Lemma walk_ind (self : Backtest.BacktestRunner) (df : list Backtest.bar)
    (signal_at : nat -> option Backtest.decision) (P : Backtest.state -> Prop) :
  P (Backtest.initial_state self) ->
  (forall st row s, In row df -> P st ->
     P (Backtest.step self st (Backtest.date row) (Backtest.close row) s)) ->
  forall indices, P (Backtest.walk self df signal_at indices).
Proof.
  intros P0 PS indices. induction indices as [|i rest IH] using rev_ind.
  - exact P0.
  - rewrite walk_snoc. destruct (nth_error df i) as [row|] eqn:E; [|exact IH].
    apply PS; [|exact IH]. exact (nth_error_In _ _ E).
Qed.

(** The same, counting the iterations, when every index is a row. *)
Lemma walk_count (self : Backtest.BacktestRunner) (df : list Backtest.bar)
    (signal_at : nat -> option Backtest.decision) (P : nat -> Backtest.state -> Prop) :
  P 0%nat (Backtest.initial_state self) ->
  (forall n i st row, nth_error df i = Some row -> P n st ->
     P (S n) (Backtest.step self st (Backtest.date row) (Backtest.close row)
                (Backtest.get_trading_signal (signal_at i)))) ->
  forall indices, Forall (fun i => i < List.length df)%nat indices ->
    P (List.length indices) (Backtest.walk self df signal_at indices).
Proof.
  intros P0 PS indices. induction indices as [|i rest IH] using rev_ind; intro V.
  - exact P0.
  - apply Forall_app in V. destruct V as [Vr Vi]. inversion Vi as [|? ? Lt _]; subst.
    rewrite walk_snoc, length_app, Nat.add_1_r.
    destruct (nth_error df i) as [row|] eqn:E.
    + apply (PS _ i _ row E). apply IH. exact Vr.
    + apply nth_error_None in E. lia.
Qed.

(** What one iteration does to the ledger, the capital, the position and
    the equity curve. *)
Lemma step_spec (self : Backtest.BacktestRunner) (st : Backtest.state)
    (d : Backtest.Timestamp) (price : pyfloat) (s : Backtest.decision) :
  let st' := Backtest.step self st d price s in
  Backtest.equity_curve st' = Backtest.equity_curve st ++ [Backtest.capital st']
  /\ ((Backtest.trades st' = Backtest.trades st
       /\ Backtest.capital st' = Backtest.capital st
       /\ (Backtest.current_position st = None
           \/ Backtest.current_position st' = Backtest.current_position st))
      \/ exists (p : Backtest.position) (t : Backtest.trade),
           Backtest.current_position st = Some p
           /\ Backtest.trades st' = Backtest.trades st ++ [t]
           /\ Backtest.capital st' = (Backtest.capital st + Backtest.pnl t)%F
           /\ (Backtest.min_holding_days self <= Backtest.days_held t)%Z
           /\ Backtest.days_held t = Backtest.days_between d (Backtest.entry_date p)
           /\ Backtest.t_entry_date t = Backtest.entry_date p
           /\ Backtest.t_entry_price t = Backtest.entry_price p
           /\ Backtest.t_side t = Backtest.side p
           /\ Backtest.t_size t = Backtest.size p
           /\ Backtest.exit_date t = d
           /\ Backtest.exit_price t = price)
  /\ (forall q, Backtest.current_position st' = Some q ->
        (Backtest.current_position st = Some q
         /\ Backtest.trades st' = Backtest.trades st)
        \/ (Backtest.entry_date q = d
            /\ Backtest.entry_price q = price
            /\ Backtest.side q = Backtest.d_decision s
            /\ Backtest.d_decision s <> "FLAT"
            /\ Backtest.size q
               = Backtest.calculate_position_size s price (Backtest.capital st')
            /\ PyFloat.gt (Backtest.size q) (Fin 0) = true)).
Proof.
  unfold Backtest.step.
  destruct (Backtest.current_position st) as [p|] eqn:CP.
  - destruct (Backtest.days_between d (Backtest.entry_date p)
              >=? Backtest.min_holding_days self)%Z eqn:Due.
    + cbn zeta. cbn beta iota.
      split; [reflexivity|]. split.
      * right. eexists p, _. split; [reflexivity|].
        split; [reflexivity|]. split; [reflexivity|].
        cbn. split; [lia|]. repeat split; reflexivity.
      * intros q Q. right. cbn in Q.
        destruct (Backtest.d_decision s =? "FLAT")%string eqn:F; [discriminate Q|].
        cbn in Q.
        match type of Q with
        | (if ?c then _ else _) = _ => destruct c eqn:G; [|discriminate Q]
        end.
        injection Q as <-. cbn.
        apply String.eqb_neq in F.
        repeat split; try reflexivity; assumption.
    + cbn. split; [reflexivity|]. split.
      * left. split; [reflexivity|]. split; [reflexivity|]. right. reflexivity.
      * intros q Q. left. split; [exact Q|reflexivity].
  - cbn zeta. cbn beta iota. split; [reflexivity|]. split.
    + left. split; [reflexivity|]. split; [reflexivity|]. left. reflexivity.
    + intros q Q. right. cbn in Q.
      destruct (Backtest.d_decision s =? "FLAT")%string eqn:F; [discriminate Q|].
      cbn in Q.
      match type of Q with
      | (if ?c then _ else _) = _ => destruct c eqn:G; [|discriminate Q]
      end.
      injection Q as <-. cbn.
      apply String.eqb_neq in F.
      repeat split; try reflexivity; assumption.
Qed.

Lemma range_rows (df : list Backtest.bar) (window_size step_size : nat) :
  step_size <> 0%nat ->
  Forall (fun i => i < List.length df)%nat
    (Backtest.range window_size (List.length df) step_size).
Proof.
  intro N. apply Forall_forall. intros i I.
  apply range_bound in I; lia.
Qed.

Lemma run_completed (self : Backtest.BacktestRunner) (df : list Backtest.bar)
    (signal_at : nat -> option Backtest.decision) (window_size step_size : nat)
    (r : Backtest.result) :
  Backtest.run_walk_forward_backtest self (Some df) signal_at window_size step_size
  = Backtest.Completed r ->
  (window_size <= List.length df)%nat /\ step_size <> 0%nat
  /\ r = let st := walked self df signal_at window_size step_size in
         let st := match iloc_last df with
                   | Some final => Backtest.close_remaining self st final
                   | None => st
                   end in
         {| Backtest.r_trades := Backtest.trades st;
            Backtest.r_metrics := Backtest.calculate_trade_metrics self (Backtest.trades st);
            Backtest.r_equity_curve := Backtest.equity_curve st |}.
Proof.
  unfold Backtest.run_walk_forward_backtest, walked.
  destruct (Nat.ltb_spec (List.length df) window_size) as [L|L]; [discriminate|].
  destruct (Nat.eqb_spec step_size 0) as [Z|Z]; [discriminate|].
  intro H. injection H as <-. split; [exact L|]. split; [exact Z|]. reflexivity.
Qed.

Lemma close_remaining_spec (self : Backtest.BacktestRunner) (st : Backtest.state)
    (final : Backtest.bar) :
  let st' := Backtest.close_remaining self st final in
  Backtest.equity_curve st' = Backtest.equity_curve st
  /\ ((Backtest.current_position st = None /\ st' = st)
      \/ exists (p : Backtest.position) (t : Backtest.trade),
           Backtest.current_position st = Some p
           /\ Backtest.trades st' = Backtest.trades st ++ [t]
           /\ Backtest.capital st' = (Backtest.capital st + Backtest.pnl t)%F
           /\ Backtest.days_held t
              = Backtest.days_between (Backtest.date final) (Backtest.entry_date p)
           /\ Backtest.t_entry_date t = Backtest.entry_date p
           /\ Backtest.t_entry_price t = Backtest.entry_price p
           /\ Backtest.t_side t = Backtest.side p
           /\ Backtest.t_size t = Backtest.size p
           /\ Backtest.exit_date t = Backtest.date final
           /\ Backtest.exit_price t = Backtest.close final).
Proof.
  unfold Backtest.close_remaining.
  destruct (Backtest.current_position st) as [p|] eqn:CP.
  - cbn. split; [reflexivity|]. right. eexists p, _.
    split; [reflexivity|]. split; [reflexivity|]. cbn. repeat split; reflexivity.
  - cbn. split; [reflexivity|]. left. split; reflexivity.
Qed.

(** X9.  A completed run has asked for one signal per iteration and has
    appended one point to the equity curve for each: the curve starts at the
    initial capital and has one point more than the loop has iterations,
    [ceil((len(df) - window_size) / step_size)] of them; and the ledger never
    holds more trades than there were iterations, since a position is opened in
    one iteration and closed in a later one or after the loop. *)
Theorem equity_curve_has_one_point_per_iteration
    (self : Backtest.BacktestRunner) (df : list Backtest.bar)
    (signal_at : nat -> option Backtest.decision) (window_size step_size : nat)
    (r : Backtest.result) :
  Backtest.run_walk_forward_backtest self (Some df) signal_at window_size step_size
  = Backtest.Completed r ->
  List.length (Backtest.r_equity_curve r)
  = S (iterations (List.length df) window_size step_size)
  /\ hd_error (Backtest.r_equity_curve r) = Some (Backtest.initial_capital self)
  /\ (List.length (Backtest.r_trades r)
      <= iterations (List.length df) window_size step_size)%nat
  /\ Backtest.total_trades (Backtest.r_metrics r) = List.length (Backtest.r_trades r).
Proof.
  intro H. apply run_completed in H. destruct H as (L & Z & ->). cbv zeta.
  assert (List.length (Backtest.equity_curve (walked self df signal_at window_size step_size))
          = S (iterations (List.length df) window_size step_size)
          /\ hd_error (Backtest.equity_curve (walked self df signal_at window_size step_size))
             = Some (Backtest.initial_capital self)
          /\ (List.length (Backtest.trades (walked self df signal_at window_size step_size))
              + open_positions (walked self df signal_at window_size step_size)
              <= iterations (List.length df) window_size step_size)%nat) as (A & B & C).
  { unfold walked. rewrite <- range_length.
    apply (walk_count self df signal_at
             (fun n st => List.length (Backtest.equity_curve st) = S n
                          /\ hd_error (Backtest.equity_curve st)
                             = Some (Backtest.initial_capital self)
                          /\ (List.length (Backtest.trades st) + open_positions st <= n)%nat)).
    - cbn. repeat split; lia.
    - intros n i st row _ (A & B & C).
      pose proof (step_spec self st (Backtest.date row) (Backtest.close row)
                    (Backtest.get_trading_signal (signal_at i))) as S.
      cbv zeta in S. destruct S as (E & T & Q).
      set (st' := Backtest.step self st (Backtest.date row) (Backtest.close row)
                    (Backtest.get_trading_signal (signal_at i))) in *.
      split; [rewrite E, length_app, A; simpl; lia|].
      split.
      { rewrite E. destruct (Backtest.equity_curve st); [discriminate B|exact B]. }
      unfold open_positions in *.
      destruct T as [(T & _ & [N|K])|(p & t & CP & T & _)].
      + rewrite T. rewrite N in C. destruct (Backtest.current_position st'); lia.
      + rewrite T, K. lia.
      + rewrite T, length_app. rewrite CP in C. simpl.
        destruct (Backtest.current_position st'); lia.
    - apply range_rows. exact Z. }
  set (w := walked self df signal_at window_size step_size) in *.
  assert (forall st, Backtest.total_trades
                       (Backtest.calculate_trade_metrics self (Backtest.trades st))
                     = List.length (Backtest.trades st)) as M.
  { intro st. destruct (Backtest.trades st); reflexivity. }
  destruct (iloc_last df) as [final|]; cbn [Backtest.r_equity_curve Backtest.r_trades
                                             Backtest.r_metrics].
  - pose proof (close_remaining_spec self w final) as S. cbv zeta in S.
    destruct S as (E & [(N & ->)|(p & t & CP & T & _)]).
    + repeat split; try assumption; [lia|apply M].
    + rewrite E. repeat split; try assumption; [|apply M].
      rewrite T, length_app. unfold open_positions in C. rewrite CP in C. simpl. lia.
  - repeat split; try assumption; [lia|apply M].
Qed.

Lemma equity_curve_has_one_point_per_iteration_witness :
  exists r : Backtest.result,
    Backtest.run_walk_forward_backtest Backtest.runner (Some ten_bars) always_long 2 3
    = Backtest.Completed r
    /\ List.length (Backtest.r_equity_curve r) = 4%nat.
Proof.
  eexists. split; [vm_compute; reflexivity|].
  refine (proj1 (equity_curve_has_one_point_per_iteration Backtest.runner ten_bars
                   always_long 2 3 _ _)).
  vm_compute. reflexivity.
Defined.

(** X10.  When no iteration gets a decision other than FLAT (a FLAT market,
    or an orchestrator that cannot be reached, which the fallback of
    [get_trading_signal] turns into FLAT), the run completes with an empty
    ledger, the metrics of the no-trade case (no [final_capital]) and an
    equity curve that repeats the initial capital. *)
Theorem silent_run_is_flat
    (self : Backtest.BacktestRunner) (df : list Backtest.bar)
    (signal_at : nat -> option Backtest.decision) (window_size step_size : nat) :
  (window_size <= List.length df)%nat -> step_size <> 0%nat ->
  (forall i, Backtest.d_decision (Backtest.get_trading_signal (signal_at i)) = "FLAT") ->
  Backtest.run_walk_forward_backtest self (Some df) signal_at window_size step_size
  = Backtest.Completed
      {| Backtest.r_trades := [];
         Backtest.r_metrics :=
           {| Backtest.total_trades := 0; Backtest.winning_trades := 0;
              Backtest.losing_trades := 0; Backtest.win_rate := Fin 0.0;
              Backtest.avg_win := Fin 0.0; Backtest.avg_loss := Fin 0.0;
              Backtest.profit_factor := Fin 0.0; Backtest.max_drawdown := Fin 0.0;
              Backtest.total_return := Fin 0.0; Backtest.final_capital := None |};
         Backtest.r_equity_curve :=
           repeat (Backtest.initial_capital self)
             (S (iterations (List.length df) window_size step_size)) |}.
Proof.
  intros L Z Flat. unfold Backtest.run_walk_forward_backtest.
  destruct (Nat.ltb_spec (List.length df) window_size) as [L'|_]; [lia|].
  destruct (Nat.eqb_spec step_size 0) as [Z'|_]; [contradiction|].
  cbv zeta.
  assert (Backtest.walk self df signal_at (Backtest.range window_size (List.length df) step_size)
          = {| Backtest.trades := []; Backtest.current_position := None;
               Backtest.capital := Backtest.initial_capital self;
               Backtest.equity_curve :=
                 repeat (Backtest.initial_capital self)
                   (S (iterations (List.length df) window_size step_size)) |}) as W.
  { rewrite <- range_length.
    apply (walk_count self df signal_at
             (fun n st => st = {| Backtest.trades := []; Backtest.current_position := None;
                                  Backtest.capital := Backtest.initial_capital self;
                                  Backtest.equity_curve :=
                                    repeat (Backtest.initial_capital self) (S n) |})).
    - reflexivity.
    - intros n i st row _ ->. unfold Backtest.step.
      cbn [Backtest.current_position Backtest.trades Backtest.capital Backtest.equity_curve].
      rewrite (Flat i). cbn [String.eqb Ascii.eqb Bool.eqb negb].
      f_equal. change (Backtest.initial_capital self :: repeat (Backtest.initial_capital self) n)
        with (repeat (Backtest.initial_capital self) (S n)).
      symmetry. apply (repeat_cons (S n)).
    - apply range_rows. exact Z. }
  rewrite W. destruct (iloc_last df); reflexivity.
Qed.

Lemma silent_run_is_flat_witness :
  exists r : Backtest.result,
    Backtest.run_walk_forward_backtest Backtest.runner (Some ten_bars) unreachable 2 3
    = Backtest.Completed r
    /\ Backtest.r_trades r = []
    /\ Backtest.final_capital (Backtest.r_metrics r) = None.
Proof.
  eexists. split.
  - apply (silent_run_is_flat Backtest.runner ten_bars unreachable 2 3).
    + vm_compute. lia.
    + discriminate.
    + intro i. reflexivity.
  - split; reflexivity.
Defined.

Lemma walked_sound (self : Backtest.BacktestRunner) (df : list Backtest.bar)
    (signal_at : nat -> option Backtest.decision) (indices : list nat) :
  let st := Backtest.walk self df signal_at indices in
  Forall (fun t => sound_trade df t
                   /\ (Backtest.min_holding_days self <= Backtest.days_held t)%Z)
         (Backtest.trades st)
  /\ (forall p, Backtest.current_position st = Some p -> sound_position df p).
Proof.
  apply (walk_ind self df signal_at
           (fun st =>
              Forall (fun t => sound_trade df t
                               /\ (Backtest.min_holding_days self <= Backtest.days_held t)%Z)
                     (Backtest.trades st)
              /\ (forall p, Backtest.current_position st = Some p -> sound_position df p))).
  - split; [constructor|]. intros p H. discriminate H.
  - intros st row s I (T & P).
    pose proof (step_spec self st (Backtest.date row) (Backtest.close row) s) as S.
    cbv zeta in S. destruct S as (_ & Tr & Q).
    set (st' := Backtest.step self st (Backtest.date row) (Backtest.close row) s) in *.
    split.
    + destruct Tr as [(E & _)|(p & t & CP & E & _ & Due & Dh & Ed & Ep & Sd & Sz & Xd & Xp)].
      * rewrite E. exact T.
      * rewrite E. apply Forall_app. split; [exact T|]. constructor; [|constructor].
        destruct (P p CP) as (G & NF & OB).
        split; [|exact Due]. unfold sound_trade.
        rewrite Sz, Sd, Dh, Ed, Ep, Xd, Xp.
        repeat split; try assumption.
        exists row. repeat split. exact I.
    + intros q Hq. destruct (Q q Hq) as [(Old & _)|(Ed & Ep & Sd & NF & _ & G)].
      * apply P. exact Old.
      * unfold sound_position. rewrite Ed, Ep, Sd.
        repeat split; try assumption. exists row. repeat split. exact I.
Qed.

(** X11.  In a completed run every recorded trade has a positive size, a
    side other than FLAT, the number of whole days between its two dates as
    [days_held], and is entered and exited at the close of a row of the price
    frame.  Every trade was held for at least [min_holding_days], except
    possibly the last one, closed after the loop at the final row of the
    frame whatever its age. *)
Theorem ledger_is_sound
    (self : Backtest.BacktestRunner) (df : list Backtest.bar)
    (signal_at : nat -> option Backtest.decision) (window_size step_size : nat)
    (r : Backtest.result) :
  Backtest.run_walk_forward_backtest self (Some df) signal_at window_size step_size
  = Backtest.Completed r ->
  Forall (sound_trade df) (Backtest.r_trades r)
  /\ (forall t, In t (Backtest.r_trades r) ->
        (Backtest.min_holding_days self <= Backtest.days_held t)%Z
        \/ (iloc_last (Backtest.r_trades r) = Some t
            /\ exists final, iloc_last df = Some final
                             /\ Backtest.exit_date t = Backtest.date final
                             /\ Backtest.exit_price t = Backtest.close final)).
Proof.
  intro H. apply run_completed in H. destruct H as (L & Z & ->). cbv zeta.
  pose proof (walked_sound self df signal_at
                (Backtest.range window_size (List.length df) step_size)) as W.
  cbv zeta in W. fold (walked self df signal_at window_size step_size) in W.
  set (w := walked self df signal_at window_size step_size) in *.
  destruct W as (T & P).
  assert (Forall (sound_trade df) (Backtest.trades w)) as T1.
  { eapply Forall_impl; [|exact T]. intros t (S & _). exact S. }
  assert (forall t, In t (Backtest.trades w) ->
            (Backtest.min_holding_days self <= Backtest.days_held t)%Z) as T2.
  { intros t I. rewrite Forall_forall in T. apply (T t I). }
  destruct (iloc_last df) as [final|] eqn:F; cbn [Backtest.r_trades].
  - pose proof (close_remaining_spec self w final) as S. cbv zeta in S.
    destruct S as (_ & [(N & ->)|(p & t & CP & E & _ & Dh & Ed & Ep & Sd & Sz & Xd & Xp)]).
    + split; [exact T1|]. intros t I. left. apply T2. exact I.
    + rewrite E. destruct (P p CP) as (G & NF & OB). split.
      * apply Forall_app. split; [exact T1|]. constructor; [|constructor].
        unfold sound_trade. rewrite Sz, Sd, Dh, Ed, Ep, Xd, Xp.
        repeat split; try assumption.
        exists final. repeat split.
        destruct df as [|b df'] using rev_ind; [discriminate F|].
        rewrite iloc_last_snoc in F. injection F as <-.
        apply in_or_app. right. left. reflexivity.
      * intros t' I. apply in_app_or in I. destruct I as [I|[<-|[]]].
        -- left. apply T2. exact I.
        -- right. split; [apply iloc_last_snoc|]. exists final.
           split; [reflexivity|]. split; assumption.
  - split; [exact T1|]. intros t I. left. apply T2. exact I.
Qed.

Lemma ledger_is_sound_witness :
  exists r : Backtest.result,
    Backtest.run_walk_forward_backtest Backtest.runner (Some ten_bars) always_long 2 3
    = Backtest.Completed r
    /\ Forall (sound_trade ten_bars) (Backtest.r_trades r).
Proof.
  eexists. split; [vm_compute; reflexivity|].
  refine (proj1 (ledger_is_sound Backtest.runner ten_bars always_long 2 3 _ _)).
  vm_compute. reflexivity.
Defined.

Lemma equity_of_last (self : Backtest.BacktestRunner) (ts : list Backtest.trade) :
  List.last (Backtest.equity_of self ts) NaN = total_pnl self ts.
Proof.
  unfold Backtest.equity_of, total_pnl.
  assert (forall curve,
            List.last
              (fold_left (fun curve t => curve ++ [(List.last curve NaN + Backtest.pnl t)%F])
                         ts curve) NaN
            = fold_left PyFloat.add (map Backtest.pnl ts) (List.last curve NaN)) as G.
  { induction ts as [|t rest IH]; intro curve; [reflexivity|].
    cbn [fold_left map]. rewrite IH, last_last. reflexivity. }
  apply (G [Backtest.initial_capital self]).
Qed.

Lemma total_pnl_snoc (self : Backtest.BacktestRunner) (ts : list Backtest.trade)
    (t : Backtest.trade) :
  total_pnl self (ts ++ [t]) = (total_pnl self ts + Backtest.pnl t)%F.
Proof. unfold total_pnl. rewrite map_app, fold_left_app. reflexivity. Qed.

Lemma walked_capital (self : Backtest.BacktestRunner) (df : list Backtest.bar)
    (signal_at : nat -> option Backtest.decision) (indices : list nat) :
  let st := Backtest.walk self df signal_at indices in
  Backtest.capital st = total_pnl self (Backtest.trades st)
  /\ List.last (Backtest.equity_curve st) NaN = Backtest.capital st.
Proof.
  apply (walk_ind self df signal_at
           (fun st => Backtest.capital st = total_pnl self (Backtest.trades st)
                      /\ List.last (Backtest.equity_curve st) NaN = Backtest.capital st)).
  - split; reflexivity.
  - intros st row s _ (C & E).
    pose proof (step_spec self st (Backtest.date row) (Backtest.close row) s) as S.
    cbv zeta in S. destruct S as (Eq & Tr & _).
    set (st' := Backtest.step self st (Backtest.date row) (Backtest.close row) s) in *.
    split; [|rewrite Eq; apply last_last].
    destruct Tr as [(T & K & _)|(p & t & _ & T & K & _)].
    + rewrite T, K. exact C.
    + rewrite T, K, total_pnl_snoc, C. reflexivity.
Qed.

(** X12.  The capital the loop carries and the equity the metrics rebuild
    from the ledger are the same running sum, so a completed run with trades
    reports as [final_capital] the initial capital plus the P&L of the trades
    in ledger order.  The run's own equity curve ends at that value when no
    position was left open by the loop; when one was, the curve is not
    extended by the forced close and ends one trade short of it. *)
Theorem final_capital_is_ledger_sum
    (self : Backtest.BacktestRunner) (df : list Backtest.bar)
    (signal_at : nat -> option Backtest.decision) (window_size step_size : nat)
    (r : Backtest.result) :
  Backtest.run_walk_forward_backtest self (Some df) signal_at window_size step_size
  = Backtest.Completed r ->
  Backtest.r_trades r <> [] ->
  Backtest.final_capital (Backtest.r_metrics r)
  = Some (total_pnl self (Backtest.r_trades r))
  /\ match Backtest.current_position (walked self df signal_at window_size step_size),
           iloc_last (Backtest.r_trades r) with
     | Some _, Some t =>
         total_pnl self (Backtest.r_trades r)
         = (List.last (Backtest.r_equity_curve r) NaN + Backtest.pnl t)%F
     | _, _ =>
         total_pnl self (Backtest.r_trades r) = List.last (Backtest.r_equity_curve r) NaN
     end.
Proof.
  intros H NE. apply run_completed in H. destruct H as (L & Z & ->). cbv zeta in *.
  pose proof (walked_capital self df signal_at
                (Backtest.range window_size (List.length df) step_size)) as W.
  cbv zeta in W. fold (walked self df signal_at window_size step_size) in W.
  set (w := walked self df signal_at window_size step_size) in *.
  destruct W as (C & E).
  cbn [Backtest.r_trades Backtest.r_metrics Backtest.r_equity_curve] in *.
  split.
  - match goal with
    | |- context [Backtest.calculate_trade_metrics self ?ts] =>
        destruct ts as [|t0 rest] eqn:Ts; [contradiction NE; reflexivity|]
    end.
    cbn [Backtest.calculate_trade_metrics Backtest.final_capital].
    rewrite equity_of_last. reflexivity.
  - destruct df as [|b df'] using rev_ind.
    + unfold w, walked in *. rewrite walk_nil in *. cbn. reflexivity.
    + rewrite iloc_last_snoc in *.
      pose proof (close_remaining_spec self w b) as S. cbv zeta in S.
      destruct S as (Eq & [(N & ->)|(p & t & CP & T & _)]).
      * rewrite N. rewrite E, C. reflexivity.
      * rewrite CP, T, iloc_last_snoc, Eq, E, C. apply total_pnl_snoc.
Qed.

Lemma final_capital_is_ledger_sum_witness :
  exists r : Backtest.result,
    Backtest.run_walk_forward_backtest Backtest.runner (Some ten_bars) always_long 2 3
    = Backtest.Completed r
    /\ Backtest.r_trades r <> []
    /\ Backtest.final_capital (Backtest.r_metrics r)
       = Some (total_pnl Backtest.runner (Backtest.r_trades r)).
Proof.
  eexists. split; [vm_compute; reflexivity|].
  split; [vm_compute; discriminate|].
  refine (proj1 (final_capital_is_ledger_sum Backtest.runner ten_bars always_long 2 3 _ _ _)).
  - vm_compute. reflexivity.
  - vm_compute. discriminate.
Defined.

(** ** From the aggregator's reply to the size of the position *)

Lemma conclude_sl_pct (self : Orchestrator.TradingOrchestrator) (t : Orchestrator.tally)
    (min_conf : pyfloat) (now : string) :
  Orchestrator.a_sl_pct (Orchestrator.conclude self t min_conf now)
  = Orchestrator.default_sl_pct self.
Proof.
  unfold Orchestrator.conclude.
  destruct (Orchestrator.valid_signals t =? 0)%nat; [reflexivity|].
  destruct (_ <? min_conf)%F; reflexivity.
Qed.

(** X13.  The stop-loss the aggregator reports is its own default of 2.5%,
    never an engine's, so for every decision of [/decide] other than FLAT the
    backtester's sizing is the same: 2% of capital at risk over a 2.5% stop
    is 80% of the capital, the 95% cap never binds, and the position's value
    at entry is exactly four fifths of the available capital. *)
Theorem orchestrated_position_is_four_fifths
    (results : list signal_response) (min_conf : pyfloat) (now : string) (p c : Q) :
  0 < p -> 0 < c ->
  Backtest.d_decision
    (decision_of (Orchestrator.reduce Orchestrator.orchestrator results min_conf now))
  <> "FLAT" ->
  exists z : Q,
    Backtest.calculate_position_size
      (decision_of (Orchestrator.reduce Orchestrator.orchestrator results min_conf now))
      (Fin p) (Fin c) = Fin z
    /\ z * p == 0.8 * c
    /\ z < 0.95 * c / p.
Proof.
  intros Hp Hc NF. unfold Backtest.calculate_position_size.
  apply String.eqb_neq in NF. rewrite NF.
  unfold decision_of at 1. cbn [Backtest.d_sl_pct dict_get].
  unfold Orchestrator.reduce. rewrite conclude_sl_pct.
  change (Orchestrator.default_sl_pct Orchestrator.orchestrator) with (Fin 0.025).
  assert (~ p == 0) as Np by lra.
  assert (~ p * 0.025 == 0) as Ns by nra.
  cbn [PyFloat.mul]. rewrite (div_fin (c * 0.95) p Np), (div_fin (c * 0.02) (p * 0.025) Ns).
  assert (c * 0.02 / (p * 0.025) == 0.8 * c / p) as E by (field; exact Np).
  assert (0.8 * c / p < c * 0.95 / p) as Lt.
  { apply Qlt_shift_div_l; [exact Hp|].
    setoid_replace (0.8 * c / p * p) with (0.8 * c) by (field; exact Np). lra. }
  unfold PyFloat.min, PyFloat.lt.
  destruct (Qlt_bool_spec (c * 0.95 / p) (c * 0.02 / (p * 0.025))) as [Bad|_].
  - exfalso. rewrite E in Bad. lra.
  - exists (c * 0.02 / (p * 0.025)). split; [reflexivity|]. split.
    + rewrite E. field. exact Np.
    + rewrite E. setoid_replace (0.95 * c / p) with (c * 0.95 / p) by (field; exact Np).
      exact Lt.
Qed.

Lemma orchestrated_position_is_four_fifths_witness :
  exists z : Q,
    Backtest.calculate_position_size
      (decision_of (Orchestrator.reduce Orchestrator.orchestrator four_long (Fin 0.7) "t"))
      (Fin 50) (Fin 100000) = Fin z
    /\ z * 50 == 0.8 * 100000.
Proof.
  destruct (orchestrated_position_is_four_fifths four_long (Fin 0.7) "t" 50 100000)
    as (z & E & V & _).
  - reflexivity.
  - reflexivity.
  - vm_compute. discriminate.
  - exists z. split; assumption.
Defined.

(** ** Counts and averages of the metrics *)

Lemma wins_and_losses (l : list pyfloat) :
  (List.length (filter (fun x => x >? Fin 0)%F l)
   + List.length (filter (fun x => x <? Fin 0)%F l) <= List.length l)%nat.
Proof.
  induction l as [|x rest IH]; [simpl; lia|].
  cbn [filter]. destruct (x <? Fin 0)%F eqn:L.
  - rewrite (lt_gt_exclusive _ _ L). cbn [List.length]. lia.
  - destruct (x >? Fin 0)%F; cbn [List.length]; lia.
Qed.

Lemma pow10_pos (n : nat) : 0 < PyFloat.pow10 n.
Proof.
  unfold PyFloat.pow10. change 0 with (inject_Z 0). rewrite <- Zlt_Qlt.
  apply Z.pow_pos_nonneg; lia.
Qed.

Lemma round_sign (q : Q) (n : nat) :
  exists r : Q, PyFloat.round (Fin q) n = Fin r /\ (0 <= q -> 0 <= r) /\ (q <= 0 -> r <= 0).
Proof.
  pose proof (pow10_pos n) as P.
  eexists. split; [reflexivity|]. split; intro H.
  - apply Qle_shift_div_l; [exact P|]. rewrite Qmult_0_l.
    change 0 with (inject_Z 0). rewrite <- Zle_Qle.
    apply (round_half_even_bounds (q * PyFloat.pow10 n) 0 (Qceiling (q * PyFloat.pow10 n))).
    + change (inject_Z 0) with 0. nra.
    + apply Qle_ceiling.
  - apply Qle_shift_div_r; [exact P|]. rewrite Qmult_0_l.
    change 0 with (inject_Z 0). rewrite <- Zle_Qle.
    apply (round_half_even_bounds (q * PyFloat.pow10 n) (Qfloor (q * PyFloat.pow10 n)) 0).
    + apply Qfloor_le.
    + change (inject_Z 0) with 0. nra.
Qed.

Lemma sum_of_positives (qs : list Q) (a : Q) :
  Forall (fun q => 0 < q) qs -> a <= fold_left Qplus qs a.
Proof.
  intro H. revert a. induction H as [|q rest Hq _ IH]; intro a; [simpl; lra|].
  cbn [fold_left]. specialize (IH (a + q)). lra.
Qed.

Lemma filter_positive (qs : list Q) :
  Forall (fun q => 0 < q) (filter (fun q => Qlt_bool 0 q) qs).
Proof.
  apply Forall_forall. intros q I. apply filter_In in I. destruct I as [_ I].
  apply Qlt_bool_iff in I. exact I.
Qed.

Lemma pd_mean_fin (qs : list Q) :
  qs <> [] ->
  Backtest.pd_mean (map Fin qs)
  = Fin (fold_left Qplus qs 0 / inject_Z (Z.of_nat (List.length qs))).
Proof.
  intro NE. unfold Backtest.pd_mean. rewrite pd_sum_fin, dropna_fin, length_map.
  apply div_fin. intro E.
  assert (0 < inject_Z (Z.of_nat (List.length qs))) as P.
  { change 0 with (inject_Z 0). rewrite <- Zlt_Qlt. destruct qs; [contradiction|simpl; lia]. }
  lra.
Qed.

Lemma metrics_of_trades (self : Backtest.BacktestRunner) (trades : list Backtest.trade) :
  trades <> [] ->
  let m := Backtest.calculate_trade_metrics self trades in
  let wins := filter (fun x => x >? Fin 0)%F (map Backtest.pnl trades) in
  let losses := filter (fun x => x <? Fin 0)%F (map Backtest.pnl trades) in
  Backtest.total_trades m = List.length trades
  /\ Backtest.winning_trades m = List.length wins
  /\ Backtest.losing_trades m = List.length losses
  /\ Backtest.win_rate m
     = PyFloat.round
         (if (0 <? List.length trades)%nat
          then (Backtest.of_count (List.length wins)
                / Backtest.of_count (List.length trades))%F
          else Fin 0) 3
  /\ Backtest.avg_win m
     = PyFloat.round (if (0 <? List.length wins)%nat then Backtest.pd_mean wins else Fin 0) 2
  /\ Backtest.avg_loss m
     = PyFloat.round
         (if (0 <? List.length losses)%nat then Backtest.pd_mean losses else Fin 0) 2.
Proof.
  intro NE. destruct trades as [|t0 rest]; [contradiction NE; reflexivity|].
  cbv zeta. repeat split; reflexivity.
Qed.

(** X14.  In the metrics of any ledger the winning and the losing trades
    are disjoint (together never more than the trades, break-even trades
    being neither), the win rate is in [0, 1], and, for finite P&L, the
    average win is not negative and the average loss is not positive. *)
Theorem metrics_counts_are_consistent
    (self : Backtest.BacktestRunner) (trades : list Backtest.trade) :
  let m := Backtest.calculate_trade_metrics self trades in
  Backtest.total_trades m = List.length trades
  /\ (Backtest.winning_trades m + Backtest.losing_trades m <= Backtest.total_trades m)%nat
  /\ in_range 0 1 (Backtest.win_rate m)
  /\ (Forall finite_pnl trades ->
      PyFloat.ge (Backtest.avg_win m) (Fin 0) = true
      /\ PyFloat.le (Backtest.avg_loss m) (Fin 0) = true).
Proof.
  cbv zeta. destruct trades as [|t0 rest].
  - cbn. repeat split; try lia; try lra; reflexivity.
  - assert (t0 :: rest <> []) as NE by discriminate.
    pose proof (metrics_of_trades self (t0 :: rest) NE) as M. cbv zeta in M.
    destruct M as (A & B & C & D & E & F). rewrite A, B, C, D, E, F.
    assert (0 < List.length (t0 :: rest))%nat as Pos by (simpl; lia).
    clear A B C D E F NE. remember (t0 :: rest) as trades eqn:Ts. clear Ts t0 rest.
    pose proof (wins_and_losses (map Backtest.pnl trades)) as WL.
    rewrite length_map in WL.
    split; [reflexivity|]. split; [exact WL|]. split.
    + destruct (Nat.ltb_spec 0 (List.length trades)) as [_|Bad]; [|lia].
      unfold Backtest.of_count.
      assert (0 < inject_Z (Z.of_nat (List.length trades))) as P.
      { change 0 with (inject_Z 0). rewrite <- Zlt_Qlt. lia. }
      rewrite div_fin by lra.
      apply round3_in_range. unfold in_range.
      apply inject_Z_div_range; lia.
    + intro Fn. destruct (finite_pnls trades Fn) as (qs & E). rewrite E.
      rewrite (filter_fin (fun q => Qlt_bool 0 q) (fun x => (x >? Fin 0)%F) qs)
        by (intro q; reflexivity).
      rewrite (filter_fin (fun q => Qlt_bool q 0) (fun x => (x <? Fin 0)%F) qs)
        by (intro q; reflexivity).
      rewrite !length_map. split.
      * destruct (filter (fun q => Qlt_bool 0 q) qs) as [|w ws] eqn:W; [reflexivity|].
        rewrite <- W. assert (filter (fun q => Qlt_bool 0 q) qs <> []) as NW
          by (rewrite W; discriminate).
        replace (0 <? List.length (filter (fun q => Qlt_bool 0 q) qs))%nat with true
          by (rewrite W; reflexivity).
        rewrite (pd_mean_fin _ NW).
        pose proof (sum_of_positives _ 0 (filter_positive qs)) as S.
        set (sum := fold_left Qplus (filter (fun q => Qlt_bool 0 q) qs) 0) in *.
        set (n := inject_Z (Z.of_nat (List.length (filter (fun q => Qlt_bool 0 q) qs)))).
        assert (0 < n) as Pn.
        { assert (0 < Z.of_nat (List.length (filter (fun q => Qlt_bool 0 q) qs)))%Z as Pz
            by (rewrite W; simpl; lia).
          rewrite Zlt_Qlt in Pz. exact Pz. }
        destruct (round_sign (sum / n) 2) as (r & -> & Nonneg & _).
        unfold PyFloat.ge, PyFloat.le. apply Qle_bool_iff. apply Nonneg.
        apply Qle_shift_div_l; [exact Pn|]. lra.
      * destruct (filter (fun q => Qlt_bool q 0) qs) as [|w ws] eqn:W; [reflexivity|].
        rewrite <- W. assert (filter (fun q => Qlt_bool q 0) qs <> []) as NW
          by (rewrite W; discriminate).
        replace (0 <? List.length (filter (fun q => Qlt_bool q 0) qs))%nat with true
          by (rewrite W; reflexivity).
        rewrite (pd_mean_fin _ NW).
        pose proof (sum_of_negatives _ 0 (filter_negative qs)) as (S & _).
        set (sum := fold_left Qplus (filter (fun q => Qlt_bool q 0) qs) 0) in *.
        set (n := inject_Z (Z.of_nat (List.length (filter (fun q => Qlt_bool q 0) qs)))).
        assert (0 < n) as Pn.
        { assert (0 < Z.of_nat (List.length (filter (fun q => Qlt_bool q 0) qs)))%Z as Pz
            by (rewrite W; simpl; lia).
          rewrite Zlt_Qlt in Pz. exact Pz. }
        destruct (round_sign (sum / n) 2) as (r & -> & _ & Nonpos).
        unfold PyFloat.le. apply Qle_bool_iff. apply Nonpos.
        apply Qle_shift_div_r; [exact Pn|]. lra.
Qed.

Lemma metrics_counts_are_consistent_witness :
  Forall finite_pnl [trade_with 5; trade_with (-3)]
  /\ PyFloat.ge
       (Backtest.avg_win
          (Backtest.calculate_trade_metrics Backtest.runner [trade_with 5; trade_with (-3)]))
       (Fin 0) = true.
Proof.
  assert (Forall finite_pnl [trade_with 5; trade_with (-3)]) as Fn
    by (repeat constructor; eexists; reflexivity).
  split; [exact Fn|].
  exact (proj1 (proj2 (proj2 (proj2
           (metrics_counts_are_consistent Backtest.runner [trade_with 5; trade_with (-3)])))
           Fn)).
Defined.

(** ** The band-follow frame *)

Lemma length_zip_with {A B C : Type} (f : A -> B -> C) (a : list A) (b : list B) :
  List.length (zip_with f a b) = Nat.min (List.length a) (List.length b).
Proof. unfold zip_with. rewrite length_map. apply length_combine. Qed.

Lemma length_shift_with (fill : pyfloat) (l : list pyfloat) :
  List.length (shift_with fill l) = List.length l.
Proof.
  revert fill. induction l as [|x rest IH]; intro fill; [reflexivity|].
  simpl. rewrite IH. reflexivity.
Qed.

Lemma length_rolling_mean (data : list pyfloat) (window : nat) :
  List.length (TechnicalIndicators.rolling_mean data window) = List.length data.
Proof. unfold TechnicalIndicators.rolling_mean. rewrite length_map, length_seq. reflexivity. Qed.

Lemma length_atr (df : list Ohlc.row) (period : nat) :
  List.length (atr (map Ohlc.high df) (map Ohlc.low df) (map Ohlc.close df) period)
  = List.length df.
Proof.
  unfold atr. rewrite length_rolling_mean.
  repeat (rewrite ?length_zip_with, ?length_combine, ?length_map, ?length_shift_with;
          unfold shift1).
  lia.
Qed.

Lemma nth_error_zip_with {A B C : Type} (f : A -> B -> C) (a : list A) (b : list B)
    (i : nat) (x : A) (y : B) :
  nth_error a i = Some x -> nth_error b i = Some y ->
  nth_error (zip_with f a b) i = Some (f x y).
Proof.
  revert b i. induction a as [|a0 a IH]; intros b i Ha Hb.
  - destruct i; discriminate Ha.
  - destruct b as [|b0 b]; [destruct i; discriminate Hb|].
    destruct i as [|i]; simpl in *.
    + injection Ha as <-. injection Hb as <-. reflexivity.
    + apply IH; assumption.
Qed.

Lemma nth_error_combine {A B : Type} (a : list A) (b : list B) (i : nat) (x : A) (y : B) :
  nth_error a i = Some x -> nth_error b i = Some y ->
  nth_error (combine a b) i = Some (x, y).
Proof.
  revert b i. induction a as [|a0 a IH]; intros b i Ha Hb.
  - destruct i; discriminate Ha.
  - destruct b as [|b0 b]; [destruct i; discriminate Hb|].
    destruct i as [|i]; simpl in *.
    + injection Ha as <-. injection Hb as <-. reflexivity.
    + apply IH; assumption.
Qed.

Lemma nth_error_rolling_warm_up (data : list pyfloat) (window i : nat) :
  (i < List.length data)%nat -> (i + 1 < window)%nat ->
  nth_error (TechnicalIndicators.rolling_mean data window) i = Some NaN.
Proof.
  intros L W. unfold TechnicalIndicators.rolling_mean.
  rewrite nth_error_map, nth_error_seq.
  replace (i <? List.length data)%nat with true by (symmetry; apply Nat.ltb_lt; exact L).
  cbn [option_map Nat.add]. unfold TechnicalIndicators.window_at.
  replace (window <=? i + 1)%nat with false by (symmetry; apply Nat.leb_gt; exact W).
  rewrite andb_false_r. reflexivity.
Qed.

Lemma supertrend_step_direction (prev : pyfloat * Z) (u l c : pyfloat) :
  is_direction (snd (supertrend_step prev u l c)).
Proof.
  unfold supertrend_step, is_direction. destruct prev as [st d].
  destruct (d =? 1)%Z.
  - destruct (c <=? l)%F; [right|left]; reflexivity.
  - destruct (c >=? u)%F; [left|right]; reflexivity.
Qed.

Lemma supertrend_from_directions (prev : pyfloat * Z)
    (rows : list (pyfloat * pyfloat * pyfloat)) :
  Forall is_direction (map snd (supertrend_from prev rows))
  /\ List.length (supertrend_from prev rows) = List.length rows.
Proof.
  revert prev. induction rows as [|[[u l] c] rest IH]; intro prev.
  - split; [constructor|reflexivity].
  - cbn [supertrend_from map List.length].
    destruct (IH (supertrend_step prev u l c)) as (D & L).
    split; [|rewrite L; reflexivity].
    constructor; [apply supertrend_step_direction|exact D].
Qed.

Lemma supertrend_from_warm_up (rows : list (pyfloat * pyfloat * pyfloat)) (n : nat) :
  (forall i, (i < n)%nat -> exists c, nth_error rows i = Some (NaN, NaN, c)) ->
  forall i, (i < n)%nat -> nth_error (supertrend_from (NaN, 1%Z) rows) i = Some (NaN, 1%Z).
Proof.
  revert n. induction rows as [|[[u l] c] rest IH]; intros n H i Hi.
  - destruct (H i Hi) as (c & E). destruct i; discriminate E.
  - destruct (H 0%nat ltac:(lia)) as (c0 & E0). cbn in E0. injection E0 as -> -> _.
    cbn [supertrend_from].
    assert (supertrend_step (NaN, 1%Z) NaN NaN c = (NaN, 1%Z)) as Step
      by (destruct c; reflexivity).
    rewrite Step. destruct i as [|i]; [reflexivity|].
    cbn [nth_error]. apply (IH (pred n)); [|lia].
    intros j Hj. destruct (H (S j) ltac:(lia)) as (cj & Ej). exists cj. exact Ej.
Qed.

(** X15.  [calculate_supertrend] adds its columns exactly when the frame
    has at least [atr_period] (10) rows.  The columns are as long as the
    frame; the direction of every row is 1 or -1 and that of the first row is
    1, whatever the prices, NaN included; and on the rows before the first
    full ATR window (the first nine) the band is NaN and the direction stays
    1. *)
Theorem supertrend_direction_is_one_or_minus_one (df : list Ohlc.row) :
  ((List.length df < atr_period)%nat <-> calculate_supertrend df = None)
  /\ (forall cols : supertrend_columns,
         calculate_supertrend df = Some cols ->
         List.length (supertrend_direction cols) = List.length df
         /\ List.length (supertrend cols) = List.length df
         /\ List.length (atr_column cols) = List.length df
         /\ Forall is_direction (supertrend_direction cols)
         /\ hd_error (supertrend_direction cols) = Some 1%Z
         /\ (forall i, (i + 1 < atr_period)%nat ->
               nth_error (supertrend_direction cols) i = Some 1%Z
               /\ nth_error (supertrend cols) i = Some NaN)).
Proof.
  unfold calculate_supertrend.
  destruct (Nat.ltb_spec (List.length df) atr_period) as [Short|Enough].
  - split; [tauto|]. intros cols H. discriminate H.
  - split; [split; [lia|discriminate]|].
    intros cols H. injection H as <-.
    cbn [supertrend_direction supertrend atr_column].
    set (a := atr (map Ohlc.high df) (map Ohlc.low df) (map Ohlc.close df) atr_period).
    set (hl2 := map (fun x => (x / Fin 2)%F)
                    (zip_with PyFloat.add (map Ohlc.high df) (map Ohlc.low df))).
    set (upper := zip_with PyFloat.add hl2 (map (PyFloat.mul atr_multiplier) a)).
    set (lower := zip_with PyFloat.sub hl2 (map (PyFloat.mul atr_multiplier) a)).
    set (rows := combine (combine upper lower) (map Ohlc.close df)).
    assert (List.length a = List.length df) as La by apply length_atr.
    assert (List.length hl2 = List.length df) as Lh.
    { unfold hl2. rewrite length_map, length_zip_with, !length_map. lia. }
    assert (List.length upper = List.length df) as Lu.
    { unfold upper. rewrite length_zip_with, length_map. lia. }
    assert (List.length lower = List.length df) as Ll.
    { unfold lower. rewrite length_zip_with, length_map. lia. }
    assert (List.length rows = List.length df) as Lr.
    { unfold rows. rewrite !length_combine, length_map. lia. }
    assert (forall i, (i + 1 < atr_period)%nat ->
              exists c, nth_error rows i = Some (NaN, NaN, c)) as Warm.
    { intros i Hi.
      assert (i < List.length df)%nat as Li by lia.
      assert (nth_error a i = Some NaN) as Ea.
      { unfold a, atr. apply nth_error_rolling_warm_up; [|exact Hi].
        fold a. rewrite <- length_rolling_mean with (window := atr_period).
        fold (atr (map Ohlc.high df) (map Ohlc.low df) (map Ohlc.close df) atr_period).
        fold a. lia. }
      destruct (nth_error hl2 i) as [h|] eqn:Eh;
        [|apply nth_error_None in Eh; lia].
      destruct (nth_error (map Ohlc.close df) i) as [c|] eqn:Ec;
        [|apply nth_error_None in Ec; rewrite length_map in Ec; lia].
      assert (nth_error (map (PyFloat.mul atr_multiplier) a) i = Some NaN) as Em
        by (rewrite nth_error_map, Ea; reflexivity).
      exists c. unfold rows.
      apply nth_error_combine; [|exact Ec].
      apply nth_error_combine.
      - unfold upper. rewrite (nth_error_zip_with PyFloat.add _ _ i h NaN Eh Em).
        destruct h; reflexivity.
      - unfold lower. rewrite (nth_error_zip_with PyFloat.sub _ _ i h NaN Eh Em).
        destruct h; reflexivity. }
    destruct rows as [|[[u0 l0] c0] rest] eqn:R.
    { simpl in Lr. unfold atr_period in Enough. lia. }
    destruct (Warm 0%nat ltac:(unfold atr_period; lia)) as (c & E0).
    cbn in E0. injection E0 as -> -> _.
    destruct (supertrend_from_directions (NaN, 1%Z) rest) as (D & L).
    cbn [map fst snd List.length hd_error].
    rewrite !length_map, L. simpl in Lr.
    split; [exact Lr|]. split; [exact Lr|]. split; [exact La|].
    split; [constructor; [left; reflexivity|exact D]|].
    split; [reflexivity|].
    intros i Hi. destruct i as [|i]; [split; reflexivity|].
    cbn [nth_error]. rewrite !nth_error_map.
    rewrite (supertrend_from_warm_up rest (atr_period - 2)).
    + split; reflexivity.
    + intros j Hj. destruct (Warm (S j) ltac:(unfold atr_period in *; lia)) as (cj & Ej).
      exists cj. exact Ej.
    + unfold atr_period in *. lia.
Qed.

Lemma supertrend_direction_is_one_or_minus_one_witness :
  exists cols : supertrend_columns,
    calculate_supertrend climbing_frame = Some cols
    /\ Forall is_direction (supertrend_direction cols)
    /\ hd_error (supertrend_direction cols) = Some 1%Z.
Proof.
  eexists. split; [vm_compute; reflexivity|].
  destruct (proj2 (supertrend_direction_is_one_or_minus_one climbing_frame) _
              ltac:(vm_compute; reflexivity)) as (_ & _ & _ & D & H & _).
  split; [exact D|exact H].
Defined.

Lemma iloc_last_some {A : Type} (l : list A) :
  l <> [] -> exists x, iloc_last l = Some x.
Proof.
  intro NE. destruct l as [|a l] using rev_ind; [contradiction NE; reflexivity|].
  exists a. apply iloc_last_snoc.
Qed.

Lemma nonempty_length {A : Type} (l : list A) : (0 < List.length l)%nat -> l <> [].
Proof. intros L E. rewrite E in L. simpl in L. lia. Qed.

Lemma analyze_trend_returns (close : list pyfloat) (period : nat) :
  close <> [] -> exists t : trend, MarketAnalyzer.analyze_trend close period = Some t.
Proof.
  intro NE. unfold MarketAnalyzer.analyze_trend.
  destruct (List.length close <? period)%nat; [eexists; reflexivity|].
  assert (0 < List.length close)%nat as L by (destruct close; [contradiction|simpl; lia]).
  destruct (iloc_last_some close NE) as (p & ->).
  destruct (iloc_last_some (TechnicalIndicators.sma close (period / 2))) as (s & ->).
  { apply nonempty_length. unfold TechnicalIndicators.sma.
    rewrite length_rolling_mean. exact L. }
  destruct (iloc_last_some (TechnicalIndicators.sma close period)) as (l & ->).
  { apply nonempty_length. unfold TechnicalIndicators.sma.
    rewrite length_rolling_mean. exact L. }
  eexists. reflexivity.
Qed.

Lemma analyze_volatility_returns (df : list Ohlc.row) (period : nat) :
  df <> [] -> exists v : volatility, analyze_volatility df period = Some v.
Proof.
  intro NE. unfold analyze_volatility.
  destruct (List.length df <? period)%nat; [eexists; reflexivity|].
  destruct (iloc_last_some
              (atr (map Ohlc.high df) (map Ohlc.low df) (map Ohlc.close df) period))
    as (a & ->).
  { apply nonempty_length. rewrite length_atr.
    destruct df; [contradiction|simpl; lia]. }
  eexists. reflexivity.
Qed.

Lemma iloc_last_in {A : Type} (l : list A) (x : A) : iloc_last l = Some x -> In x l.
Proof.
  destruct l as [|a l] using rev_ind; [discriminate|].
  rewrite iloc_last_snoc. intro H. injection H as <-.
  apply in_or_app. right. left. reflexivity.
Qed.

Lemma iloc_last2_some {A : Type} (l : list A) :
  (2 <= List.length l)%nat -> exists x, iloc_last2 l = Some x.
Proof.
  intro L. unfold iloc_last2. rewrite <- length_rev in L.
  destruct (rev l) as [|a [|b r]]; simpl in L; try lia.
  exists b. reflexivity.
Qed.

Lemma band_follow_scores (df : Supertrend.input) :
  (2 <= Supertrend.len_df df)%nat ->
  is_direction (Supertrend.current_direction df) ->
  exists sc : scored,
    Supertrend.evaluate df = inr sc
    /\ (s_signal sc = "LONG" \/ s_signal sc = "SHORT").
Proof.
  intros L D. unfold Supertrend.evaluate.
  destruct (Nat.ltb_spec (Supertrend.len_df df) 2) as [Bad|_]; [lia|].
  cbv zeta. peel_eq. eexists. split; [reflexivity|]. cbn [s_signal].
  match goal with E : _ = (?s, _) |- context [?s = _] => revert E end.
  destruct D as [-> | ->]; cbn [Z.eqb Pos.eqb andb];
    destruct (Supertrend.prev_direction df =? -1)%Z;
    destruct (Supertrend.prev_direction df =? 1)%Z;
    cbn [andb]; intros E; inversion E; subst; tauto.
Qed.

(** X16.  On every frame of at least ten rows, whatever its prices (NaN and
    infinities included), the band-follow engine finds the columns it
    reads, reaches the scorer and calls LONG or SHORT: by itself it never
    answers FLAT, so only the confidence gate of the endpoint can keep it
    out of the aggregator's vote. *)
Theorem band_follow_never_abstains (now : string) (df : list Ohlc.row) :
  (atr_period <= List.length df)%nat ->
  exists (rows : Supertrend.input) (sc : scored),
    supertrend_rows df = Some rows
    /\ Supertrend.evaluate rows = inr sc
    /\ (s_signal sc = "LONG" \/ s_signal sc = "SHORT")
    /\ signal (Supertrend.generate_signal now rows) = s_signal sc.
Proof.
  intro L. unfold supertrend_rows.
  destruct (calculate_supertrend df) as [cols|] eqn:C.
  2:{ exfalso.
      assert (List.length df < atr_period)%nat; [|lia].
      unfold calculate_supertrend in C.
      destruct (Nat.ltb_spec (List.length df) atr_period); [assumption|discriminate C]. }
  assert (List.length (supertrend_direction cols) = List.length df
          /\ List.length (atr_column cols) = List.length df
          /\ Forall is_direction (supertrend_direction cols)) as (Ld & La & D).
  { unfold calculate_supertrend in C.
    destruct (Nat.ltb_spec (List.length df) atr_period); [discriminate C|].
    injection C as <-. cbn [supertrend_direction atr_column].
    split; [|split; [apply length_atr|]].
    - rewrite length_map.
      match goal with
      | |- List.length (match ?rows with _ => _ end) = _ =>
          assert (List.length rows = List.length df) as Lr;
          [|destruct rows as [|[[u0 l0] c0] rest]; [exact Lr|]]
      end.
      { rewrite !length_combine, !length_zip_with, !length_map, !length_zip_with,
          !length_map, length_atr. lia. }
      cbn [List.length] in *.
      rewrite (proj2 (supertrend_from_directions (l0, 1%Z) rest)). exact Lr.
    - match goal with
      | |- Forall _ (map snd (match ?rows with _ => _ end)) =>
          destruct rows as [|[[u0 l0] c0] rest]; [constructor|]
      end.
      cbn [map snd]. constructor; [left; reflexivity|].
      apply supertrend_from_directions. }
  unfold atr_period in L.
  assert (df <> []) as NE by (apply nonempty_length; lia).
  destruct (iloc_last_some (supertrend_direction cols)) as (d & Ed);
    [apply nonempty_length; lia|].
  destruct (iloc_last2_some (supertrend_direction cols)) as (d' & Ed'); [lia|].
  destruct (iloc_last_some (map Ohlc.close df)) as (p & Ep);
    [apply nonempty_length; rewrite length_map; lia|].
  destruct (iloc_last_some (atr_column cols)) as (a & Ea); [apply nonempty_length; lia|].
  destruct (analyze_trend_returns (map Ohlc.close df) 20) as (t & Et);
    [apply nonempty_length; rewrite length_map; lia|].
  destruct (analyze_volatility_returns df 20 NE) as (v & Ev).
  rewrite Ed, Ed', Ep, Ea, Et, Ev.
  assert (is_direction d) as Dd.
  { rewrite Forall_forall in D. apply D. apply iloc_last_in. exact Ed. }
  destruct (band_follow_scores
              {| Supertrend.len_df := List.length df;
                 Supertrend.current_direction := d;
                 Supertrend.prev_direction := d';
                 Supertrend.current_price := p;
                 Supertrend.current_atr := a;
                 Supertrend.trend_analysis := t;
                 Supertrend.volatility_analysis := v |})
    as (sc & E & S); [cbn; lia|exact Dd|].
  eexists _, sc. split; [reflexivity|]. split; [exact E|]. split; [exact S|].
  unfold Supertrend.generate_signal. rewrite E. reflexivity.
Qed.

Lemma band_follow_never_abstains_witness :
  (atr_period <= List.length climbing_frame)%nat
  /\ exists (rows : Supertrend.input) (sc : scored),
       supertrend_rows climbing_frame = Some rows
       /\ Supertrend.evaluate rows = inr sc
       /\ (s_signal sc = "LONG" \/ s_signal sc = "SHORT")
       /\ signal (Supertrend.generate_signal "t" rows) = s_signal sc.
Proof.
  assert (atr_period <= List.length climbing_frame)%nat as Rows
    by (unfold atr_period; simpl; lia).
  split; [exact Rows|]. exact (band_follow_never_abstains "t" climbing_frame Rows).
Defined.

(** ** The volatility analysis *)

Lemma Forall_firstn_ {A : Type} (P : A -> Prop) (n : nat) (l : list A) :
  Forall P l -> Forall P (firstn n l).
Proof.
  intro H. revert n. induction H as [|x l Hx _ IH]; intro n.
  - rewrite firstn_nil. constructor.
  - destruct n; [constructor|]. cbn [firstn]. constructor; [exact Hx|apply IH].
Qed.

Lemma Forall_skipn_ {A : Type} (P : A -> Prop) (n : nat) (l : list A) :
  Forall P l -> Forall P (skipn n l).
Proof.
  intro H. revert n. induction H as [|x l Hx Hl IH]; intro n.
  - rewrite skipn_nil. constructor.
  - destruct n; [constructor; assumption|]. cbn [skipn]. apply IH.
Qed.

Lemma sum_of_nonnegatives (qs : list Q) (a : Q) :
  Forall (fun q => 0 <= q) qs -> a <= fold_left Qplus qs a.
Proof.
  intro H. revert a. induction H as [|q rest Hq _ IH]; intro a; [simpl; lra|].
  cbn [fold_left]. specialize (IH (a + q)). lra.
Qed.

Lemma count_pos {A : Type} (l : list A) :
  l <> [] -> 0 < inject_Z (Z.of_nat (List.length l)).
Proof.
  intro NE. assert (0 < Z.of_nat (List.length l))%Z as P
    by (destruct l; [contradiction|simpl; lia]).
  rewrite Zlt_Qlt in P. exact P.
Qed.

(** A value of an indicator that is still warming up, or a number that is
    not negative. *)
Lemma mean_of_nonnegatives (qs : list Q) :
  Forall (fun q => 0 <= q) qs ->
  TechnicalIndicators.mean (map Fin qs) = NaN
  \/ exists m : Q, TechnicalIndicators.mean (map Fin qs) = Fin m /\ 0 <= m.
Proof.
  intro H. unfold TechnicalIndicators.mean, TechnicalIndicators.total.
  rewrite fold_add_fin, length_map.
  destruct qs as [|q rest] eqn:Q; [left; reflexivity|]. rewrite <- Q in *.
  assert (qs <> []) as NE by (rewrite Q; discriminate).
  pose proof (count_pos qs NE) as P.
  right. rewrite div_fin by lra. eexists. split; [reflexivity|].
  apply Qle_shift_div_l; [exact P|].
  pose proof (sum_of_nonnegatives qs 0 H). lra.
Qed.

Lemma rolling_mean_of_nonnegatives (qs : list Q) (window : nat) :
  Forall (fun q => 0 <= q) qs ->
  Forall (fun x => x = NaN \/ exists m : Q, x = Fin m /\ 0 <= m)
         (TechnicalIndicators.rolling_mean (map Fin qs) window).
Proof.
  intro H. unfold TechnicalIndicators.rolling_mean. apply Forall_map.
  apply Forall_forall. intros i _. unfold TechnicalIndicators.window_at.
  destruct ((0 <? window)%nat && (window <=? i + 1)%nat); [|left; reflexivity].
  rewrite skipn_map, firstn_map. apply mean_of_nonnegatives.
  apply Forall_firstn_, Forall_skipn_. exact H.
Qed.

Lemma rolling_mean_last_finite (qs : list Q) (window : nat) :
  (1 <= window <= List.length qs)%nat ->
  exists m : Q,
    iloc_last (TechnicalIndicators.rolling_mean (map Fin qs) window) = Some (Fin m).
Proof.
  intro L. eexists.
  change (TechnicalIndicators.rolling_mean (map Fin qs) window)
    with (TechnicalIndicators.sma (map Fin qs) window).
  rewrite sma_last.
  - rewrite (window_mean_finite qs window L). reflexivity.
  - apply nonempty_length. rewrite length_map. lia.
  - rewrite length_map. lia.
Qed.

Lemma dropna_of_nonnegatives (l : list pyfloat) :
  Forall (fun x => x = NaN \/ exists m : Q, x = Fin m /\ 0 <= m) l ->
  exists qs : list Q,
    Backtest.dropna l = map Fin qs
    /\ Forall (fun q => 0 <= q) qs
    /\ (forall m, In (Fin m) l -> qs <> []).
Proof.
  intro H. induction H as [|x l Hx _ (qs & E & N & NE)].
  - exists []. split; [reflexivity|]. split; [constructor|]. intros m [].
  - destruct Hx as [-> | (m & -> & Pm)].
    + exists qs. split; [exact E|]. split; [exact N|].
      intros m [X|I]; [discriminate X|]. exact (NE m I).
    + exists (m :: qs). unfold Backtest.dropna in *. cbn [filter PyFloat.notna PyFloat.isnan negb].
      rewrite E. split; [reflexivity|]. split; [constructor; assumption|].
      intros ? _. discriminate.
Qed.

Lemma pd_mean_of_nonnegatives (l : list pyfloat) (m : Q) :
  Forall (fun x => x = NaN \/ exists m : Q, x = Fin m /\ 0 <= m) l ->
  In (Fin m) l ->
  exists avg : Q, Backtest.pd_mean l = Fin avg /\ 0 <= avg.
Proof.
  intros H I. destruct (dropna_of_nonnegatives l H) as (qs & E & N & NE).
  specialize (NE m I). pose proof (count_pos qs NE) as P.
  unfold Backtest.pd_mean, Backtest.pd_sum. rewrite E, fold_add_fin, length_map.
  rewrite div_fin by lra. eexists. split; [reflexivity|].
  apply Qle_shift_div_l; [exact P|].
  pose proof (sum_of_nonnegatives qs 0 N). lra.
Qed.

Lemma row_max_finite (x y z : Q) :
  exists t : Q, row_max [Fin x; Fin y; Fin z] = Fin t /\ z <= t /\ y <= t /\ x <= t.
Proof.
  unfold row_max. cbn [fold_left].
  change (Backtest.pd_max2 NaN (Fin x)) with (Fin x).
  rewrite !pd_max2_fin. eexists. split; [reflexivity|].
  destruct (Qlt_bool_spec x y); qcases; repeat split; lra.
Qed.

(** The true range of a finite frame is a column of numbers that are not
    negative; [fill] is the close of the row before the first. *)
Lemma true_range_of_finite_frame (df : list Ohlc.row) (fill : pyfloat) :
  Forall finite_row df ->
  fill = NaN \/ (exists c : Q, fill = Fin c) ->
  exists ts : list Q,
    zip_with (fun a bc => row_max [a; fst bc; snd bc])
      (zip_with PyFloat.sub (map Ohlc.high df) (map Ohlc.low df))
      (combine
         (map PyFloat.abs
            (zip_with PyFloat.sub (map Ohlc.high df) (shift_with fill (map Ohlc.close df))))
         (map PyFloat.abs
            (zip_with PyFloat.sub (map Ohlc.low df) (shift_with fill (map Ohlc.close df)))))
    = map Fin ts
    /\ Forall (fun q => 0 <= q) ts
    /\ List.length ts = List.length df.
Proof.
  intro H. revert fill. induction H as [|r df (h & l & c & -> & Hl) _ IH]; intros fill F.
  - exists []. split; [reflexivity|]. split; [constructor|reflexivity].
  - destruct (IH (Fin c)) as (ts & E & N & Len); [right; exists c; reflexivity|].
    unfold zip_with in *. cbn [map combine shift_with fst snd Ohlc.high Ohlc.low Ohlc.close].
    rewrite E.
    destruct F as [-> | (c0 & ->)].
    + exists ((h + - l) :: ts). split; [reflexivity|].
      split; [constructor; [lra|exact N]|simpl; rewrite Len; reflexivity].
    + cbn [PyFloat.sub PyFloat.neg PyFloat.add PyFloat.abs].
      destruct (row_max_finite (h + - l) (Qabs (h + - c0)) (Qabs (l + - c0)))
        as (t & -> & Pt & _).
      exists (t :: ts). split; [reflexivity|].
      split; [|simpl; rewrite Len; reflexivity].
      constructor; [|exact N]. pose proof (Qabs_nonneg (l + - c0)). lra.
Qed.

(** X17.  [analyze_volatility] answers UNKNOWN with factor 1.0 on a frame
    shorter than the period.  On a longer frame of finite prices whose highs
    are not below their lows it always finds a level, and the factor is a
    number that is not negative (the current ATR over the mean ATR, or 1.0
    when the mean is zero): HIGH exactly above 1.5, LOW exactly below 0.7,
    NORMAL in between. *)
Theorem volatility_factor_is_a_ratio (df : list Ohlc.row) (period : nat) :
  ((List.length df < period)%nat ->
   analyze_volatility df period = Some {| level := "UNKNOWN"; factor := Fin 1.0 |})
  /\ (Forall finite_row df -> (1 <= period <= List.length df)%nat ->
      exists (v : volatility) (f : Q),
        analyze_volatility df period = Some v
        /\ factor v = Fin f /\ 0 <= f
        /\ (level v = "HIGH" <-> 1.5 < f)
        /\ (level v = "LOW" <-> f < 0.7)
        /\ (level v = "NORMAL" <-> 0.7 <= f <= 1.5)).
Proof.
  unfold analyze_volatility. split.
  - intro L. apply Nat.ltb_lt in L. rewrite L. reflexivity.
  - intros Fn L.
    destruct (Nat.ltb_spec (List.length df) period) as [Bad|_]; [lia|].
    unfold atr, shift1.
    destruct (true_range_of_finite_frame df NaN Fn) as (ts & -> & N & Len);
      [left; reflexivity|].
    destruct (rolling_mean_last_finite ts period) as (cur & Ecur); [lia|].
    rewrite Ecur.
    pose proof (rolling_mean_of_nonnegatives ts period N) as A.
    assert (In (Fin cur) (TechnicalIndicators.rolling_mean (map Fin ts) period)) as I
      by (apply iloc_last_in; exact Ecur).
    assert (0 <= cur) as Pcur.
    { rewrite Forall_forall in A. destruct (A _ I) as [X|(m & X & Pm)]; [discriminate X|].
      injection X as ->. exact Pm. }
    destruct (pd_mean_of_nonnegatives _ cur A I) as (avg & -> & Pavg).
    change (Fin avg >? Fin 0)%F with (Qlt_bool 0 avg).
    destruct (Qlt_bool_spec 0 avg) as [Pos|Zero].
    + rewrite div_fin by lra.
      assert (0 <= cur / avg) as Pf by (apply Qle_shift_div_l; [exact Pos|lra]).
      set (f := cur / avg) in *.
      eexists _, f. split; [reflexivity|]. cbn [factor level].
      split; [reflexivity|]. split; [exact Pf|].
      unfold PyFloat.gt, PyFloat.lt.
      destruct (Qlt_bool_spec 1.5 f); [|destruct (Qlt_bool_spec f 0.7)];
        (split; [|split]); split; intro X; try discriminate X; try reflexivity; lra.
    + eexists _, 1.0. split; [reflexivity|]. cbn [factor level].
      split; [reflexivity|]. split; [lra|].
      unfold PyFloat.gt, PyFloat.lt.
      destruct (Qlt_bool_spec 1.5 1.0); [lra|]. destruct (Qlt_bool_spec 1.0 0.7); [lra|].
      (split; [|split]); split; intro X; try discriminate X; try reflexivity; lra.
Qed.

Lemma climbing_frame_is_finite : Forall finite_row climbing_frame.
Proof.
  unfold climbing_frame. apply Forall_map, Forall_forall. intros k _.
  eexists _, _, _. split; [reflexivity|].
  rewrite <- Zle_Qle. lia.
Qed.

Lemma volatility_factor_is_a_ratio_witness :
  Forall finite_row climbing_frame
  /\ (1 <= 20 <= List.length climbing_frame)%nat
  /\ exists (v : volatility) (f : Q),
       analyze_volatility climbing_frame 20 = Some v /\ factor v = Fin f /\ 0 <= f.
Proof.
  assert (1 <= 20 <= List.length climbing_frame)%nat as Rows by (simpl; lia).
  split; [exact climbing_frame_is_finite|]. split; [exact Rows|].
  destruct (proj2 (volatility_factor_is_a_ratio climbing_frame 20)
              climbing_frame_is_finite Rows) as (v & f & E & F & P & _).
  exists v, f. repeat split; assumption.
Defined.

(** ** The strength of a trend *)

Lemma lt_le (a b : pyfloat) : PyFloat.lt a b = true -> PyFloat.le a b = true.
Proof.
  destruct a, b; simpl; intro H; try discriminate H; try reflexivity.
  apply Qlt_bool_iff in H. apply Qle_bool_iff. lra.
Qed.

Lemma min_le_left (a b : pyfloat) :
  PyFloat.le a a = true -> PyFloat.le (PyFloat.min a b) a = true.
Proof.
  intro R. unfold PyFloat.min. destruct (PyFloat.lt b a) eqn:L; [|exact R].
  apply lt_le. exact L.
Qed.

Lemma sum_positive (qs : list Q) :
  Forall (fun q => 0 < q) qs -> qs <> [] -> 0 < fold_left Qplus qs 0.
Proof.
  intros H NE. destruct H as [|q rest Hq Hr]; [contradiction NE; reflexivity|].
  cbn [fold_left]. pose proof (sum_of_positives rest (0 + q) Hr). lra.
Qed.

(** X18.  The strength [analyze_trend] reports is never above 1, whatever
    the closes.  On positive closes with at least [period] rows it is a
    number in [0, 1].  When the long moving average is NaN (a NaN close in its
    window) the strength is 1.0, the maximum, because [min(1.0, nan)] is
    1.0. *)
Theorem trend_strength_is_bounded :
  (forall (close : list pyfloat) (period : nat) (t : trend),
      MarketAnalyzer.analyze_trend close period = Some t ->
      PyFloat.le (strength t) (Fin 1) = true)
  /\ (forall (qs : list Q) (period : nat),
         Forall (fun q => 0 < q) qs -> (1 <= period <= List.length qs)%nat ->
         exists t : trend,
           MarketAnalyzer.analyze_trend (map Fin qs) period = Some t
           /\ in_range 0 1 (strength t))
  /\ (forall (close : list pyfloat) (period : nat) (t : trend),
         MarketAnalyzer.analyze_trend close period = Some t ->
         sma_long t = Some NaN ->
         strength t = Fin 1.0).
Proof.
  split; [|split].
  - intros close period t. unfold MarketAnalyzer.analyze_trend.
    destruct (List.length close <? period)%nat.
    + intro H. injection H as <-. reflexivity.
    + destruct (iloc_last close) as [p|]; [|discriminate].
      destruct (iloc_last (TechnicalIndicators.sma close (period / 2))) as [s|];
        [|discriminate].
      destruct (iloc_last (TechnicalIndicators.sma close period)) as [l|]; [|discriminate].
      intro H. injection H as <-. cbn [strength].
      assert (PyFloat.le (PyFloat.min (Fin 1.0) (PyFloat.abs (p - l) / l * Fin 10)%F)
                         (Fin 1.0) = true) as B by (apply min_le_left; reflexivity).
      revert B. generalize (PyFloat.min (Fin 1.0) (PyFloat.abs (p - l) / l * Fin 10)%F).
      intros x B. destruct x; simpl in *; try discriminate B; try reflexivity.
      apply Qle_bool_iff in B. apply Qle_bool_iff. lra.
  - intros qs period Pos L.
    assert (map Fin qs <> []) as NE by (apply nonempty_length; rewrite length_map; lia).
    assert (period / 2 <= List.length (map Fin qs))%nat as L2.
    { rewrite length_map. pose proof (Nat.Div0.div_le_upper_bound period 2 period). lia. }
    destruct (iloc_last_some qs) as (p & Ep); [apply nonempty_length; lia|].
    assert (0 < p) as Pp.
    { rewrite Forall_forall in Pos. apply Pos. apply iloc_last_in. exact Ep. }
    unfold MarketAnalyzer.analyze_trend.
    replace (List.length (map Fin qs) <? period)%nat with false
      by (symmetry; apply Nat.ltb_ge; rewrite length_map; lia).
    rewrite iloc_last_map, Ep. cbn [option_map].
    rewrite (sma_last _ (period / 2) NE L2).
    rewrite (sma_last _ period NE) by (rewrite length_map; lia).
    rewrite (window_mean_finite qs period L).
    set (sum := fold_left Qplus (skipn (List.length qs - period) qs) 0).
    assert (0 < sum) as Ps.
    { apply sum_positive; [apply Forall_skipn_; exact Pos|].
      apply nonempty_length. rewrite length_skipn. lia. }
    assert (0 < inject_Z (Z.of_nat period)) as Pn.
    { assert (0 < Z.of_nat period)%Z as Pz by lia. rewrite Zlt_Qlt in Pz. exact Pz. }
    assert (0 < sum / inject_Z (Z.of_nat period)) as Pm
      by (apply Qlt_shift_div_l; [exact Pn|lra]).
    set (m := sum / inject_Z (Z.of_nat period)) in *.
    eexists. split; [reflexivity|]. cbn [strength].
    cbn [PyFloat.sub PyFloat.neg PyFloat.add PyFloat.abs].
    rewrite (div_fin _ m) by lra. cbn [PyFloat.mul].
    assert (0 <= Qabs (p + - m) / m * 10) as Pd.
    { pose proof (Qabs_nonneg (p + - m)) as Pa.
      assert (0 <= Qabs (p + - m) / m) by (apply Qle_shift_div_l; [exact Pm|lra]).
      lra. }
    unfold PyFloat.min, PyFloat.lt.
    destruct (Qlt_bool_spec (Qabs (p + - m) / m * 10) 1.0); unfold in_range; lra.
  - intros close period t. unfold MarketAnalyzer.analyze_trend.
    destruct (List.length close <? period)%nat.
    + intro H. injection H as <-. intro X. discriminate X.
    + destruct (iloc_last close) as [p|]; [|discriminate].
      destruct (iloc_last (TechnicalIndicators.sma close (period / 2))) as [s|];
        [|discriminate].
      destruct (iloc_last (TechnicalIndicators.sma close period)) as [l|]; [|discriminate].
      intro H. injection H as <-. cbn [strength sma_long]. intro X. injection X as ->.
      destruct p; reflexivity.
Qed.

Lemma trend_strength_is_bounded_witness :
  Forall (fun q => 0 < q) rising_closes
  /\ (1 <= 4 <= List.length rising_closes)%nat
  /\ exists t : trend,
       MarketAnalyzer.analyze_trend (map Fin rising_closes) 4 = Some t
       /\ in_range 0 1 (strength t).
Proof.
  assert (Forall (fun q => 0 < q) rising_closes) as Pos
    by (repeat constructor).
  assert (1 <= 4 <= List.length rising_closes)%nat as Rows by (simpl; lia).
  split; [exact Pos|]. split; [exact Rows|].
  exact (proj1 (proj2 trend_strength_is_bounded) rising_closes 4%nat Pos Rows).
Defined.

(** ** The remaining decision rules *)

(** Bring into the goal the [let]s the variable of the goal goes back to. *)
Ltac chain_back :=
  repeat match goal with
    | E : _ = (?s, _) |- context [?s] => is_var s; revert E
    | E : _ = (?s, _, _) |- context [?s] => is_var s; revert E
    end.

Ltac settle_pair :=
  let E := fresh "E" in
  intros E; cbn [andb orb negb String.eqb Ascii.eqb Bool.eqb] in E;
  inversion E; subst; clear E;
  cbn [andb orb negb String.eqb Ascii.eqb Bool.eqb].

(** X19.  The breakout engine calls LONG exactly when the price is at or
    above the entry high after a previous close below the previous entry
    high, unless the price is also at or below the exit low; it calls SHORT
    exactly when there is no such upward breakout, the price is at or below
    the entry low after a previous close above the previous entry low, and
    the price is not at or above the exit high.  Every comparison with a NaN
    fails, so NaN channels give FLAT. *)
Theorem breakout_call (df : Turtle.input) (sc : scored) :
  Turtle.evaluate df = inr sc ->
  (s_signal sc = "LONG" <->
   PyFloat.ge (Turtle.current_price df) (Turtle.entry_high df)
   && PyFloat.lt (Turtle.prev_price df) (Turtle.prev_entry_high df) = true
   /\ PyFloat.le (Turtle.current_price df) (Turtle.exit_low df) = false)
  /\ (s_signal sc = "SHORT" <->
      PyFloat.ge (Turtle.current_price df) (Turtle.entry_high df)
      && PyFloat.lt (Turtle.prev_price df) (Turtle.prev_entry_high df) = false
      /\ PyFloat.le (Turtle.current_price df) (Turtle.entry_low df)
         && PyFloat.gt (Turtle.prev_price df) (Turtle.prev_entry_low df) = true
      /\ PyFloat.ge (Turtle.current_price df) (Turtle.exit_high df) = false).
Proof.
  unfold Turtle.evaluate. scored_only. peel_eq.
  intros H. injection H as <-. cbn [s_signal]. chain_back.
  destruct (PyFloat.ge (Turtle.current_price df) (Turtle.entry_high df)
            && PyFloat.lt (Turtle.prev_price df) (Turtle.prev_entry_high df)) eqn:Up;
    destruct (PyFloat.le (Turtle.current_price df) (Turtle.entry_low df)
              && PyFloat.gt (Turtle.prev_price df) (Turtle.prev_entry_low df)) eqn:Down;
    destruct (PyFloat.le (Turtle.current_price df) (Turtle.exit_low df)) eqn:XL;
    destruct (PyFloat.ge (Turtle.current_price df) (Turtle.exit_high df)) eqn:XH;
    settle_pair; settle_pair;
    (split; split; intros X;
     first [reflexivity|discriminate X
           |destruct X as (X1 & X2); discriminate
           |destruct X as (X1 & X2 & X3); discriminate
           |repeat split; reflexivity]).
Qed.

Lemma breakout_call_witness :
  exists sc : scored,
    Turtle.evaluate upward_breakout = inr sc /\ s_signal sc = "LONG".
Proof.
  eexists. split; [vm_compute; reflexivity|].
  refine (proj2 (proj1 (breakout_call upward_breakout _ _)) _).
  - vm_compute. reflexivity.
  - split; reflexivity.
Defined.

(** X20.  The cloud engine calls LONG only when the price is above the top
    of the cloud and the conversion line is above the base line, and SHORT
    only when the price is below the bottom of the cloud, not above its top,
    and the conversion line is not above the base line (a NaN line counts as
    not above). *)
Theorem cloud_call_needs_cloud_and_lines (df : Ichimoku.input) (sc : scored) :
  Ichimoku.evaluate df = inr sc ->
  (s_signal sc = "LONG" ->
   PyFloat.gt (Ichimoku.current_price df) (Ichimoku.cloud_top df) = true
   /\ PyFloat.gt (Ichimoku.tenkan_sen df) (Ichimoku.kijun_sen df) = true)
  /\ (s_signal sc = "SHORT" ->
      PyFloat.lt (Ichimoku.current_price df) (Ichimoku.cloud_bottom df) = true
      /\ PyFloat.gt (Ichimoku.current_price df) (Ichimoku.cloud_top df) = false
      /\ PyFloat.gt (Ichimoku.tenkan_sen df) (Ichimoku.kijun_sen df) = false).
Proof.
  unfold Ichimoku.evaluate. scored_only. peel_eq.
  intros H. injection H as <-. cbn [s_signal].
  match goal with E : _ = (?s, _) |- context [?s = _] => revert E end.
  unfold Ichimoku.analyze_ichimoku_signals.
  cbn [Ichimoku.price_vs_cloud Ichimoku.tenkan_vs_kijun].
  match goal with |- (if ?c then _ else _) = _ -> _ => destruct c end;
    destruct (PyFloat.gt (Ichimoku.current_price df) (Ichimoku.cloud_top df)) eqn:Above;
    destruct (PyFloat.lt (Ichimoku.current_price df) (Ichimoku.cloud_bottom df)) eqn:Below;
    destruct (PyFloat.gt (Ichimoku.tenkan_sen df) (Ichimoku.kijun_sen df)) eqn:Lines;
    settle_pair;
    (split; intros X; first [discriminate X|repeat split; reflexivity]).
Qed.

Lemma cloud_call_needs_cloud_and_lines_witness :
  exists sc : scored,
    Ichimoku.evaluate above_green_cloud = inr sc
    /\ s_signal sc = "LONG"
    /\ PyFloat.gt (Ichimoku.current_price above_green_cloud)
                  (Ichimoku.cloud_top above_green_cloud) = true
    /\ PyFloat.gt (Ichimoku.tenkan_sen above_green_cloud)
                  (Ichimoku.kijun_sen above_green_cloud) = true.
Proof.
  eexists. split; [vm_compute; reflexivity|].
  split; [reflexivity|].
  refine (proj1 (cloud_call_needs_cloud_and_lines above_green_cloud _ _) _).
  - vm_compute. reflexivity.
  - reflexivity.
Defined.

(** ** The row minimum of the endpoints *)

Ltac past_guard :=
  match goal with
  | |- context [(?n <? ?k)%nat] =>
      destruct (Nat.ltb_spec n k) as [Bad|_]; [exfalso; simpl in Bad; lia|]
  end.

Lemma serve_reply {I : Type} (rows : I -> nat) (min_rows : nat)
    (generate : I -> signal_response) (req : request) (fetched : option I)
    (r : signal_response) :
  serve rows min_rows generate req fetched = inr r ->
  exists df : I,
    fetched = Some df /\ (min_rows <= rows df)%nat
    /\ r = apply_gate (generate df) (dict_get (min_conf req) (Fin 0.5)).
Proof.
  unfold serve. destruct (symbol req) as [[|c s]|]; try discriminate.
  destruct fetched as [df|]; [|discriminate].
  destruct (Nat.ltb_spec (rows df) min_rows) as [Few|Enough]; [discriminate|].
  intro R. injection R as <-. exists df. repeat split. exact Enough.
Qed.

(** X21.  An endpoint admits a frame only from its own row minimum (50,
    100 or 200 rows), which for six engines is above the minimum of the
    engine itself: their replies never come from the engine's
    insufficient-data return, and all but the mean-reversion engine (which
    has its ADX gate) have always reached the scorer.  The crossover
    engine is the exception: its endpoint admits 200 rows, the engine asks for
    210, so a frame of 200 to 209 rows is answered FLAT at confidence 0. *)
Theorem endpoint_row_minimum (now : string) (req : request) :
  (forall df r, Supertrend.get_signal now req (Some df) = inr r ->
                exists sc, Supertrend.evaluate df = inr sc)
  /\ (forall df r, AlphaTrend.get_signal now req (Some df) = inr r ->
                   exists sc, AlphaTrend.evaluate df = inr sc)
  /\ (forall df r, Ichimoku.get_signal now req (Some df) = inr r ->
                   exists sc, Ichimoku.evaluate df = inr sc)
  /\ (forall df r, Composite.get_signal now req (Some df) = inr r ->
                   exists sc, Composite.evaluate df = inr sc)
  /\ (forall df r, Turtle.get_signal now req (Some df) = inr r ->
                   exists sc, Turtle.evaluate df = inr sc)
  /\ (forall df r, MeanReversion.get_signal now req (Some df) = inr r ->
                   (exists sc, MeanReversion.evaluate df = inr sc)
                   \/ PyFloat.notna (MeanReversion.current_adx df)
                      && PyFloat.gt (MeanReversion.current_adx df) (Fin 25) = true)
  /\ (forall df sym,
         symbol req = Some sym -> sym <> "" ->
         (200 <= Trend.len_df df < 210)%nat ->
         Trend.get_signal now req (Some df)
         = inr (early_flat [lit "Insufficient data for signal generation"])).
Proof.
  repeat split.
  - intros df r H. apply serve_reply in H. destruct H as (df' & E & L & _).
    injection E as <-. unfold Supertrend.evaluate. past_guard.
    cbv zeta. peel_eq. eexists. reflexivity.
  - intros df r H. apply serve_reply in H. destruct H as (df' & E & L & _).
    injection E as <-. unfold AlphaTrend.evaluate. past_guard.
    cbv zeta. peel_eq. eexists. reflexivity.
  - intros df r H. apply serve_reply in H. destruct H as (df' & E & L & _).
    injection E as <-. unfold Ichimoku.evaluate. past_guard.
    cbv zeta. peel_eq. eexists. reflexivity.
  - intros df r H. apply serve_reply in H. destruct H as (df' & E & L & _).
    injection E as <-. unfold Composite.evaluate. past_guard.
    cbv zeta. peel_eq. eexists. reflexivity.
  - intros df r H. apply serve_reply in H. destruct H as (df' & E & L & _).
    injection E as <-. unfold Turtle.evaluate. past_guard.
    cbv zeta. peel_eq. eexists. reflexivity.
  - intros df r H. apply serve_reply in H. destruct H as (df' & E & L & _).
    injection E as <-. unfold MeanReversion.evaluate. past_guard.
    cbv zeta. unfold MeanReversion.adx_threshold.
    destruct (PyFloat.notna (MeanReversion.current_adx df)
              && PyFloat.gt (MeanReversion.current_adx df) (Fin 25));
      [right; reflexivity|left].
    peel_eq. eexists. reflexivity.
  - intros df sym S NE L. unfold Trend.get_signal, serve. rewrite S.
    destruct sym as [|c s]; [contradiction NE; reflexivity|].
    destruct (Nat.ltb_spec (Trend.len_df df) 200) as [Bad|_]; [lia|].
    unfold Trend.generate_signal, Trend.evaluate.
    destruct (Nat.ltb_spec (Trend.len_df df)
                (Nat.max Trend.ema_slow (Trend.macd_slow + Trend.macd_signal) + 10))
      as [_|Bad]; [|simpl in Bad; lia].
    reflexivity.
Qed.

Lemma endpoint_row_minimum_witness :
  (200 <= Trend.len_df young_crossover < 210)%nat
  /\ Trend.get_signal "t" gold_request (Some young_crossover)
     = inr (early_flat [lit "Insufficient data for signal generation"]).
Proof.
  assert (200 <= Trend.len_df young_crossover < 210)%nat as Rows by (simpl; lia).
  split; [exact Rows|].
  refine (proj2 (proj2 (proj2 (proj2 (proj2 (proj2
            (endpoint_row_minimum "t" gold_request))))))
            young_crossover "XAUUSD=X" eq_refl _ Rows).
  discriminate.
Defined.

(** ** The ledger in time *)

Lemma StronglySorted_snoc {A : Type} (R : A -> A -> Prop) (l : list A) (x : A) :
  StronglySorted R l -> Forall (fun y => R y x) l -> StronglySorted R (l ++ [x]).
Proof.
  intros S F. induction S as [|a l S IH Ha]; cbn [app].
  - constructor; constructor.
  - inversion F as [|? ? Rax Fl]; subst. constructor; [apply IH; exact Fl|].
    apply Forall_app. split; [exact Ha|]. constructor; [exact Rax|constructor].
Qed.

Lemma StronglySorted_snoc_inv {A : Type} (R : A -> A -> Prop) (l : list A) (x : A) :
  StronglySorted R (l ++ [x]) -> StronglySorted R l /\ Forall (fun y => R y x) l.
Proof.
  induction l as [|a l IH]; cbn [app]; intro S.
  - split; constructor.
  - inversion S as [|? ? S' Fa]; subst. destruct (IH S') as (Sl & Fl).
    apply Forall_app in Fa. destruct Fa as (Fa & Fx).
    split; [constructor; assumption|].
    constructor; [inversion Fx; assumption|exact Fl].
Qed.

Lemma range_sorted (start stop step : nat) :
  StronglySorted le (Backtest.range start stop step).
Proof.
  unfold Backtest.range. generalize ((stop - start + (step - 1)) / step)%nat as m.
  generalize 0%nat as s0. intros s0 m. revert s0.
  induction m as [|m IH]; intro s0; cbn [seq map]; constructor.
  - apply IH.
  - apply Forall_map, Forall_forall. intros k I. apply in_seq in I. nia.
Qed.

Lemma not_after_later (df : list Backtest.bar) (k k' : nat) (z : Backtest.Timestamp) :
  (k <= k')%nat -> not_after df k z -> not_after df k' z.
Proof. intros L H i row Li E. apply (H i row); [lia|exact E]. Qed.

Lemma in_order_later (df : list Backtest.bar) (k k' : nat) (st : Backtest.state) :
  (k <= k')%nat -> in_order df k st -> in_order df k' st.
Proof.
  intros L (S & F & P). split; [exact S|]. split.
  - eapply Forall_impl; [|exact F]. intros t (Fw & N).
    split; [exact Fw|]. exact (not_after_later df k k' _ L N).
  - intros p Hp. destruct (P p Hp) as (N & B).
    split; [exact (not_after_later df k k' _ L N)|exact B].
Qed.

Lemma days_between_nonneg (a b : Backtest.Timestamp) :
  (b <= a)%Z -> (0 <= Backtest.days_between a b)%Z.
Proof.
  intro L. unfold Backtest.days_between, Backtest.nanoseconds_per_day.
  apply Z.div_pos; lia.
Qed.

Lemma step_in_order (self : Backtest.BacktestRunner) (df : list Backtest.bar)
    (i : nat) (row : Backtest.bar) (st : Backtest.state) (s : Backtest.decision) :
  sorted_index df -> nth_error df i = Some row ->
  in_order df i st ->
  in_order df i (Backtest.step self st (Backtest.date row) (Backtest.close row) s).
Proof.
  intros Srt Row (S & F & P).
  assert (not_after df i (Backtest.date row)) as Now.
  { intros j b Lj Eb. exact (Srt i j row b Lj Row Eb). }
  assert (forall z, not_after df i z -> (z <= Backtest.date row)%Z) as Here.
  { intros z N. apply (N i row); [lia|exact Row]. }
  pose proof (step_spec self st (Backtest.date row) (Backtest.close row) s) as Spec.
  cbv zeta in Spec. destruct Spec as (_ & Tr & Q).
  set (st' := Backtest.step self st (Backtest.date row) (Backtest.close row) s) in *.
  assert (StronglySorted precedes (Backtest.trades st')
          /\ Forall (fun t => forward t /\ not_after df i (Backtest.exit_date t))
                    (Backtest.trades st')) as (S' & F').
  { destruct Tr as [(E & _)|(p & t & CP & E & _ & _ & Dh & Ed & _ & _ & _ & Xd & _)].
    - rewrite E. split; assumption.
    - destruct (P p CP) as (N & B). rewrite E. split.
      + apply StronglySorted_snoc; [exact S|].
        eapply Forall_impl; [|exact B]. intros y Hy. unfold precedes. rewrite Ed. exact Hy.
      + apply Forall_app. split; [exact F|]. constructor; [|constructor].
        unfold forward. rewrite Dh, Ed, Xd. pose proof (Here _ N) as Le.
        split; [split; [exact Le|apply days_between_nonneg; exact Le]|exact Now]. }
  split; [exact S'|]. split; [exact F'|].
  intros q Hq. destruct (Q q Hq) as [(Old & Same)|(Ed & _)].
  - rewrite Same. apply P. exact Old.
  - rewrite Ed. split; [exact Now|].
    eapply Forall_impl; [|exact F']. intros t (_ & N). apply Here. exact N.
Qed.

Lemma walk_in_order (self : Backtest.BacktestRunner) (df : list Backtest.bar)
    (signal_at : nat -> option Backtest.decision) (indices : list nat) :
  sorted_index df -> StronglySorted le indices ->
  forall k, Forall (fun j => j <= k)%nat indices ->
            in_order df k (Backtest.walk self df signal_at indices).
Proof.
  intros Srt. induction indices as [|i rest IH] using rev_ind; intros Inc k Bound.
  - unfold Backtest.walk. cbn. split; [constructor|]. split; [constructor|].
    intros p H. discriminate H.
  - apply StronglySorted_snoc_inv in Inc. destruct Inc as (Inc & Last).
    apply Forall_app in Bound. destruct Bound as (Bk & Bi).
    inversion Bi as [|? ? Lik _]; subst.
    rewrite walk_snoc. destruct (nth_error df i) as [row|] eqn:Row.
    + apply (in_order_later df i k); [exact Lik|].
      apply step_in_order; [exact Srt|exact Row|].
      apply IH; assumption.
    + apply IH; assumption.
Qed.

(** X22.  On a frame whose index is sorted, the ledger of a completed run
    is in chronological order and its trades do not overlap: every trade
    exits no earlier than it entered (so [days_held] is never negative), and
    every trade is over when any later trade of the ledger begins. *)
Theorem trades_do_not_overlap
    (self : Backtest.BacktestRunner) (df : list Backtest.bar)
    (signal_at : nat -> option Backtest.decision) (window_size step_size : nat)
    (r : Backtest.result) :
  sorted_index df ->
  Backtest.run_walk_forward_backtest self (Some df) signal_at window_size step_size
  = Backtest.Completed r ->
  Forall forward (Backtest.r_trades r)
  /\ StronglySorted precedes (Backtest.r_trades r).
Proof.
  intros Srt H. apply run_completed in H. destruct H as (L & Z & ->). cbv zeta.
  destruct df as [|final df'] using rev_ind.
  { unfold walked. rewrite walk_nil. cbn. split; constructor. }
  clear IHdf'. rewrite iloc_last_snoc.
  set (frame := df' ++ [final]) in *.
  assert (nth_error frame (List.length df') = Some final) as Final.
  { unfold frame. rewrite nth_error_app2 by lia. rewrite Nat.sub_diag. reflexivity. }
  assert (in_order frame (List.length df') (walked self frame signal_at window_size step_size))
    as (S & F & P).
  { unfold walked. apply walk_in_order; [exact Srt|apply range_sorted|].
    apply Forall_forall. intros j I. apply range_bound in I; [|lia].
    unfold frame in I. rewrite length_app in I. simpl in I. lia. }
  set (w := walked self frame signal_at window_size step_size) in *.
  assert (Forall forward (Backtest.trades w)) as Fw.
  { eapply Forall_impl; [|exact F]. intros t (X & _). exact X. }
  pose proof (close_remaining_spec self w final) as Spec. cbv zeta in Spec.
  destruct Spec as (_ & [(N & ->)|(p & t & CP & E & _ & Dh & Ed & _ & _ & _ & Xd & _)]);
    cbn [Backtest.r_trades].
  - split; assumption.
  - rewrite E. destruct (P p CP) as (N & B).
    assert (Backtest.entry_date p <= Backtest.date final)%Z as Le
      by (apply (N (List.length df') final); [lia|exact Final]).
    split.
    + apply Forall_app. split; [exact Fw|]. constructor; [|constructor].
      unfold forward. rewrite Dh, Ed, Xd.
      split; [exact Le|apply days_between_nonneg; exact Le].
    + apply StronglySorted_snoc; [exact S|].
      eapply Forall_impl; [|exact B]. intros y Hy. unfold precedes. rewrite Ed. exact Hy.
Qed.

Lemma ten_bars_sorted : sorted_index ten_bars.
Proof.
  intros i j a b L Ea Eb. unfold ten_bars in *.
  rewrite nth_error_map, nth_error_seq in Ea, Eb.
  destruct (i <? 10)%nat; [|discriminate Ea]. destruct (j <? 10)%nat; [|discriminate Eb].
  cbn [option_map Nat.add] in Ea, Eb. injection Ea as <-. injection Eb as <-.
  cbn [Backtest.date]. unfold day, Backtest.nanoseconds_per_day. nia.
Qed.

Lemma trades_do_not_overlap_witness :
  sorted_index ten_bars
  /\ exists r : Backtest.result,
       Backtest.run_walk_forward_backtest Backtest.runner (Some ten_bars) always_long 2 3
       = Backtest.Completed r
       /\ Forall forward (Backtest.r_trades r)
       /\ StronglySorted precedes (Backtest.r_trades r).
Proof.
  split; [exact ten_bars_sorted|].
  eexists. split; [vm_compute; reflexivity|].
  refine (trades_do_not_overlap Backtest.runner ten_bars always_long 2 3 _
            ten_bars_sorted _).
  vm_compute. reflexivity.
Defined.

(** ** The adaptive band *)

Lemma length_band_rows (period : nat) (multiplier : pyfloat) (df : list Ohlc.row) :
  List.length (band_rows period multiplier df) = List.length df.
Proof.
  unfold band_rows.
  rewrite !length_combine, !length_zip_with, !length_map, !length_zip_with, !length_map,
    length_atr.
  lia.
Qed.

Lemma smoothing_keeps_direction (alpha : pyfloat) (prev prev' : pyfloat * Z)
    (rows : list (pyfloat * pyfloat * pyfloat)) :
  snd prev = snd prev' ->
  map snd (alpha_trend_from alpha prev rows) = map snd (supertrend_from prev' rows).
Proof.
  revert prev prev'. induction rows as [|[[u l] c] rest IH]; intros prev prev' E;
    [reflexivity|].
  cbn [alpha_trend_from supertrend_from map].
  assert (snd (alpha_trend_step alpha prev u l c) = snd (supertrend_step prev' u l c)) as S.
  { destruct prev as [a d], prev' as [a' d']. cbn [snd] in E. subst d'.
    unfold alpha_trend_step, supertrend_step.
    destruct (d =? 1)%Z; [destruct (c <=? l)%F|destruct (c >=? u)%F]; reflexivity. }
  rewrite S. f_equal. apply IH. exact S.
Qed.

(** X23.  [calculate_alpha_trend] adds its columns exactly when the frame
    has at least 21 rows.  Its direction column is as long as the frame,
    holds only 1 and -1, and is the column the loop gives without the alpha
    smoothing on the same bands: the smoothing changes the band value, never
    a direction, hence never the engine's call. *)
Theorem smoothing_never_changes_direction (df : list Ohlc.row) :
  ((List.length df < 21)%nat <-> calculate_alpha_trend df = None)
  /\ (forall cols : alpha_trend_columns,
         calculate_alpha_trend df = Some cols ->
         List.length (alpha_trend_direction cols) = List.length df
         /\ Forall is_direction (alpha_trend_direction cols)
         /\ alpha_trend_direction cols
            = unsmoothed_directions (band_rows alpha_atr_period alpha_atr_multiplier df)).
Proof.
  unfold calculate_alpha_trend.
  change (Nat.max alpha_atr_period alpha_period) with 21%nat.
  destruct (Nat.ltb_spec (List.length df) 21) as [Short|Enough].
  - split; [tauto|]. intros cols H. discriminate H.
  - split; [split; [lia|discriminate]|].
    intros cols H. injection H as <-. cbn [alpha_trend_direction].
    pose proof (length_band_rows alpha_atr_period alpha_atr_multiplier df) as Lr.
    unfold unsmoothed_directions.
    destruct (band_rows alpha_atr_period alpha_atr_multiplier df) as [|[[u0 l0] c0] rest].
    { simpl in Lr. lia. }
    cbn [map snd].
    rewrite (smoothing_keeps_direction _ (l0, 1%Z) (l0, 1%Z) rest eq_refl).
    destruct (supertrend_from_directions (l0, 1%Z) rest) as (D & L).
    split; [|split; [|reflexivity]].
    + cbn [List.length]. rewrite length_map, L. exact Lr.
    + constructor; [left; reflexivity|exact D].
Qed.

Lemma smoothing_never_changes_direction_witness :
  exists cols : alpha_trend_columns,
    calculate_alpha_trend climbing_frame = Some cols
    /\ alpha_trend_direction cols
       = unsmoothed_directions (band_rows alpha_atr_period alpha_atr_multiplier climbing_frame).
Proof.
  eexists. split; [vm_compute; reflexivity|].
  refine (proj2 (proj2 (proj2 (smoothing_never_changes_direction climbing_frame) _ _))).
  vm_compute. reflexivity.
Defined.

(** ** The channels of the breakout engine *)

Lemma fold_max_fin (win : list Q) (a : Q) :
  exists m : Q,
    fold_left Backtest.pd_max2 (map Fin win) (Fin a) = Fin m
    /\ a <= m /\ Forall (fun x => x <= m) win.
Proof.
  revert a. induction win as [|x win IH]; intro a.
  - exists a. split; [reflexivity|]. split; [lra|constructor].
  - cbn [map fold_left]. rewrite pd_max2_fin.
    destruct (IH (if Qlt_bool a x then x else a)) as (m & E & B & F).
    exists m. split; [exact E|].
    destruct (Qlt_bool_spec a x); (split; [lra|constructor; [lra|exact F]]).
Qed.

Lemma fold_min_fin (win : list Q) (a : Q) :
  exists m : Q,
    fold_left Backtest.pd_min2 (map Fin win) (Fin a) = Fin m
    /\ m <= a /\ Forall (fun x => m <= x) win.
Proof.
  revert a. induction win as [|x win IH]; intro a.
  - exists a. split; [reflexivity|]. split; [lra|constructor].
  - cbn [map fold_left]. rewrite pd_min2_fin.
    destruct (IH (if Qlt_bool x a then x else a)) as (m & E & B & F).
    exists m. split; [exact E|].
    destruct (Qlt_bool_spec x a); (split; [lra|constructor; [lra|exact F]]).
Qed.

Lemma no_nan_in_finite (win : list Q) : existsb PyFloat.isnan (map Fin win) = false.
Proof. induction win as [|x win IH]; [reflexivity|exact IH]. Qed.

Lemma window_max_finite (win : list Q) :
  win <> [] ->
  exists m : Q,
    window_extreme Backtest.pd_max2 (map Fin win) = Fin m /\ Forall (fun x => x <= m) win.
Proof.
  intro NE. unfold window_extreme. rewrite no_nan_in_finite.
  destruct win as [|x win]; [contradiction NE; reflexivity|].
  cbn [map fold_left]. change (Backtest.pd_max2 NaN (Fin x)) with (Fin x).
  destruct (fold_max_fin win x) as (m & E & B & F).
  exists m. split; [exact E|]. constructor; assumption.
Qed.

Lemma window_min_finite (win : list Q) :
  win <> [] ->
  exists m : Q,
    window_extreme Backtest.pd_min2 (map Fin win) = Fin m /\ Forall (fun x => m <= x) win.
Proof.
  intro NE. unfold window_extreme. rewrite no_nan_in_finite.
  destruct win as [|x win]; [contradiction NE; reflexivity|].
  cbn [map fold_left]. change (Backtest.pd_min2 NaN (Fin x)) with (Fin x).
  destruct (fold_min_fin win x) as (m & E & B & F).
  exists m. split; [exact E|]. constructor; assumption.
Qed.

Lemma length_rolling_extreme (pick : pyfloat -> pyfloat -> pyfloat)
    (data : list pyfloat) (window : nat) :
  List.length (rolling_extreme pick data window) = List.length data.
Proof. unfold rolling_extreme. rewrite length_map, length_seq. reflexivity. Qed.

(** The window that ends at the last row of a column. *)
Lemma last_window (qs : list Q) (x : Q) (window : nat) :
  (1 <= window <= List.length (qs ++ [x]))%nat ->
  exists win : list Q,
    TechnicalIndicators.window_at (map Fin (qs ++ [x])) window (List.length qs)
    = Some (map Fin win)
    /\ In x win.
Proof.
  intro L. rewrite length_app in L. cbn [List.length] in L.
  unfold TechnicalIndicators.window_at.
  replace (0 <? window)%nat with true by (symmetry; apply Nat.ltb_lt; lia).
  replace (window <=? List.length qs + 1)%nat with true by (symmetry; apply Nat.leb_le; lia).
  cbn [andb]. rewrite skipn_map, firstn_map.
  eexists. split; [reflexivity|].
  rewrite firstn_all2 by (rewrite length_skipn, length_app; cbn [List.length]; lia).
  rewrite skipn_app.
  replace (List.length qs + 1 - window - List.length qs)%nat with 0%nat by lia.
  apply in_or_app. right. left. reflexivity.
Qed.

Lemma rolling_max_last (qs : list Q) (x : Q) (window : nat) :
  (1 <= window <= List.length (qs ++ [x]))%nat ->
  exists m : Q,
    iloc_last (rolling_max (map Fin (qs ++ [x])) window) = Some (Fin m) /\ x <= m.
Proof.
  intro L. destruct (last_window qs x window L) as (win & W & I).
  destruct (window_max_finite win) as (m & E & F); [intro Z; rewrite Z in I; exact I|].
  exists m. unfold rolling_max, rolling_extreme.
  rewrite length_map, length_app, Nat.add_1_r, iloc_last_map_seq, W, E.
  split; [reflexivity|]. rewrite Forall_forall in F. exact (F x I).
Qed.

Lemma rolling_min_last (qs : list Q) (x : Q) (window : nat) :
  (1 <= window <= List.length (qs ++ [x]))%nat ->
  exists m : Q,
    iloc_last (rolling_min (map Fin (qs ++ [x])) window) = Some (Fin m) /\ m <= x.
Proof.
  intro L. destruct (last_window qs x window L) as (win & W & I).
  destruct (window_min_finite win) as (m & E & F); [intro Z; rewrite Z in I; exact I|].
  exists m. unfold rolling_min, rolling_extreme.
  rewrite length_map, length_app, Nat.add_1_r, iloc_last_map_seq, W, E.
  split; [reflexivity|]. rewrite Forall_forall in F. exact (F x I).
Qed.

Lemma ordered_columns (df : list Ohlc.row) :
  Forall ordered_row df ->
  exists hs ls cs : list Q,
    map Ohlc.high df = map Fin hs /\ map Ohlc.low df = map Fin ls
    /\ map Ohlc.close df = map Fin cs
    /\ List.length hs = List.length df /\ List.length ls = List.length df
    /\ List.length cs = List.length df.
Proof.
  intro H. induction H as [|r df (h & l & c & -> & _) _ (hs & ls & cs & Eh & El & Ec & Lh & Ll & Lc)].
  - exists [], [], []. repeat split; reflexivity.
  - exists (h :: hs), (l :: ls), (c :: cs). cbn [map List.length Ohlc.high Ohlc.low Ohlc.close].
    rewrite Eh, El, Ec, Lh, Ll, Lc. repeat split; reflexivity.
Qed.

Lemma breakout_needs_channel (df : Turtle.input) (sc : scored) :
  Turtle.evaluate df = inr sc ->
  (s_signal sc = "LONG" ->
   PyFloat.ge (Turtle.current_price df) (Turtle.entry_high df) = true)
  /\ (s_signal sc = "SHORT" ->
      PyFloat.le (Turtle.current_price df) (Turtle.entry_low df) = true).
Proof.
  unfold Turtle.evaluate. scored_only. peel_eq.
  intros H. injection H as <-. cbn [s_signal]. chain_back.
  destruct (PyFloat.ge (Turtle.current_price df) (Turtle.entry_high df)) eqn:Up;
    destruct (PyFloat.lt (Turtle.prev_price df) (Turtle.prev_entry_high df));
    destruct (PyFloat.le (Turtle.current_price df) (Turtle.entry_low df)) eqn:Down;
    destruct (PyFloat.gt (Turtle.prev_price df) (Turtle.prev_entry_low df));
    destruct (PyFloat.le (Turtle.current_price df) (Turtle.exit_low df));
    destruct (PyFloat.ge (Turtle.current_price df) (Turtle.exit_high df));
    settle_pair; settle_pair;
    (split; intros X; first [reflexivity|discriminate X]).
Qed.

Lemma breakout_scores (df : Turtle.input) :
  (21 <= Turtle.len_df df)%nat -> exists sc : scored, Turtle.evaluate df = inr sc.
Proof.
  intro L. unfold Turtle.evaluate. past_guard. cbv zeta. peel_eq. eexists. reflexivity.
Qed.

(** X24.  The channels of the breakout engine include the current row.  On
    a frame of at least 21 rows of finite prices with [low <= close <= high]
    the engine reads its columns and reaches the scorer; the close is never
    above the 20-row high nor below the 20-row low, so the engine calls LONG
    only when the close equals the 20-row high and SHORT only when the
    close equals the 20-row low: the tests [>=] and [<=] can be met with
    equality only. *)
Theorem breakout_needs_close_on_channel (df : list Ohlc.row) :
  Forall ordered_row df -> (21 <= List.length df)%nat ->
  exists (rows : Turtle.input) (sc : scored),
    turtle_rows df = Some rows
    /\ Turtle.evaluate rows = inr sc
    /\ PyFloat.le (Turtle.current_price rows) (Turtle.entry_high rows) = true
    /\ PyFloat.le (Turtle.entry_low rows) (Turtle.current_price rows) = true
    /\ (s_signal sc = "LONG" -> Turtle.current_price rows =f Turtle.entry_high rows)
    /\ (s_signal sc = "SHORT" -> Turtle.current_price rows =f Turtle.entry_low rows).
Proof.
  intros Ord L.
  destruct df as [|r df'] using rev_ind; [simpl in L; lia|]. clear IHdf'.
  apply Forall_app in Ord. destruct Ord as (Ord' & Last).
  inversion Last as [|? ? (h & l & c & -> & Lc & Ch) _]; subst.
  destruct (ordered_columns df' Ord') as (hs & ls & cs & Eh & El & Ec & Lh & Ll & Lcs).
  set (last := {| Ohlc.high := Fin h; Ohlc.low := Fin l; Ohlc.close := Fin c |}) in *.
  set (frame := df' ++ [last]) in *.
  assert (map Ohlc.high frame = map Fin (hs ++ [h])) as Fh
    by (unfold frame; rewrite !map_app, Eh; reflexivity).
  assert (map Ohlc.low frame = map Fin (ls ++ [l])) as Fl
    by (unfold frame; rewrite !map_app, El; reflexivity).
  assert (map Ohlc.close frame = map Fin (cs ++ [c])) as Fc
    by (unfold frame; rewrite !map_app, Ec; reflexivity).
  assert (List.length frame = S (List.length df')) as Len
    by (unfold frame; rewrite length_app; simpl; lia).
  rewrite Len in L.
  destruct (rolling_max_last hs h 20) as (eh & Eeh & Beh);
    [rewrite length_app; simpl; lia|].
  destruct (rolling_min_last ls l 20) as (el & Eel & Bel);
    [rewrite length_app; simpl; lia|].
  destruct (rolling_max_last hs h 10) as (xh & Exh & _);
    [rewrite length_app; simpl; lia|].
  destruct (rolling_min_last ls l 10) as (xl & Exl & _);
    [rewrite length_app; simpl; lia|].
  destruct (iloc_last2_some (map Ohlc.close frame)) as (pp & Epp);
    [rewrite length_map; lia|].
  destruct (iloc_last2_some (rolling_max (map Ohlc.high frame) 20)) as (ph & Eph);
    [unfold rolling_max; rewrite length_rolling_extreme, length_map; lia|].
  destruct (iloc_last2_some (rolling_min (map Ohlc.low frame) 20)) as (pl & Epl);
    [unfold rolling_min; rewrite length_rolling_extreme, length_map; lia|].
  destruct (iloc_last_some
              (atr (map Ohlc.high frame) (map Ohlc.low frame) (map Ohlc.close frame) 14))
    as (a & Ea); [apply nonempty_length; rewrite length_atr; lia|].
  destruct (analyze_trend_returns (map Ohlc.close frame) 20) as (t & Et);
    [apply nonempty_length; rewrite length_map; lia|].
  destruct (analyze_volatility_returns frame 20) as (v & Ev);
    [apply nonempty_length; lia|].
  assert (iloc_last (map Ohlc.close frame) = Some (Fin c)) as Ecl.
  { rewrite Fc, map_app. apply iloc_last_snoc. }
  unfold turtle_rows, calculate_donchian_channels, Turtle.entry_period, Turtle.exit_period.
  cbv beta iota zeta.
  rewrite Ecl, Epp, Eph, Epl, Ea, Et, Ev.
  rewrite Fh, Fl, Eeh, Eel, Exh, Exl.
  destruct (breakout_scores
              {| Turtle.len_df := List.length frame;
                 Turtle.current_price := Fin c;
                 Turtle.entry_high := Fin eh;
                 Turtle.entry_low := Fin el;
                 Turtle.exit_high := Fin xh;
                 Turtle.exit_low := Fin xl;
                 Turtle.prev_price := pp;
                 Turtle.prev_entry_high := ph;
                 Turtle.prev_entry_low := pl;
                 Turtle.atr := a;
                 Turtle.trend_analysis := t;
                 Turtle.volatility_analysis := v |}) as (sc & Esc);
    [cbn [Turtle.len_df]; lia|].
  eexists _, sc. split; [reflexivity|]. split; [exact Esc|].
  destruct (breakout_needs_channel _ sc Esc) as (Long & Short).
  cbn [Turtle.current_price Turtle.entry_high Turtle.entry_low] in *.
  unfold PyFloat.ge, PyFloat.le, feq in *.
  split; [apply Qle_bool_iff; lra|]. split; [apply Qle_bool_iff; lra|].
  split; intros X.
  - specialize (Long X). apply Qle_bool_iff in Long. lra.
  - specialize (Short X). apply Qle_bool_iff in Short. lra.
Qed.

Lemma climbing_frame_is_ordered : Forall ordered_row climbing_frame.
Proof.
  unfold climbing_frame. apply Forall_map, Forall_forall. intros k _.
  eexists _, _, _. split; [reflexivity|].
  rewrite <- !Zle_Qle. lia.
Qed.

Lemma breakout_needs_close_on_channel_witness :
  Forall ordered_row climbing_frame
  /\ (21 <= List.length climbing_frame)%nat
  /\ exists (rows : Turtle.input) (sc : scored),
       turtle_rows climbing_frame = Some rows
       /\ Turtle.evaluate rows = inr sc
       /\ PyFloat.le (Turtle.current_price rows) (Turtle.entry_high rows) = true.
Proof.
  assert (21 <= List.length climbing_frame)%nat as Rows by (simpl; lia).
  split; [exact climbing_frame_is_ordered|]. split; [exact Rows|].
  destruct (breakout_needs_close_on_channel climbing_frame climbing_frame_is_ordered Rows)
    as (rows & sc & E & S & Le & _).
  exists rows, sc. repeat split; assumption.
Defined.

(** ** The lagging span *)

Ltac in_tail :=
  first [ apply in_or_app; right; left; reflexivity
        | apply in_or_app; left; in_tail ].

(** Follow the rationale of the goal back through the [let]s that extend it. *)
Ltac trace_rationale :=
  repeat first
    [ solve [in_tail]
    | match goal with
      | E : _ = (_, ?r) |- context [?r] =>
          is_var r; split_ifs_in E; inversion E; subst; clear E
      | E : _ = (_, _, ?r) |- context [?r] =>
          is_var r; split_ifs_in E; inversion E; subst; clear E
      end ].

Lemma length_shift_up (periods : nat) (l : list pyfloat) :
  List.length (shift_up periods l) = List.length l.
Proof. unfold shift_up. rewrite length_app, length_skipn, repeat_length. lia. Qed.

(** X25.  The lagging span is the close shifted 26 rows up, so the value
    the cloud engine reads 26 rows from the end is NaN on every frame.  NaN
    is truthy and compares false, so with at least 52 rows the position of
    the lagging span is always "below", never "above" or "unknown", and every
    scored result, a LONG call included, carries the line "Chikou Span
    confirms bearish trend". *)
Theorem lagging_span_is_always_below :
  (forall close : list pyfloat,
      (26 <= List.length close)%nat ->
      iloc_from_end 26 (chikou_span close) = Some NaN)
  /\ (forall df : Ichimoku.input,
         Ichimoku.chikou_span_26 df = NaN -> (52 <= Ichimoku.len_df df)%nat ->
         Ichimoku.chikou_position (Ichimoku.analyze_ichimoku_signals df) = "below")
  /\ (forall (df : Ichimoku.input) (sc : scored),
         Ichimoku.chikou_span_26 df = NaN -> (52 <= Ichimoku.len_df df)%nat ->
         Ichimoku.evaluate df = inr sc ->
         In (lit "Chikou Span confirms bearish trend") (s_rationale sc)).
Proof.
  assert (forall df : Ichimoku.input,
             Ichimoku.chikou_span_26 df = NaN -> (52 <= Ichimoku.len_df df)%nat ->
             Ichimoku.chikou_position (Ichimoku.analyze_ichimoku_signals df) = "below")
    as Below.
  { intros df N L. unfold Ichimoku.analyze_ichimoku_signals.
    cbn [Ichimoku.chikou_position].
    replace (52 <=? Ichimoku.len_df df)%nat with true by (symmetry; apply Nat.leb_le; exact L).
    rewrite N. destruct (Ichimoku.close_26 df); reflexivity. }
  split; [|split; [exact Below|]].
  - intros close L. unfold iloc_from_end, chikou_span, Ichimoku.kijun_period.
    rewrite length_shift_up.
    replace (List.length close <? 26)%nat with false by (symmetry; apply Nat.ltb_ge; exact L).
    unfold shift_up. rewrite nth_error_app2 by (rewrite length_skipn; lia).
    rewrite length_skipn, Nat.sub_diag.
    replace (Nat.min 26 (List.length close)) with 26%nat by lia. reflexivity.
  - intros df sc N L. specialize (Below df N L).
    unfold Ichimoku.evaluate. scored_only. rewrite Below.
    cbn [String.eqb Ascii.eqb Bool.eqb]. peel_eq.
    intros H. injection H as <-. cbn [s_rationale]. trace_rationale.
Qed.

Lemma lagging_span_is_always_below_witness :
  exists sc : scored,
    Ichimoku.evaluate above_green_cloud = inr sc
    /\ s_signal sc = "LONG"
    /\ In (lit "Chikou Span confirms bearish trend") (s_rationale sc).
Proof.
  eexists. split; [vm_compute; reflexivity|].
  split; [reflexivity|].
  refine (proj2 (proj2 lagging_span_is_always_below) above_green_cloud _ eq_refl _ _).
  - simpl. lia.
  - vm_compute. reflexivity.
Defined.
